(** * jellyfin-collection: the aggregation / reconciliation pipeline

    A shallow embedding of [jfc.services.collection_builder],
    [jfc.services.runner] and the part of [jfc.clients.radarr] that the
    acquisition dispatcher relies on, together with the properties of the
    pipeline: deduplication, filtering, membership reconciliation, the
    schedule gate and failure isolation in the run orchestrator. *)

From Stdlib Require Import ZArith QArith String Ascii List Lia Bool.
From stdpp Require Import base gmap sets list strings pretty.

Close Scope Q_scope.
Open Scope string_scope.
Open Scope list_scope.
Open Scope Z_scope.

(** ** Python truthiness

    The code tests optional fields with plain [if x] and [x and y]: [None],
    [0], [0.0], the empty string and the empty list are all false. *)

Class Truthy (A : Type) := truthy : A -> bool.

#[global] Instance truthy_Z : Truthy Z := fun n => negb (n =? 0).
#[global] Instance truthy_Q : Truthy Q := fun q => negb (Qeq_bool q 0%Q).
#[global] Instance truthy_string : Truthy string :=
  fun s => match s with EmptyString => false | _ => true end.
#[global] Instance truthy_list {A} : Truthy (list A) :=
  fun l => match l with [] => false | _ => true end.
#[global] Instance truthy_option {A} `{Truthy A} : Truthy (option A) :=
  fun o => match o with Some x => truthy x | None => false end.

(** [x is not None] *)
Definition is_not_None {A} (o : option A) : bool :=
  match o with Some _ => true | None => false end.

(** [x or d] on an optional value. *)
Definition or_default {A} `{Truthy A} (o : option A) (d : A) : A :=
  match o with
  | Some x => if truthy x then x else d
  | None => d
  end.

(** [l[:n]] for a Python list and an [int] bound: a negative bound counts
    from the end. *)
Definition slice_to {A} (l : list A) (n : Z) : list A :=
  if 0 <=? n then take (Z.to_nat n) l
  else take (Z.to_nat (Z.of_nat (length l) + n)) l.

(** ** Data model *)

Inductive MediaType := MOVIE | SERIES | SEASON | EPISODE.

(** Modelled from the spec: [jfc.models.media.MediaItem] is not part of the
    sources at hand; the fields are those of the data model (section 3) and
    the ones the code reads. Integers are unbounded ([Z]); the rating is a
    float and is represented by the rational it denotes, on which the
    comparisons and the test against zero are exact. *)
Module MediaItem.
Record t := mk {
  title : string;
  year : option Z;
  tmdb_id : option Z;
  imdb_id : option string;
  tvdb_id : option Z;
  vote_average : option Q;
  vote_count : option Z;
  genres : list string;
  original_country : option string
}.
End MediaItem.

(** Modelled from the spec: [jfc.models.collection.CollectionFilter]; the
    bounds are the attributes [_apply_filters] reads. *)
Module CollectionFilter.
Record t := mk {
  year_gte : option Z;
  year_lte : option Z;
  vote_average_gte : option Q;
  critic_rating_gte : option Q;
  tmdb_vote_count_gte : option Z;
  country_not : list string;
  origin_country_not : list string
}.
Definition unconstrained : t := mk None None None None None [] [].
End CollectionFilter.

(** Modelled from the spec: [ScheduleType] and [CollectionSchedule]
    (section 3: type in daily, weekly, monthly, never; a day of the week
    and a day of the month). *)
Inductive ScheduleType := DAILY | WEEKLY | MONTHLY | NEVER.

Module CollectionSchedule.
Record t := mk {
  schedule_type : ScheduleType;
  day_of_week : option string;
  day_of_month : option Z
}.
End CollectionSchedule.

(** A [dict[str, Any]] of provider parameters. *)
Inductive Any := AInt (n : Z) | AStr (s : string) | ANone.
Definition dict := list (string * Any).

Fixpoint dict_get (d : dict) (k : string) (default : Any) : Any :=
  match d with
  | [] => default
  | (k', v) :: d' => if String.eqb k k' then v else dict_get d' k default
  end.

(** Modelled from the spec: [jfc.models.collection.CollectionConfig], with
    the attributes the builder and the runner read. *)
Module CollectionConfig.
Record t := mk {
  name : string;
  summary : option string;
  sort_title : option string;
  tmdb_trending_weekly : option Z;
  tmdb_trending_daily : option Z;
  tmdb_popular : option Z;
  tmdb_discover : option dict;
  trakt_trending : option Z;
  trakt_popular : option Z;
  trakt_chart : option dict;
  filters : CollectionFilter.t;
  limit : option Z;
  schedule : CollectionSchedule.t;
  item_radarr_tag : option string;
  item_sonarr_tag : option string
}.
End CollectionConfig.

(** Modelled from the spec: [CollectionItem], as [build_collection] fills
    it. *)
Module CollectionItem.
Record t := mk {
  title : string;
  year : option Z;
  tmdb_id : option Z;
  imdb_id : option string;
  tvdb_id : option Z;
  jellyfin_id : option string;
  matched : bool;
  in_library : bool
}.
End CollectionItem.

(** Modelled from the spec: [Collection], a build result. The derived
    counters of [update_stats] only feed the log messages and are left out,
    as is the [jellyfin_id] attribute, which [sync_collection] sets and
    only reads back itself. *)
Module Collection.
Record t := mk {
  config : CollectionConfig.t;
  library_name : string;
  items : list CollectionItem.t
}.
End Collection.

(** ** Provider aggregator: deduplication ([_fetch_items], last loop) *)

Fixpoint dedupe_loop (items : list MediaItem.t) (seen_ids : gset Z)
    (unique_items : list MediaItem.t) : list MediaItem.t :=
  match items with
  | [] => unique_items
  | item :: rest =>
      match MediaItem.tmdb_id item with
      | Some id =>
          if truthy id && negb (bool_decide (id ∈ seen_ids))
          then dedupe_loop rest ({[id]} ∪ seen_ids) (unique_items ++ [item])
          else dedupe_loop rest seen_ids unique_items
      | None => dedupe_loop rest seen_ids unique_items
      end
  end.

Definition deduplicate (items : list MediaItem.t) : list MediaItem.t :=
  dedupe_loop items ∅ [].

(** The identifier test of the loop: [item.tmdb_id] is set and not zero. *)
Definition carries_tmdb_id (item : MediaItem.t) : bool :=
  truthy (MediaItem.tmdb_id item).

(** A catalog entry with a title and a catalog identifier only. *)
Definition movie (title : string) (tmdb_id : option Z) : MediaItem.t :=
  MediaItem.mk title None tmdb_id None None None None [] None.

(** ** Filter pipeline ([_apply_filters]) *)

Definition Qlt_bool (x y : Q) : bool := negb (Qle_bool y x).

(** One pass of the loop body: [false] stands for [continue]. *)
Definition passes_filters (filters : CollectionFilter.t) (item : MediaItem.t)
  : bool :=
  (* Year filters *)
  if match CollectionFilter.year_gte filters, MediaItem.year item with
     | Some b, Some y => truthy b && truthy y && (y <? b)
     | _, _ => false
     end then false else
  if match CollectionFilter.year_lte filters, MediaItem.year item with
     | Some b, Some y => truthy b && truthy y && (b <? y)
     | _, _ => false
     end then false else
  (* Rating filters *)
  if match CollectionFilter.vote_average_gte filters,
           MediaItem.vote_average item with
     | Some b, Some v => truthy b && truthy v && Qlt_bool v b
     | _, _ => false
     end then false else
  if match CollectionFilter.critic_rating_gte filters,
           MediaItem.vote_average item with
     | Some b, Some v => truthy b && truthy v && Qlt_bool v b
     | _, _ => false
     end then false else
  (* Vote count filters *)
  if match CollectionFilter.tmdb_vote_count_gte filters,
           MediaItem.vote_count item with
     | Some b, Some v => truthy b && truthy v && (v <? b)
     | _, _ => false
     end then false else
  (* Country filters *)
  if match MediaItem.original_country item with
     | Some c => truthy (CollectionFilter.country_not filters) && truthy c
                 && bool_decide (c ∈ CollectionFilter.country_not filters)
     | None => false
     end then false else
  if match MediaItem.original_country item with
     | Some c => truthy (CollectionFilter.origin_country_not filters)
                 && truthy c
                 && bool_decide (c ∈ CollectionFilter.origin_country_not filters)
     | None => false
     end then false else
  true.

Definition _apply_filters (items : list MediaItem.t)
    (config : CollectionConfig.t) : list MediaItem.t :=
  let filters := CollectionConfig.filters config in
  let filtered := List.filter (passes_filters filters) items in
  (* Apply limit *)
  match CollectionConfig.limit config with
  | Some n => if truthy n then slice_to filtered n else filtered
  | None => filtered
  end.

(** The filter contract in the words of the specification: a bound is
    checked whenever the field it constrains is present, bounds are
    inclusive. *)
Definition spec_satisfies_bounds (filters : CollectionFilter.t)
    (item : MediaItem.t) : bool :=
  match CollectionFilter.year_gte filters, MediaItem.year item with
  | Some b, Some y => b <=? y | _, _ => true end &&
  match CollectionFilter.year_lte filters, MediaItem.year item with
  | Some b, Some y => y <=? b | _, _ => true end &&
  match CollectionFilter.vote_average_gte filters,
        MediaItem.vote_average item with
  | Some b, Some v => Qle_bool b v | _, _ => true end &&
  match CollectionFilter.critic_rating_gte filters,
        MediaItem.vote_average item with
  | Some b, Some v => Qle_bool b v | _, _ => true end &&
  match CollectionFilter.tmdb_vote_count_gte filters,
        MediaItem.vote_count item with
  | Some b, Some v => b <=? v | _, _ => true end &&
  match MediaItem.original_country item with
  | Some c => negb (bool_decide (c ∈ CollectionFilter.country_not filters))
              && negb (bool_decide
                         (c ∈ CollectionFilter.origin_country_not filters))
  | None => true
  end.

(** Setters used to switch a single lower bound off. *)
Definition without_year_gte (f : CollectionFilter.t) : CollectionFilter.t :=
  CollectionFilter.mk None (CollectionFilter.year_lte f)
    (CollectionFilter.vote_average_gte f) (CollectionFilter.critic_rating_gte f)
    (CollectionFilter.tmdb_vote_count_gte f) (CollectionFilter.country_not f)
    (CollectionFilter.origin_country_not f).

Definition without_vote_average_gte (f : CollectionFilter.t)
  : CollectionFilter.t :=
  CollectionFilter.mk (CollectionFilter.year_gte f) (CollectionFilter.year_lte f)
    None (CollectionFilter.critic_rating_gte f)
    (CollectionFilter.tmdb_vote_count_gte f) (CollectionFilter.country_not f)
    (CollectionFilter.origin_country_not f).

Definition without_vote_count_gte (f : CollectionFilter.t)
  : CollectionFilter.t :=
  CollectionFilter.mk (CollectionFilter.year_gte f) (CollectionFilter.year_lte f)
    (CollectionFilter.vote_average_gte f) (CollectionFilter.critic_rating_gte f)
    None (CollectionFilter.country_not f)
    (CollectionFilter.origin_country_not f).

(** ** Reconciliation engine: the membership diff ([sync_collection]) *)

Definition target_ids_of (items : list CollectionItem.t) : gset string :=
  list_to_set
    (omap (fun item =>
             if truthy (CollectionItem.jellyfin_id item)
             then CollectionItem.jellyfin_id item else None) items).

Definition to_add_of (current_ids target_ids : gset string) : gset string :=
  target_ids ∖ current_ids.

Definition to_remove_of (current_ids target_ids : gset string) : gset string :=
  current_ids ∖ target_ids.

(** ** Schedule gate ([Runner._should_run_today])

    [datetime.now()] is passed in as [today]; the calendar arithmetic is
    that of CPython's [datetime] module. *)

Module datetime.
Record t := mk { year : Z; month : Z; day : Z }.

Definition _DAYS_IN_MONTH : list Z :=
  [-1; 31; 28; 31; 30; 31; 30; 31; 31; 30; 31; 30; 31].
Definition _DAYS_BEFORE_MONTH : list Z :=
  [-1; 0; 31; 59; 90; 120; 151; 181; 212; 243; 273; 304; 334].

Definition _is_leap (year : Z) : bool :=
  (year mod 4 =? 0) && (negb (year mod 100 =? 0) || (year mod 400 =? 0)).

Definition _days_before_year (year : Z) : Z :=
  let y := year - 1 in y * 365 + y / 4 - y / 100 + y / 400.

Definition _days_in_month (year month : Z) : Z :=
  if (month =? 2) && _is_leap year then 29
  else nth (Z.to_nat month) _DAYS_IN_MONTH (-1).

Definition _days_before_month (year month : Z) : Z :=
  nth (Z.to_nat month) _DAYS_BEFORE_MONTH (-1)
  + (if (2 <? month) && _is_leap year then 1 else 0).

Definition toordinal (d : t) : Z :=
  _days_before_year (year d) + _days_before_month (year d) (month d) + day d.

(** Monday is 0. *)
Definition weekday (d : t) : Z := (toordinal d + 6) mod 7.

Definition day_names : list string :=
  ["Monday"; "Tuesday"; "Wednesday"; "Thursday"; "Friday"; "Saturday";
   "Sunday"].

(** [strftime("%A")], with the English day names of the C locale. *)
Definition strftime_A (d : t) : string :=
  nth (Z.to_nat (weekday d)) day_names "".

(** A date of the calendar, from year 1 on (the upper bound 9999 of
    Python's [date] plays no role here). *)
Definition valid (d : t) : Prop :=
  1 <= year d /\ 1 <= month d <= 12 /\
  1 <= day d <= _days_in_month (year d) (month d).

(** The day after [d] ([d + timedelta(days=1)]). *)
Definition tomorrow (d : t) : t :=
  if day d <? _days_in_month (year d) (month d)
  then mk (year d) (month d) (day d + 1)
  else if month d <? 12 then mk (year d) (month d + 1) 1
  else mk (year d + 1) 1 1.

Fixpoint days_from (d : t) (n : nat) : list t :=
  match n with
  | O => []
  | S n' => d :: days_from (tomorrow d) n'
  end.
End datetime.

(** [str.lower()] on byte strings: the ASCII capitals are folded. The
    weekday names are ASCII, and no other character lowers to one of their
    letters, so the comparison in the gate is the one Python makes. *)
Definition lower_ascii (c : ascii) : ascii :=
  let n := nat_of_ascii c in
  if ((65 <=? n) && (n <=? 90))%nat then ascii_of_nat (n + 32) else c.

Fixpoint lower (s : string) : string :=
  match s with
  | EmptyString => EmptyString
  | String c s' => String (lower_ascii c) (lower s')
  end.

Definition _should_run_today (schedule : CollectionSchedule.t)
    (today : datetime.t) : bool :=
  match CollectionSchedule.schedule_type schedule with
  | DAILY => true
  | NEVER => false
  | WEEKLY =>
      let day_name := lower (datetime.strftime_A today) in
      String.eqb day_name
        (lower (or_default (CollectionSchedule.day_of_week schedule) "sunday"))
  | MONTHLY =>
      datetime.day today
      =? or_default (CollectionSchedule.day_of_month schedule) 1
  end.

(** The weekday names a schedule may be configured with. *)
Definition weekday_names : list string :=
  ["monday"; "tuesday"; "wednesday"; "thursday"; "friday"; "saturday";
   "sunday"].

(** The day the weekly (resp. monthly) gate is configured for. *)
Definition configured_day_of_week (schedule : CollectionSchedule.t) : string :=
  or_default (CollectionSchedule.day_of_week schedule) "sunday".
Definition configured_day_of_month (schedule : CollectionSchedule.t) : Z :=
  or_default (CollectionSchedule.day_of_month schedule) 1.

(** The weekly test on the number of the weekday (Monday is 0). *)
Definition weekly_match (configured_lower : string) (w : Z) : bool :=
  String.eqb (lower (nth (Z.to_nat w) datetime.day_names "")) configured_lower.

(** How many of the given days pass the gate. *)
Definition runs_among (schedule : CollectionSchedule.t)
    (days : list datetime.t) : nat :=
  length (List.filter (_should_run_today schedule) days).

(** The days of one month. *)
Definition days_of_month (year month : Z) : list datetime.t :=
  List.map (fun d => datetime.mk year month (Z.of_nat d))
    (seq 1 (Z.to_nat (datetime._days_in_month year month))).

(** ** Effects: exceptions and state

    The coroutines are awaited one after the other, so [await f(x)] is an
    ordinary call in a state-and-exception monad: a computation takes the
    state, and returns a value or raises, together with the state it
    leaves. Log messages are not part of the model. *)

Inductive exn := Exception (cls : string) (msg : string).

Definition str (e : exn) : string := match e with Exception _ m => m end.

Inductive Result (A : Type) := Return (a : A) | Raise (e : exn).
Arguments Return {A} a.
Arguments Raise {A} e.

Definition M (S A : Type) : Type := S -> Result A * S.

Definition ret {S A} (a : A) : M S A := fun s => (Return a, s).
Definition raise {S A} (e : exn) : M S A := fun s => (Raise e, s).
Definition bind {S A B} (m : M S A) (k : A -> M S B) : M S B :=
  fun s => let '(r, s') := m s in
           match r with
           | Return a => k a s'
           | Raise e => (Raise e, s')
           end.
Definition try_except {S A} (body : M S A) (handler : exn -> M S A) : M S A :=
  fun s => let '(r, s') := body s in
           match r with
           | Return a => (Return a, s')
           | Raise e => handler e s'
           end.
Definition lift_result {S A} (r : Result A) : M S A := fun s => (r, s).

Declare Scope monad_scope.
Delimit Scope monad_scope with monad.
Notation "x <- c ;; k" := (bind c (fun x => k))
  (at level 100, c at next level, right associativity) : monad_scope.
Notation "c ;;; k" := (bind c (fun _ => k))
  (at level 100, right associativity) : monad_scope.
Open Scope monad_scope.

(** [for x in l: body(x)] *)
Fixpoint for_each {S A} (l : list A) (body : A -> M S unit) : M S unit :=
  match l with
  | [] => ret tt
  | x :: l' => body x ;;; for_each l' body
  end.

(** [[f(x) for x in l]] with an effectful [f]. *)
Fixpoint map_M {S A B} (f : A -> M S B) (l : list A) : M S (list B) :=
  match l with
  | [] => ret []
  | x :: l' => y <- f x ;; ys <- map_M f l' ;; ret (y :: ys)
  end.

(** ** HTTP and JSON, as the clients see them *)

#[warnings="-register-all"]
Inductive Json :=
| JNull
| JBool (b : bool)
| JInt (n : Z)
| JStr (s : string)
| JList (l : list Json)
| JDict (kv : list (string * Json)).

#[global] Instance truthy_Json : Truthy Json := fun j =>
  match j with
  | JNull => false
  | JBool b => b
  | JInt n => truthy n
  | JStr s => truthy s
  | JList l => truthy l
  | JDict kv => truthy kv
  end.

Inductive Method := GET | POST | PUT | DELETE.

Module Response.
Record t := mk { status_code : Z; json : option Json; text : string }.
End Response.

(** ** Collaborators

    Every collaborator acts on the outside world [W] (servers, network) and
    may raise. The pipeline runs on [State W]: the world, the log of the
    collaborator calls made so far with their outcome, and the statistics
    dictionary of the current run. *)

(** An entry of [get_libraries()]: a dictionary read at ["Name"] and
    ["ItemId"]. *)
Module Library.
Record t := mk { Name : string; ItemId : string }.
End Library.

(** An entry of [get_collections()]: a dictionary read at ["Id"] and
    ["Name"]. *)
Module BoxSet.
Record t := mk { Id : string; Name : string }.
End BoxSet.

(** Modelled from the spec: [LibraryItem], of which the builder reads the
    library identifier only. *)
Module LibraryItem.
Record t := mk { jellyfin_id : string; title : string }.
End LibraryItem.

Module JellyfinClient.
Record t (W : Type) := mk {
  get_libraries : M W (list Library.t);
  get_collections : M W (list BoxSet.t);
  get_collection_items : string -> M W (list string);
  create_collection : string -> M W string;
  add_to_collection : string -> list string -> M W bool;
  remove_from_collection : string -> list string -> M W bool;
  update_collection_metadata :
    string -> option string -> option string -> M W bool
}.
Arguments mk {W}. Arguments get_libraries {W}.
Arguments get_collections {W}. Arguments get_collection_items {W}.
Arguments create_collection {W}. Arguments add_to_collection {W}.
Arguments remove_from_collection {W}.
Arguments update_collection_metadata {W}.
End JellyfinClient.

(** The catalog clients; [discover_*] receive the parameter dictionary the
    keyword arguments are read from, and the limit. *)
Module TMDbClient.
Record t (W : Type) := mk {
  get_trending_movies : string -> Z -> M W (list MediaItem.t);
  get_trending_series : string -> Z -> M W (list MediaItem.t);
  get_popular_movies : Z -> M W (list MediaItem.t);
  get_popular_series : Z -> M W (list MediaItem.t);
  discover_movies : dict -> Any -> M W (list MediaItem.t);
  discover_series : dict -> Any -> M W (list MediaItem.t)
}.
Arguments mk {W}. Arguments get_trending_movies {W}.
Arguments get_trending_series {W}. Arguments get_popular_movies {W}.
Arguments get_popular_series {W}. Arguments discover_movies {W}.
Arguments discover_series {W}.
End TMDbClient.

Module TraktClient.
Record t (W : Type) := mk {
  get_trending_movies : Any -> M W (list MediaItem.t);
  get_trending_series : Any -> M W (list MediaItem.t);
  get_popular_movies : Any -> M W (list MediaItem.t);
  get_popular_series : Any -> M W (list MediaItem.t);
  get_watched_movies : Any -> Any -> M W (list MediaItem.t);
  get_watched_series : Any -> Any -> M W (list MediaItem.t)
}.
Arguments mk {W}. Arguments get_trending_movies {W}.
Arguments get_trending_series {W}. Arguments get_popular_movies {W}.
Arguments get_popular_series {W}. Arguments get_watched_movies {W}.
Arguments get_watched_series {W}.
End TraktClient.

Module RadarrClient.
Record t (W : Type) := mk {
  add_movie : Z -> option (list string) -> M W (option Json)
}.
Arguments mk {W}. Arguments add_movie {W}.
End RadarrClient.

Module SonarrClient.
Record t (W : Type) := mk {
  add_series : Z -> option (list string) -> M W (option Json)
}.
Arguments mk {W}. Arguments add_series {W}.
End SonarrClient.

Module MediaMatcher.
Record t (W : Type) := mk {
  find_in_library : MediaItem.t -> string -> M W (option LibraryItem.t)
}.
Arguments mk {W}. Arguments find_in_library {W}.
End MediaMatcher.

Module KometaParser.
Record t (W : Type) := mk {
  get_all_collections : M W (list (string * list CollectionConfig.t))
}.
Arguments mk {W}. Arguments get_all_collections {W}.
End KometaParser.

Inductive Call :=
| CallGetAllCollections
| CallFetch (provider method : string) (args : list Any)
| CallFindInLibrary (item : MediaItem.t) (library_id : string)
| CallGetLibraries
| CallGetCollections
| CallGetCollectionItems (collection_id : string)
| CallCreateCollection (name : string)
| CallAddToCollection (collection_id : string) (item_ids : list string)
| CallRemoveFromCollection (collection_id : string) (item_ids : list string)
| CallUpdateCollectionMetadata (collection_id : string)
    (overview sort_name : option string)
| CallAddMovie (tmdb_id : Z) (tags : option (list string))
| CallAddSeries (tvdb_id : Z) (tags : option (list string))
| CallSendRunStart (libraries : list string) (scheduled : bool)
| CallSendRunEnd (collections_updated items_added items_removed errors : Z)
| CallSendCollectionChanges (collection_name library : string)
    (added removed : list string)
| CallSendError (title message : string).

Inductive Reply :=
| Returned
| ReturnedIds (ids : list string)
| Raised (e : exn).

(** The calls that change the library server. *)
Definition is_library_write (c : Call) : bool :=
  match c with
  | CallCreateCollection _ | CallAddToCollection _ _
  | CallRemoveFromCollection _ _ | CallUpdateCollectionMetadata _ _ _ => true
  | _ => false
  end.

(** The requests to an acquisition manager. *)
Definition is_acquisition (c : Call) : bool :=
  match c with
  | CallAddMovie _ _ | CallAddSeries _ _ => true
  | _ => false
  end.

Module Stats.
Record t := mk {
  collections_updated : Z;
  items_added : Z;
  items_removed : Z;
  errors : Z
}.
Definition zero : t := mk 0 0 0 0.
End Stats.

Record State (W : Type) := mkState {
  world : W;
  trace : list (Call * Reply);
  stats : Stats.t
}.
Arguments mkState {W}. Arguments world {W}. Arguments trace {W}.
Arguments stats {W}.

Definition initial {W} (w : W) : State W := mkState w [] Stats.zero.

(** A collaborator call, logged with its outcome. *)
Definition perform {W A} (c : Call) (show : A -> Reply) (op : M W A)
  : M (State W) A :=
  fun s =>
    let '(r, w') := op (world s) in
    (r, mkState w'
          (trace s ++ [(c, match r with
                           | Return a => show a
                           | Raise e => Raised e
                           end)])
          (stats s)).

Definition quiet {A} (_ : A) : Reply := Returned.

Definition update_stats {W} (f : Stats.t -> Stats.t) : M (State W) unit :=
  fun s => (Return tt, mkState (world s) (trace s) (f (stats s))).

Definition get_stats {W} : M (State W) Stats.t :=
  fun s => (Return (stats s), s).

(** ** [CollectionBuilder] *)

Module CollectionBuilder.
Record t (W : Type) := mk {
  jellyfin : JellyfinClient.t W;
  tmdb : TMDbClient.t W;
  trakt : option (TraktClient.t W);
  radarr : option (RadarrClient.t W);
  sonarr : option (SonarrClient.t W);
  dry_run : bool;
  matcher : MediaMatcher.t W
}.
Arguments mk {W}. Arguments jellyfin {W}. Arguments tmdb {W}.
Arguments trakt {W}. Arguments radarr {W}. Arguments sonarr {W}.
Arguments dry_run {W}. Arguments matcher {W}.
End CollectionBuilder.

Definition is_movie (media_type : MediaType) : bool :=
  match media_type with MOVIE => true | _ => false end.

Definition Any_eqb (a b : Any) : bool :=
  match a, b with
  | AInt n, AInt m => n =? m
  | AStr s, AStr t => String.eqb s t
  | ANone, ANone => true
  | _, _ => false
  end.

Definition fetch {W} (provider method : string) (args : list Any)
    (op : M W (list MediaItem.t)) : M (State W) (list MediaItem.t) :=
  perform (CallFetch provider method args) quiet op.

Definition _fetch_tmdb_discover {W} (self : CollectionBuilder.t W)
    (discover : dict) (media_type : MediaType)
  : M (State W) (list MediaItem.t) :=
  let limit := dict_get discover "limit" (AInt 20) in
  if is_movie media_type then
    fetch "tmdb" "discover_movies" [limit]
      (TMDbClient.discover_movies (CollectionBuilder.tmdb self) discover limit)
  else
    fetch "tmdb" "discover_series" [limit]
      (TMDbClient.discover_series (CollectionBuilder.tmdb self) discover limit).

Definition _fetch_trakt_chart {W} (self : CollectionBuilder.t W)
    (chart_config : dict) (media_type : MediaType)
  : M (State W) (list MediaItem.t) :=
  match CollectionBuilder.trakt self with
  | None => ret []
  | Some trakt =>
      let chart := dict_get chart_config "chart" (AStr "watched") in
      let period := dict_get chart_config "time_period" (AStr "weekly") in
      let limit := dict_get chart_config "limit" (AInt 20) in
      if Any_eqb chart (AStr "watched") then
        if is_movie media_type then
          fetch "trakt" "get_watched_movies" [period; limit]
            (TraktClient.get_watched_movies trakt period limit)
        else
          fetch "trakt" "get_watched_series" [period; limit]
            (TraktClient.get_watched_series trakt period limit)
      else if Any_eqb chart (AStr "trending") then
        if is_movie media_type then
          fetch "trakt" "get_trending_movies" [limit]
            (TraktClient.get_trending_movies trakt limit)
        else
          fetch "trakt" "get_trending_series" [limit]
            (TraktClient.get_trending_series trakt limit)
      else if Any_eqb chart (AStr "popular") then
        if is_movie media_type then
          fetch "trakt" "get_popular_movies" [limit]
            (TraktClient.get_popular_movies trakt limit)
        else
          fetch "trakt" "get_popular_series" [limit]
            (TraktClient.get_popular_series trakt limit)
      else ret []
  end.

(** [if cond: items.extend(await source)] *)
Definition extend_if {S A} (cond : bool) (items : list A)
    (source : M S (list A)) : M S (list A) :=
  if cond then (more <- source ;; ret (items ++ more)) else ret items.

(** The provider calls of [_fetch_items], in the order of the code; the
    result is the concatenation before deduplication. *)
Definition _fetch_sources {W} (self : CollectionBuilder.t W)
    (config : CollectionConfig.t) (media_type : MediaType)
  : M (State W) (list MediaItem.t) :=
  let tmdb := CollectionBuilder.tmdb self in
  let items := [] in
  (* TMDb Trending *)
  items <- extend_if (truthy (CollectionConfig.tmdb_trending_weekly config))
    items
    (let n := default 0 (CollectionConfig.tmdb_trending_weekly config) in
     if is_movie media_type then
       fetch "tmdb" "get_trending_movies" [AStr "week"; AInt n]
         (TMDbClient.get_trending_movies tmdb "week" n)
     else
       fetch "tmdb" "get_trending_series" [AStr "week"; AInt n]
         (TMDbClient.get_trending_series tmdb "week" n)) ;;
  items <- extend_if (truthy (CollectionConfig.tmdb_trending_daily config))
    items
    (let n := default 0 (CollectionConfig.tmdb_trending_daily config) in
     if is_movie media_type then
       fetch "tmdb" "get_trending_movies" [AStr "day"; AInt n]
         (TMDbClient.get_trending_movies tmdb "day" n)
     else
       fetch "tmdb" "get_trending_series" [AStr "day"; AInt n]
         (TMDbClient.get_trending_series tmdb "day" n)) ;;
  (* TMDb Popular *)
  items <- extend_if (truthy (CollectionConfig.tmdb_popular config)) items
    (let n := default 0 (CollectionConfig.tmdb_popular config) in
     if is_movie media_type then
       fetch "tmdb" "get_popular_movies" [AInt n]
         (TMDbClient.get_popular_movies tmdb n)
     else
       fetch "tmdb" "get_popular_series" [AInt n]
         (TMDbClient.get_popular_series tmdb n)) ;;
  (* TMDb Discover *)
  items <- extend_if (truthy (CollectionConfig.tmdb_discover config)) items
    (_fetch_tmdb_discover self
       (default [] (CollectionConfig.tmdb_discover config)) media_type) ;;
  (* Trakt *)
  match CollectionBuilder.trakt self with
  | Some trakt =>
      items <- extend_if (truthy (CollectionConfig.trakt_trending config))
        items
        (let n := AInt (default 0 (CollectionConfig.trakt_trending config)) in
         if is_movie media_type then
           fetch "trakt" "get_trending_movies" [n]
             (TraktClient.get_trending_movies trakt n)
         else
           fetch "trakt" "get_trending_series" [n]
             (TraktClient.get_trending_series trakt n)) ;;
      items <- extend_if (truthy (CollectionConfig.trakt_popular config)) items
        (let n := AInt (default 0 (CollectionConfig.trakt_popular config)) in
         if is_movie media_type then
           fetch "trakt" "get_popular_movies" [n]
             (TraktClient.get_popular_movies trakt n)
         else
           fetch "trakt" "get_popular_series" [n]
             (TraktClient.get_popular_series trakt n)) ;;
      extend_if (truthy (CollectionConfig.trakt_chart config)) items
        (_fetch_trakt_chart self
           (default [] (CollectionConfig.trakt_chart config)) media_type)
  | None => ret items
  end.

Definition _fetch_items {W} (self : CollectionBuilder.t W)
    (config : CollectionConfig.t) (media_type : MediaType)
  : M (State W) (list MediaItem.t) :=
  items <- _fetch_sources self config media_type ;;
  (* Deduplicate by TMDb ID *)
  ret (deduplicate items).

Definition build_collection {W} (self : CollectionBuilder.t W)
    (config : CollectionConfig.t) (library_name library_id : string)
    (media_type : MediaType) : M (State W) Collection.t :=
  (* Fetch items from providers *)
  items <- _fetch_items self config media_type ;;
  (* Apply filters *)
  let items := _apply_filters items config in
  (* Match items to library *)
  collection_items <-
    map_M (fun item =>
             lib_item <- perform (CallFindInLibrary item library_id) quiet
                           (MediaMatcher.find_in_library
                              (CollectionBuilder.matcher self) item library_id) ;;
             ret (CollectionItem.mk
                    (MediaItem.title item) (MediaItem.year item)
                    (MediaItem.tmdb_id item) (MediaItem.imdb_id item)
                    (MediaItem.tvdb_id item)
                    (LibraryItem.jellyfin_id <$> lib_item)
                    (is_not_None lib_item)
                    (is_not_None lib_item)))
          items ;;
  ret (Collection.mk config library_name collection_items).

(** [a or b] on two optional values. *)
Definition or_else {A} `{Truthy A} (a b : option A) : option A :=
  if truthy a then a else b.

(** The body of the loop of [_add_missing_to_arr]. *)
Definition _add_missing_item {W} (self : CollectionBuilder.t W)
    (collection : Collection.t) (is_series : bool) (item : CollectionItem.t)
  : M (State W) unit :=
  let config := Collection.config collection in
  let tag := or_else (CollectionConfig.item_radarr_tag config)
                     (CollectionConfig.item_sonarr_tag config) in
  let tags := if truthy tag then Some (option_list tag) else None in
  match is_series, CollectionBuilder.sonarr self,
        CollectionItem.tvdb_id item with
  | true, Some sonarr, Some tvdb_id =>
      if truthy tvdb_id then
        perform (CallAddSeries tvdb_id tags) quiet
          (SonarrClient.add_series sonarr tvdb_id tags) ;;;
        ret tt
      else ret tt
  | true, _, _ => ret tt
  | false, _, _ =>
      match CollectionBuilder.radarr self, CollectionItem.tmdb_id item with
      | Some radarr, Some tmdb_id =>
          if truthy tmdb_id then
            perform (CallAddMovie tmdb_id tags) quiet
              (RadarrClient.add_movie radarr tmdb_id tags) ;;;
            ret tt
          else ret tt
      | _, _ => ret tt
      end
  end.

Definition _add_missing_to_arr {W} (self : CollectionBuilder.t W)
    (collection : Collection.t) : M (State W) unit :=
  let missing :=
    List.filter (fun item => negb (CollectionItem.in_library item))
      (Collection.items collection) in
  if negb (truthy missing) then ret tt else
  (* Determine media type from first item *)
  let is_series :=
    match Collection.items collection with
    | first :: _ => is_not_None (CollectionItem.tvdb_id first)
    | [] => false
    end in
  for_each missing (_add_missing_item self collection is_series).

Definition sync_collection {W} (self : CollectionBuilder.t W)
    (collection : Collection.t) (add_missing_to_arr : bool)
  : M (State W) (Z * Z) :=
  if CollectionBuilder.dry_run self then ret (0, 0) else
  let jellyfin := CollectionBuilder.jellyfin self in
  let config := Collection.config collection in
  (* Get or create Jellyfin collection *)
  jellyfin_collections <-
    perform CallGetCollections quiet (JellyfinClient.get_collections jellyfin) ;;
  let existing :=
    List.find (fun c => String.eqb (BoxSet.Name c) (CollectionConfig.name config))
      jellyfin_collections in
  jellyfin_id <-
    match existing with
    | Some c => ret (BoxSet.Id c)
    | None =>
        perform (CallCreateCollection (CollectionConfig.name config)) quiet
          (JellyfinClient.create_collection jellyfin
             (CollectionConfig.name config))
    end ;;
  (* Get current items in collection *)
  current <- perform (CallGetCollectionItems jellyfin_id) ReturnedIds
               (JellyfinClient.get_collection_items jellyfin jellyfin_id) ;;
  let current_ids : gset string := list_to_set current in
  (* Get target items (only matched ones) *)
  let target_ids := target_ids_of (Collection.items collection) in
  (* Calculate changes *)
  let to_add := to_add_of current_ids target_ids in
  let to_remove := to_remove_of current_ids target_ids in
  (* Apply changes *)
  (if bool_decide (to_add ≠ ∅) then
     perform (CallAddToCollection jellyfin_id (elements to_add)) quiet
       (JellyfinClient.add_to_collection jellyfin jellyfin_id
          (elements to_add)) ;;;
     ret tt
   else ret tt) ;;;
  (if bool_decide (to_remove ≠ ∅) then
     perform (CallRemoveFromCollection jellyfin_id (elements to_remove)) quiet
       (JellyfinClient.remove_from_collection jellyfin jellyfin_id
          (elements to_remove)) ;;;
     ret tt
   else ret tt) ;;;
  (* Update metadata *)
  perform (CallUpdateCollectionMetadata jellyfin_id
             (CollectionConfig.summary config)
             (CollectionConfig.sort_title config)) quiet
    (JellyfinClient.update_collection_metadata jellyfin jellyfin_id
       (CollectionConfig.summary config)
       (CollectionConfig.sort_title config)) ;;;
  (* Add missing items to Radarr/Sonarr *)
  (if add_missing_to_arr then _add_missing_to_arr self collection
   else ret tt) ;;;
  ret (Z.of_nat (size to_add), Z.of_nat (size to_remove)).

(** ** [DiscordWebhook] *)

Inductive Notification :=
| RunStart (libraries : list string) (scheduled : bool)
| RunEnd (collections_updated items_added items_removed errors : Z)
| CollectionChanges (collection_name library : string)
    (added removed : list string)
| ErrorReport (title message : string).

Module DiscordWebhook.
Record t (W : Type) := mk {
  default_url : option string;
  error_url : option string;
  run_start_url : option string;
  run_end_url : option string;
  changes_url : option string;
  (** [httpx.AsyncClient().post(url, json=payload)] *)
  post : string -> Notification -> M W Response.t
}.
Arguments mk {W}. Arguments default_url {W}. Arguments error_url {W}.
Arguments run_start_url {W}. Arguments run_end_url {W}.
Arguments changes_url {W}. Arguments post {W}.

Definition _get_url {W} (self : t W) (event_type : string) : option string :=
  if String.eqb event_type "error" then error_url self
  else if String.eqb event_type "run_start" then run_start_url self
  else if String.eqb event_type "run_end" then run_end_url self
  else if String.eqb event_type "changes" then changes_url self
  else default_url self.

Definition _send {W} (self : t W) (url : string) (payload : Notification)
  : M W bool :=
  if negb (truthy url) then ret false else
  try_except
    (response <- post self url payload ;;
     if Response.status_code response =? 204 then ret true else ret false)
    (fun e => ret false).

Definition send_run_start {W} (self : t W) (libraries : list string)
    (scheduled : bool) : M W bool :=
  match _get_url self "run_start" with
  | Some url =>
      if negb (truthy url) then ret false
      else _send self url (RunStart libraries scheduled)
  | None => ret false
  end.

Definition send_run_end {W} (self : t W)
    (collections_updated items_added items_removed errors : Z) : M W bool :=
  match _get_url self "run_end" with
  | Some url =>
      if negb (truthy url) then ret false
      else _send self url
             (RunEnd collections_updated items_added items_removed errors)
  | None => ret false
  end.

Definition send_error {W} (self : t W) (title message : string) : M W bool :=
  match _get_url self "error" with
  | Some url =>
      if negb (truthy url) then ret false
      else _send self url (ErrorReport title message)
  | None => ret false
  end.

Definition send_collection_changes {W} (self : t W)
    (collection_name library : string) (added removed : list string)
  : M W bool :=
  match _get_url self "changes" with
  | Some url =>
      if negb (truthy url) then ret false
      else if negb (truthy added) && negb (truthy removed) then ret true
      else _send self url
             (CollectionChanges collection_name library added removed)
  | None => ret false
  end.
End DiscordWebhook.

(** ** [RadarrClient] over HTTP ([jfc.clients.radarr], [jfc.clients.base])

    Python objects decoded from JSON are [Json] values; [None] is [JNull]. *)

Definition TypeError : exn := Exception "TypeError" "".
Definition KeyError (k : string) : exn := Exception "KeyError" k.

Fixpoint assoc_get (kv : list (string * Json)) (k : string) : option Json :=
  match kv with
  | [] => None
  | (k', v) :: kv' => if String.eqb k k' then Some v else assoc_get kv' k
  end.

Fixpoint assoc_set (kv : list (string * Json)) (k : string) (v : Json)
  : list (string * Json) :=
  match kv with
  | [] => [(k, v)]
  | (k', v') :: kv' =>
      if String.eqb k k' then (k', v) :: kv' else (k', v') :: assoc_set kv' k v
  end.

(** [obj[key]] *)
Definition getitem (obj : Json) (key : string) : Result Json :=
  match obj with
  | JDict kv => match assoc_get kv key with
                | Some v => Return v
                | None => Raise (KeyError key)
                end
  | _ => Raise TypeError
  end.

(** [obj[0]] *)
Definition getitem0 (obj : Json) : Result Json :=
  match obj with
  | JList (x :: _) => Return x
  | JList [] => Raise (Exception "IndexError" "list index out of range")
  | JStr (String c _) => Return (JStr (String c EmptyString))
  | JStr EmptyString =>
      Raise (Exception "IndexError" "string index out of range")
  | JDict _ => Raise (KeyError "0")
  | _ => Raise TypeError
  end.

(** [for x in obj] *)
Definition iterate (obj : Json) : Result (list Json) :=
  match obj with
  | JList l => Return l
  | JDict kv => Return (List.map (fun p => JStr (fst p)) kv)
  | JStr s =>
      Return (List.map (fun c => JStr (String c EmptyString))
                (list_ascii_of_string s))
  | _ => Raise TypeError
  end.

(** [obj.lower()] *)
Definition lower_of (obj : Json) : Result string :=
  match obj with
  | JStr s => Return (lower s)
  | _ => Raise (Exception "AttributeError" "lower")
  end.

(** [obj.update(entries)] *)
Definition update_of (obj : Json) (entries : list (string * Json))
  : Result Json :=
  match obj with
  | JDict kv =>
      Return (JDict (fold_left (fun acc p => assoc_set acc (fst p) (snd p))
                       entries kv))
  | _ => Raise (Exception "AttributeError" "update")
  end.

Definition is_JNull (j : Json) : bool :=
  match j with JNull => true | _ => false end.

Module Radarr.
Record t (H : Type) := mk {
  root_folder : string;
  quality_profile : string;
  default_tag : string;
  (** [httpx.AsyncClient.request] against the Radarr server *)
  request : Method -> string -> option Json -> M H Response.t
}.
Arguments mk {H}. Arguments root_folder {H}. Arguments quality_profile {H}.
Arguments default_tag {H}. Arguments request {H}.

(** The server, the identifiers cached on the client object, and the
    requests sent so far. *)
Record State (H : Type) := mkState {
  server : H;
  _quality_profile_id : Json;
  _tag_id : Json;
  sent : list (Method * string)
}.
Arguments mkState {H}. Arguments server {H}.
Arguments _quality_profile_id {H}. Arguments _tag_id {H}.
Arguments sent {H}.

Definition connect {H} (h : H) : State H := mkState h JNull JNull [].

Definition _request {H} (self : t H) (method : Method) (endpoint : string)
    (json : option Json) : M (State H) Response.t :=
  fun s =>
    let '(r, h') := request self method endpoint json (server s) in
    (r, mkState h' (_quality_profile_id s) (_tag_id s)
          (sent s ++ [(method, endpoint)])).

Definition get {H} (self : t H) (endpoint : string) :=
  _request self GET endpoint None.
Definition post {H} (self : t H) (endpoint : string) (json : Json) :=
  _request self POST endpoint (Some json).

(** [response.raise_for_status()] (httpx: anything but 2xx raises). *)
Definition raise_for_status {S} (response : Response.t) : M S unit :=
  let code := Response.status_code response in
  if (200 <=? code) && (code <=? 299) then ret tt
  else raise (Exception "HTTPStatusError" (pretty code)).

(** [response.json()] *)
Definition json {S} (response : Response.t) : M S Json :=
  match Response.json response with
  | Some j => ret j
  | None => raise (Exception "JSONDecodeError" (Response.text response))
  end.

Definition set_quality_profile_id {H} (v : Json) : M (State H) unit :=
  fun s => (Return tt, mkState (server s) v (_tag_id s) (sent s)).
Definition set_tag_id {H} (v : Json) : M (State H) unit :=
  fun s => (Return tt, mkState (server s) (_quality_profile_id s) v (sent s)).

Definition get_quality_profiles {H} (self : t H) : M (State H) Json :=
  response <- get self "/api/v3/qualityprofile" ;;
  raise_for_status response ;;;
  json response.

Fixpoint find_quality_profile {H} (profiles : list Json) (name : string)
  : M (State H) Json :=
  match profiles with
  | [] => ret JNull
  | profile :: rest =>
      profile_name <- lift_result (getitem profile "name") ;;
      lowered <- lift_result (lower_of profile_name) ;;
      if String.eqb lowered (lower name) then
        id <- lift_result (getitem profile "id") ;;
        set_quality_profile_id id ;;;
        ret id
      else find_quality_profile rest name
  end.

Definition get_quality_profile_id {H} (self : t H) (name : string)
  : M (State H) Json :=
  fun s =>
    if truthy (_quality_profile_id s) then (Return (_quality_profile_id s), s)
    else
      (profiles <- get_quality_profiles self ;;
       profiles <- lift_result (iterate profiles) ;;
       find_quality_profile profiles name) s.

Definition get_root_folders {H} (self : t H) : M (State H) Json :=
  response <- get self "/api/v3/rootfolder" ;;
  raise_for_status response ;;;
  json response.

Fixpoint find_root_folder {S} (folders : list Json) (path : string)
  : M S (option Json) :=
  match folders with
  | [] => ret None
  | folder :: rest =>
      folder_path <- lift_result (getitem folder "path") ;;
      match folder_path with
      | JStr p =>
          if String.eqb p path || String.prefix p path
          then ret (Some folder_path)
          else find_root_folder rest path
      | _ => raise TypeError
      end
  end.

Definition get_root_folder_path {H} (self : t H) (path : string)
  : M (State H) Json :=
  folders <- get_root_folders self ;;
  items <- lift_result (iterate folders) ;;
  found <- find_root_folder items path ;;
  match found with
  | Some p => ret p
  | None =>
      (* Return first folder if path not found *)
      if truthy folders then
        first <- lift_result (getitem0 folders) ;;
        lift_result (getitem first "path")
      else ret JNull
  end.

Definition get_tags {H} (self : t H) : M (State H) Json :=
  response <- get self "/api/v3/tag" ;;
  raise_for_status response ;;;
  json response.

Fixpoint find_tag {H} (tags : list Json) (name : string)
  : M (State H) (option Json) :=
  match tags with
  | [] => ret None
  | tag :: rest =>
      label <- lift_result (getitem tag "label") ;;
      lowered <- lift_result (lower_of label) ;;
      if String.eqb lowered (lower name) then
        id <- lift_result (getitem tag "id") ;;
        set_tag_id id ;;;
        ret (Some id)
      else find_tag rest name
  end.

Definition get_or_create_tag {H} (self : t H) (name : string)
  : M (State H) Json :=
  fun s =>
    if truthy (_tag_id s) then (Return (_tag_id s), s)
    else
      (tags <- get_tags self ;;
       tags <- lift_result (iterate tags) ;;
       found <- find_tag tags name ;;
       match found with
       | Some id => ret id
       | None =>
           (* Create tag *)
           response <- post self "/api/v3/tag" (JDict [("label", JStr name)]) ;;
           raise_for_status response ;;;
           body <- json response ;;
           tag_id <- lift_result (getitem body "id") ;;
           set_tag_id tag_id ;;;
           ret tag_id
       end) s.

Definition get_movie_by_tmdb_id {H} (self : t H) (tmdb_id : Z)
  : M (State H) Json :=
  response <- get self (String.append "/api/v3/movie?tmdbId=" (pretty tmdb_id)) ;;
  raise_for_status response ;;;
  movies <- json response ;;
  if truthy movies then lift_result (getitem0 movies) else ret JNull.

Definition movie_exists {H} (self : t H) (tmdb_id : Z) : M (State H) bool :=
  movie <- get_movie_by_tmdb_id self tmdb_id ;;
  ret (negb (is_JNull movie)).

Definition lookup_movie {H} (self : t H) (tmdb_id : Z) : M (State H) Json :=
  response <-
    get self (String.append "/api/v3/movie/lookup/tmdb?tmdbId=" (pretty tmdb_id)) ;;
  if Response.status_code response =? 404 then ret JNull else
  raise_for_status response ;;;
  json response.

Definition add_movie {H} (self : t H) (tmdb_id : Z)
    (root_folder' quality_profile' : option string)
    (tags : option (list string)) (monitored search_for_movie : bool)
    (minimum_availability : string) : M (State H) Json :=
  (* Check if already exists *)
  already <- movie_exists self tmdb_id ;;
  if (already : bool) then get_movie_by_tmdb_id self tmdb_id else
  (* Lookup movie *)
  movie_data <- lookup_movie self tmdb_id ;;
  if negb (truthy movie_data) then ret JNull else
  (* Get quality profile ID *)
  let profile_name := or_default quality_profile' (quality_profile self) in
  profile_id <- get_quality_profile_id self profile_name ;;
  if negb (truthy profile_id) then ret JNull else
  (* Get root folder *)
  folder <- get_root_folder_path self
              (or_default root_folder' (root_folder self)) ;;
  if negb (truthy folder) then ret JNull else
  (* Get tag IDs *)
  tag_ids <- map_M (get_or_create_tag self)
               (if truthy tags then default [] tags else [default_tag self]) ;;
  (* Build request *)
  movie_data <- lift_result
    (update_of movie_data
       [("rootFolderPath", folder);
        ("qualityProfileId", profile_id);
        ("monitored", JBool monitored);
        ("minimumAvailability", JStr minimum_availability);
        ("tags", JList tag_ids);
        ("addOptions", JDict [("searchForMovie", JBool search_for_movie)])]) ;;
  response <- post self "/api/v3/movie" movie_data ;;
  if Response.status_code response =? 201 then
    result <- json response ;;
    lift_result (getitem result "title") ;;;
    lift_result (getitem result "year") ;;;
    ret result
  else ret JNull.

(** The client as the dispatcher uses it: [add_movie(tmdb_id=.., tags=..)]
    with the other arguments at their defaults. *)
Definition client {H} (self : t H) : RadarrClient.t (State H) :=
  RadarrClient.mk (fun tmdb_id tags =>
    r <- add_movie self tmdb_id None None tags true true "announced" ;;
    ret (if is_JNull r then None else Some r)).

Definition get_movies {H} (self : t H) : M (State H) Json :=
  response <- get self "/api/v3/movie" ;;
  raise_for_status response ;;;
  json response.

Definition get_status {H} (self : t H) : M (State H) Json :=
  response <- get self "/api/v3/system/status" ;;
  raise_for_status response ;;;
  json response.

Definition health_check {H} (self : t H) : M (State H) bool :=
  try_except (get_status self ;;; ret true) (fun _ => ret false).
End Radarr.

(** ** [Runner] *)

(** [keyword in s] *)
Fixpoint contains (keyword s : string) : bool :=
  String.prefix keyword s ||
  match s with
  | EmptyString => false
  | String _ s' => contains keyword s'
  end.

Module Runner.
Record t (W : Type) := mk {
  jellyfin : JellyfinClient.t W;
  discord : DiscordWebhook.t W;
  parser : KometaParser.t W;
  builder : CollectionBuilder.t W;
  (** [datetime.now()] *)
  now : W -> datetime.t
}.
Arguments mk {W}. Arguments jellyfin {W}. Arguments discord {W}.
Arguments parser {W}. Arguments builder {W}. Arguments now {W}.
End Runner.

(** Names are byte strings and [lower] folds the ASCII capitals only. *)
Definition _infer_media_type (library_name : string) : MediaType :=
  let name_lower := lower library_name in
  if existsb (fun keyword => contains keyword name_lower)
       ["film"; "movie"; "cinéma"] then MOVIE
  else if existsb (fun keyword => contains keyword name_lower)
            ["série"; "series"; "tv"; "show"; "cartoon"] then SERIES
  else (* Default to movies *) MOVIE.

Definition add_updated (added removed : Z) (st : Stats.t) : Stats.t :=
  Stats.mk (Stats.collections_updated st + 1) (Stats.items_added st + added)
    (Stats.items_removed st + removed) (Stats.errors st).

Definition add_error (st : Stats.t) : Stats.t :=
  Stats.mk (Stats.collections_updated st) (Stats.items_added st)
    (Stats.items_removed st) (Stats.errors st + 1).

(** The body of the [try] statement of [Runner.run]. *)
Definition process_collection {W} (self : Runner.t W)
    (config : CollectionConfig.t) (library_name library_id : string)
    (media_type : MediaType) : M (State W) unit :=
  (* Build collection *)
  collection <- build_collection (Runner.builder self) config library_name
                  library_id media_type ;;
  (* Sync to Jellyfin *)
  result <- sync_collection (Runner.builder self) collection true ;;
  let added := fst result in
  let removed := snd result in
  update_stats (add_updated added removed) ;;;
  (* Send changes notification *)
  if (0 <? added) || (0 <? removed) then
    let added_titles :=
      slice_to
        (List.map CollectionItem.title
           (List.filter CollectionItem.matched (Collection.items collection)))
        added in
    let removed_titles := [] in
    perform (CallSendCollectionChanges (CollectionConfig.name config)
               library_name added_titles removed_titles) quiet
      (DiscordWebhook.send_collection_changes (Runner.discord self)
         (CollectionConfig.name config) library_name added_titles
         removed_titles) ;;;
    ret tt
  else ret tt.

(** The [except Exception as e] clause. *)
Definition handle_collection_error {W} (self : Runner.t W)
    (config : CollectionConfig.t) (e : exn) : M (State W) unit :=
  update_stats add_error ;;;
  let title := String.append "Collection Error: " (CollectionConfig.name config) in
  perform (CallSendError title (str e)) quiet
    (DiscordWebhook.send_error (Runner.discord self) title (str e)) ;;;
  ret tt.

(** Whether the loop reaches the [try] statement for [config]. *)
Definition selected (collections : option (list string))
    (config : CollectionConfig.t) : bool :=
  negb (truthy collections &&
        negb (bool_decide
                (CollectionConfig.name config ∈ default [] collections))).

Definition due {W} (self : Runner.t W) (scheduled : bool)
    (config : CollectionConfig.t) (s : State W) : bool :=
  negb (scheduled &&
        negb (_should_run_today (CollectionConfig.schedule config)
                (Runner.now self (world s)))).

(** One iteration of the loop over the collections of a library. *)
Definition run_config {W} (self : Runner.t W)
    (collections : option (list string)) (scheduled : bool)
    (library_name library_id : string) (media_type : MediaType)
    (config : CollectionConfig.t) : M (State W) unit :=
  fun s =>
    (* Filter by specified collections *)
    if negb (selected collections config) then (Return tt, s) else
    (* Check schedule *)
    if negb (due self scheduled config s) then (Return tt, s) else
    try_except
      (process_collection self config library_name library_id media_type)
      (handle_collection_error self config) s.

(** [{lib["Name"]: lib["ItemId"] for lib in jellyfin_libraries}] *)
Definition library_id_map_of (jellyfin_libraries : list Library.t)
  : gmap string string :=
  fold_left (fun m lib => <[Library.Name lib := Library.ItemId lib]> m)
    jellyfin_libraries ∅.

(** One iteration of the loop over the libraries. *)
Definition run_library {W} (self : Runner.t W)
    (collections : option (list string)) (scheduled : bool)
    (library_id_map : gmap string string)
    (entry : string * list CollectionConfig.t) : M (State W) unit :=
  let library_name := fst entry in
  let collection_configs := snd entry in
  (* Determine media type from library name *)
  let media_type := _infer_media_type library_name in
  (* Get library ID *)
  let library_id := library_id_map !! library_name in
  if negb (truthy library_id) then update_stats add_error else
  (* Process collections *)
  for_each collection_configs
    (run_config self collections scheduled library_name
       (default "" library_id) media_type).

(** The wall-clock duration, which only goes into the final notification
    and the log, is left out. *)
Definition run {W} (self : Runner.t W)
    (libraries collections : option (list string)) (scheduled : bool)
  : M (State W) Stats.t :=
  update_stats (fun _ => Stats.zero) ;;;
  (* Parse all collections *)
  all_collections <-
    perform CallGetAllCollections quiet
      (KometaParser.get_all_collections (Runner.parser self)) ;;
  (* Filter by specified libraries *)
  let all_collections :=
    if truthy libraries
    then List.filter (fun kv => bool_decide (fst kv ∈ default [] libraries))
           all_collections
    else all_collections in
  let library_names := List.map fst all_collections in
  (* Send run start notification *)
  perform (CallSendRunStart library_names scheduled) quiet
    (DiscordWebhook.send_run_start (Runner.discord self) library_names
       scheduled) ;;;
  (* Get Jellyfin libraries for ID mapping *)
  jellyfin_libraries <-
    perform CallGetLibraries quiet
      (JellyfinClient.get_libraries (Runner.jellyfin self)) ;;
  let library_id_map := library_id_map_of jellyfin_libraries in
  (* Process each library *)
  for_each all_collections
    (run_library self collections scheduled library_id_map) ;;;
  (* Send run end notification *)
  st <- get_stats ;;
  perform (CallSendRunEnd (Stats.collections_updated st) (Stats.items_added st)
             (Stats.items_removed st) (Stats.errors st)) quiet
    (DiscordWebhook.send_run_end (Runner.discord self)
       (Stats.collections_updated st) (Stats.items_added st)
       (Stats.items_removed st) (Stats.errors st)) ;;;
  get_stats.

(** ** Auxiliary definitions for the statements *)

(** Steps 1 to 6 of [sync_collection] on their own (lines 127 to 167):
    collection handle, current membership, diff, the two batched writes and
    the metadata update. [sync_collection_split] relates it to the whole
    function. *)
Definition sync_membership {W} (self : CollectionBuilder.t W)
    (collection : Collection.t) : M (State W) (Z * Z) :=
  let jellyfin := CollectionBuilder.jellyfin self in
  let config := Collection.config collection in
  jellyfin_collections <-
    perform CallGetCollections quiet (JellyfinClient.get_collections jellyfin) ;;
  let existing :=
    List.find (fun c => String.eqb (BoxSet.Name c) (CollectionConfig.name config))
      jellyfin_collections in
  jellyfin_id <-
    match existing with
    | Some c => ret (BoxSet.Id c)
    | None =>
        perform (CallCreateCollection (CollectionConfig.name config)) quiet
          (JellyfinClient.create_collection jellyfin
             (CollectionConfig.name config))
    end ;;
  current <- perform (CallGetCollectionItems jellyfin_id) ReturnedIds
               (JellyfinClient.get_collection_items jellyfin jellyfin_id) ;;
  let current_ids : gset string := list_to_set current in
  let target_ids := target_ids_of (Collection.items collection) in
  let to_add := to_add_of current_ids target_ids in
  let to_remove := to_remove_of current_ids target_ids in
  (if bool_decide (to_add ≠ ∅) then
     perform (CallAddToCollection jellyfin_id (elements to_add)) quiet
       (JellyfinClient.add_to_collection jellyfin jellyfin_id
          (elements to_add)) ;;;
     ret tt
   else ret tt) ;;;
  (if bool_decide (to_remove ≠ ∅) then
     perform (CallRemoveFromCollection jellyfin_id (elements to_remove)) quiet
       (JellyfinClient.remove_from_collection jellyfin jellyfin_id
          (elements to_remove)) ;;;
     ret tt
   else ret tt) ;;;
  perform (CallUpdateCollectionMetadata jellyfin_id
             (CollectionConfig.summary config)
             (CollectionConfig.sort_title config)) quiet
    (JellyfinClient.update_collection_metadata jellyfin jellyfin_id
       (CollectionConfig.summary config)
       (CollectionConfig.sort_title config)) ;;;
  ret (Z.of_nat (size to_add), Z.of_nat (size to_remove)).

(** A computation that leaves the statistics of the run alone and only
    adds to the log. *)
Definition quiet_on_stats {W A} (m : M (State W) A) : Prop :=
  forall s, stats (snd (m s)) = stats s
            /\ exists new, trace (snd (m s)) = trace s ++ new.

(** The log of a reconciliation that succeeds: the handle is looked up (and
    created when missing), the membership is read, one batched addition and
    one batched removal are made when there is something to add or to
    remove, and the metadata is written. *)
Definition membership_events (created : bool) (config : CollectionConfig.t)
    (jellyfin_id : string) (current : list string)
    (target_ids : gset string) : list (Call * Reply) :=
  let current_ids : gset string := list_to_set current in
  let to_add := target_ids ∖ current_ids in
  let to_remove := current_ids ∖ target_ids in
  [(CallGetCollections, Returned)]
  ++ (if created
      then [(CallCreateCollection (CollectionConfig.name config), Returned)]
      else [])
  ++ [(CallGetCollectionItems jellyfin_id, ReturnedIds current)]
  ++ (if bool_decide (to_add ≠ ∅)
      then [(CallAddToCollection jellyfin_id (elements to_add), Returned)]
      else [])
  ++ (if bool_decide (to_remove ≠ ∅)
      then [(CallRemoveFromCollection jellyfin_id (elements to_remove),
             Returned)]
      else [])
  ++ [(CallUpdateCollectionMetadata jellyfin_id
         (CollectionConfig.summary config) (CollectionConfig.sort_title config),
       Returned)].

(** The value a computation returned (or [d] if it raised). *)
Definition value_of {A} (d : A) (r : Result A) : A :=
  match r with Return a => a | Raise _ => d end.

(** The calls of a trace, without their outcome. *)
Definition calls_of (tr : list (Call * Reply)) : list Call := List.map fst tr.

(** [s'] is [s] after some more collaborator calls. *)
Definition extends {W} (s s' : State W) (new : list (Call * Reply)) : Prop :=
  trace s' = trace s ++ new.

(** The tags the dispatcher passes along. *)
Definition dispatch_tags (config : CollectionConfig.t) : option (list string) :=
  let tag := or_else (CollectionConfig.item_radarr_tag config)
                     (CollectionConfig.item_sonarr_tag config) in
  if truthy tag then Some (option_list tag) else None.

(** The kind the dispatcher settles on for the whole collection. *)
Definition dispatched_as_series (collection : Collection.t) : bool :=
  match Collection.items collection with
  | first :: _ => is_not_None (CollectionItem.tvdb_id first)
  | [] => false
  end.

(** The request the dispatcher makes for one missing item, if any. *)
Definition request_for {W} (self : CollectionBuilder.t W)
    (collection : Collection.t) (item : CollectionItem.t) : option Call :=
  let tags := dispatch_tags (Collection.config collection) in
  if dispatched_as_series collection then
    if is_not_None (CollectionBuilder.sonarr self)
       && truthy (CollectionItem.tvdb_id item)
    then Some (CallAddSeries (default 0 (CollectionItem.tvdb_id item)) tags)
    else None
  else
    if is_not_None (CollectionBuilder.radarr self)
       && truthy (CollectionItem.tmdb_id item)
    then Some (CallAddMovie (default 0 (CollectionItem.tmdb_id item)) tags)
    else None.

(** The requests of a whole dispatch, in order. *)
Definition requests_for {W} (self : CollectionBuilder.t W)
    (collection : Collection.t) : list Call :=
  omap (request_for self collection)
    (List.filter (fun item => negb (CollectionItem.in_library item))
       (Collection.items collection)).

(** An acquisition client that reports failures by its result only. *)
Definition radarr_never_raises {W} (self : CollectionBuilder.t W) : Prop :=
  forall radarr tmdb_id tags w,
    CollectionBuilder.radarr self = Some radarr ->
    exists v w', RadarrClient.add_movie radarr tmdb_id tags w = (Return v, w').
Definition sonarr_never_raises {W} (self : CollectionBuilder.t W) : Prop :=
  forall sonarr tvdb_id tags w,
    CollectionBuilder.sonarr self = Some sonarr ->
    exists v w', SonarrClient.add_series sonarr tvdb_id tags w = (Return v, w').

(** What happens to one collection definition in the loop of [Runner.run]. *)
Inductive Outcome := Skipped | Updated | Failed (e : exn).

Definition outcome_of {W} (self : Runner.t W)
    (collections : option (list string)) (scheduled : bool)
    (library_name library_id : string) (media_type : MediaType)
    (config : CollectionConfig.t) (s : State W) : Outcome :=
  if negb (selected collections config) then Skipped
  else if negb (due self scheduled config s) then Skipped
  else match fst (process_collection self config library_name library_id
                    media_type s) with
       | Return _ => Updated
       | Raise e => Failed e
       end.

(** The outcomes of a whole list of definitions, each taken in the state the
    loop has reached. *)
Fixpoint outcomes {W} (self : Runner.t W)
    (collections : option (list string)) (scheduled : bool)
    (library_name library_id : string) (media_type : MediaType)
    (configs : list CollectionConfig.t) (s : State W) : list Outcome :=
  match configs with
  | [] => []
  | config :: rest =>
      outcome_of self collections scheduled library_name library_id media_type
        config s
      :: outcomes self collections scheduled library_name library_id media_type
           rest
           (snd (run_config self collections scheduled library_name library_id
                   media_type config s))
  end.

Definition is_updated (o : Outcome) : bool :=
  match o with Updated => true | _ => false end.
Definition is_failed (o : Outcome) : bool :=
  match o with Failed _ => true | _ => false end.
Definition is_skipped (o : Outcome) : bool :=
  match o with Skipped => true | _ => false end.

Definition count_of {A} (p : A -> bool) (l : list A) : Z :=
  Z.of_nat (length (List.filter p l)).

(** ** A small simulated installation

    One library server, one catalog feed, one Radarr server and a working
    notification hook; used to run the pipeline on concrete inputs. *)

Module Sim.
Record Server := mkServer {
  libraries : list Library.t;
  boxsets : list BoxSet.t;
  members : list (string * list string);
  (** catalog identifier of each title held by the library *)
  library_index : list (Z * string);
  (** the popular feed of the catalog *)
  catalog : list MediaItem.t;
  (** titles registered in Radarr *)
  radarr_movies : list Z;
  radarr_up : bool;
  (** collections whose membership writes are refused *)
  broken : list string;
  today : datetime.t
}.

Definition World := Radarr.State Server.

Definition on_server {A} (f : Server -> Result A * Server) : M World A :=
  fun w =>
    let '(r, h) := f (Radarr.server w) in
    (r, Radarr.mkState h (Radarr._quality_profile_id w) (Radarr._tag_id w)
          (Radarr.sent w)).

Definition members_of (h : Server) (cid : string) : list string :=
  default [] (snd <$> List.find (fun p => String.eqb (fst p) cid) (members h)).

Definition set_members (h : Server) (cid : string) (ids : list string)
  : Server :=
  mkServer (libraries h) (boxsets h)
    ((cid, ids)
     :: List.filter (fun p => negb (String.eqb (fst p) cid)) (members h))
    (library_index h) (catalog h) (radarr_movies h) (radarr_up h) (broken h)
    (today h).

Definition refused : exn := Exception "ReconciliationError" "write refused".

Definition jellyfin : JellyfinClient.t World :=
  JellyfinClient.mk
    (on_server (fun h => (Return (libraries h), h)))
    (on_server (fun h => (Return (boxsets h), h)))
    (fun cid => on_server (fun h => (Return (members_of h cid), h)))
    (fun name => on_server (fun h =>
       let cid := String.append "id-" name in
       (Return cid,
        mkServer (libraries h) (boxsets h ++ [BoxSet.mk cid name])
          (members h) (library_index h) (catalog h) (radarr_movies h)
          (radarr_up h) (broken h) (today h))))
    (fun cid ids => on_server (fun h =>
       if bool_decide (cid ∈ broken h) then (Raise refused, h)
       else (Return true, set_members h cid (members_of h cid ++ ids))))
    (fun cid ids => on_server (fun h =>
       if bool_decide (cid ∈ broken h) then (Raise refused, h)
       else (Return true,
             set_members h cid
               (List.filter (fun i => negb (bool_decide (i ∈ ids)))
                  (members_of h cid)))))
    (fun cid overview sort_name => on_server (fun h => (Return true, h))).

Definition tmdb : TMDbClient.t World :=
  TMDbClient.mk
    (fun _ _ => ret [])
    (fun _ _ => ret [])
    (fun n => on_server (fun h => (Return (take (Z.to_nat n) (catalog h)), h)))
    (fun n => on_server (fun h => (Return (take (Z.to_nat n) (catalog h)), h)))
    (fun _ _ => ret [])
    (fun _ _ => ret []).

Definition matcher : MediaMatcher.t World :=
  MediaMatcher.mk (fun item _ => on_server (fun h =>
    (match MediaItem.tmdb_id item with
     | Some id =>
         match List.find (fun p => fst p =? id) (library_index h) with
         | Some p => Return (Some (LibraryItem.mk (snd p) (MediaItem.title item)))
         | None => Return None
         end
     | None => Return None
     end, h))).

Definition movie_record (id : Z) : Json :=
  JDict [("tmdbId", JInt id); ("title", JStr "registered")].

(** The Radarr server: a registered title is found by its identifier,
    lookups of unknown titles answer 404, and nothing answers when the
    server is down. *)
Definition radarr_request (method : Method) (endpoint : string)
    (json : option Json) : M Server Response.t :=
  fun h =>
    if negb (radarr_up h) then
      (Return (Response.mk 503 None "Service Unavailable"), h)
    else
      match method with
      | GET =>
          if String.prefix "/api/v3/movie?tmdbId=" endpoint then
            (Return
               (Response.mk 200
                  (Some (JList
                     (List.map movie_record
                        (List.filter
                           (fun id =>
                              String.eqb endpoint
                                (String.append "/api/v3/movie?tmdbId="
                                   (pretty id)))
                           (radarr_movies h)))))
                  ""), h)
          else if String.prefix "/api/v3/movie/lookup" endpoint then
            (Return (Response.mk 404 None "Not Found"), h)
          else (Return (Response.mk 200 (Some (JList [])) ""), h)
      | _ => (Return (Response.mk 405 None "Method Not Allowed"), h)
      end.

Definition radarr : Radarr.t Server :=
  Radarr.mk "/movies" "HD-1080p" "jfc" radarr_request.

Definition sonarr : SonarrClient.t World :=
  SonarrClient.mk (fun _ _ => ret None).

Definition builder (dry_run : bool) : CollectionBuilder.t World :=
  CollectionBuilder.mk jellyfin tmdb None (Some (Radarr.client radarr))
    (Some sonarr) dry_run matcher.

Definition discord : DiscordWebhook.t World :=
  DiscordWebhook.mk (Some "https://discord.example/hook")
    (Some "https://discord.example/hook") (Some "https://discord.example/hook")
    (Some "https://discord.example/hook") (Some "https://discord.example/hook")
    (fun _ _ => ret (Response.mk 204 None "")).

Definition parser (configs : list (string * list CollectionConfig.t))
  : KometaParser.t World :=
  KometaParser.mk (ret configs).

Definition runner (configs : list (string * list CollectionConfig.t))
    (dry_run : bool) : Runner.t World :=
  Runner.mk jellyfin discord (parser configs) (builder dry_run)
    (fun w => today (Radarr.server w)).

(** A definition that takes the first [n] titles of the popular feed. *)
Definition popular (name : string) (n : Z) : CollectionConfig.t :=
  CollectionConfig.mk name None None None None (Some n) None None None None
    CollectionFilter.unconstrained None
    (CollectionSchedule.mk DAILY None None) None None.

Definition matrix : MediaItem.t :=
  MediaItem.mk "The Matrix" (Some 1999) (Some 603) None None (Some 8.2%Q)
    (Some 25000) [] (Some "US").
Definition inception : MediaItem.t :=
  MediaItem.mk "Inception" (Some 2010) (Some 27205) None None (Some 8.4%Q)
    (Some 36000) [] (Some "US").

(** Scenario E: three collections of one library; the library server
    refuses the membership writes of the second. *)
Definition scenario_E_server : Server :=
  mkServer [Library.mk "Movies" "lib-1"]
    [BoxSet.mk "A-id" "A"; BoxSet.mk "B-id" "B"; BoxSet.mk "C-id" "C"]
    [] [(603, "jf-603")] [matrix] [] true ["B-id"]
    (datetime.mk 2026 11 3).
Definition scenario_E_configs : list (string * list CollectionConfig.t) :=
  [("Movies", [popular "A" 1; popular "B" 1; popular "C" 1])].

(** A library whose collection needs one addition and one removal, a
    title that is missing from the library, and a Radarr server that is
    down. *)
Definition radarr_down_server : Server :=
  mkServer [Library.mk "Movies" "lib-1"] [BoxSet.mk "top-id" "Top"]
    [("top-id", ["jf-old"])] [(603, "jf-603")] [matrix; inception] [] false
    [] (datetime.mk 2026 11 3).
Definition top_configs : list (string * list CollectionConfig.t) :=
  [("Movies", [popular "Top" 2])].

(** The same installation with Radarr up, and with the missing title
    already registered there. *)
Definition radarr_up_server : Server :=
  mkServer [Library.mk "Movies" "lib-1"] [BoxSet.mk "top-id" "Top"]
    [("top-id", ["jf-old"])] [(603, "jf-603")] [matrix; inception] [27205]
    true [] (datetime.mk 2026 11 3).

Definition item (title : string) (tmdb_id tvdb_id : option Z)
    (jellyfin_id : option string) : CollectionItem.t :=
  CollectionItem.mk title None tmdb_id None tvdb_id jellyfin_id
    (is_not_None jellyfin_id) (is_not_None jellyfin_id).

(** A collection whose first title carries a TV-catalog identifier and is
    in the library, and whose second title is missing and carries none. *)
Definition mixed_collection : Collection.t :=
  Collection.mk (popular "Mixed" 2) "Shows"
    [item "Severance" (Some 95396) (Some 371980) (Some "jf-1");
     item "Inception" (Some 27205) None None].

(** Scenario B as a collection: the library server holds a, b, c and the
    matched titles are b, c, d. *)
Definition scenario_B_server : Server :=
  mkServer [Library.mk "Movies" "lib-1"] [BoxSet.mk "top-id" "Top"]
    [("top-id", ["a"; "b"; "c"])] [] [] [] true [] (datetime.mk 2026 11 3).
Definition scenario_B_collection : Collection.t :=
  Collection.mk (popular "Top" 3) "Movies"
    [item "B" (Some 2) None (Some "b"); item "C" (Some 3) None (Some "c");
     item "D" (Some 4) None (Some "d")].

(** A library server that cannot be reached when the run starts. *)
Definition offline : exn := Exception "ConnectError" "connection refused".
Definition offline_jellyfin : JellyfinClient.t World :=
  JellyfinClient.mk (raise offline)
    (JellyfinClient.get_collections jellyfin)
    (JellyfinClient.get_collection_items jellyfin)
    (JellyfinClient.create_collection jellyfin)
    (JellyfinClient.add_to_collection jellyfin)
    (JellyfinClient.remove_from_collection jellyfin)
    (JellyfinClient.update_collection_metadata jellyfin).
Definition offline_runner (configs : list (string * list CollectionConfig.t))
  : Runner.t World :=
  Runner.mk offline_jellyfin discord (parser configs) (builder false)
    (fun w => today (Radarr.server w)).

(** A movie collection with one title in the library and one missing. *)
Definition top_collection : Collection.t :=
  Collection.mk (popular "Top" 2) "Movies"
    [item "The Matrix" (Some 603) None (Some "jf-603");
     item "Inception" (Some 27205) None None].

Definition start (h : Server) : State World := initial (Radarr.connect h).
End Sim.

(** What [passes_filters] decides, stated bound by bound: a bound is in
    force when it is set and not zero, and it is checked against a field
    that is set and not zero (not empty, for the country). *)
Definition within_bounds (filters : CollectionFilter.t) (item : MediaItem.t)
  : Prop :=
  (forall b y, CollectionFilter.year_gte filters = Some b ->
               MediaItem.year item = Some y -> b <> 0 -> y <> 0 -> b <= y) /\
  (forall b y, CollectionFilter.year_lte filters = Some b ->
               MediaItem.year item = Some y -> b <> 0 -> y <> 0 -> y <= b) /\
  (forall b v, CollectionFilter.vote_average_gte filters = Some b ->
               MediaItem.vote_average item = Some v ->
               ~ (b == 0)%Q -> ~ (v == 0)%Q -> (b <= v)%Q) /\
  (forall b v, CollectionFilter.critic_rating_gte filters = Some b ->
               MediaItem.vote_average item = Some v ->
               ~ (b == 0)%Q -> ~ (v == 0)%Q -> (b <= v)%Q) /\
  (forall b v, CollectionFilter.tmdb_vote_count_gte filters = Some b ->
               MediaItem.vote_count item = Some v -> b <> 0 -> v <> 0 ->
               b <= v) /\
  (forall c, MediaItem.original_country item = Some c -> c <> "" ->
             (c ∉ CollectionFilter.country_not filters) /\
             (c ∉ CollectionFilter.origin_country_not filters)).

(** A title nobody has rated yet, as the catalog reports it. *)
Definition unrated : MediaItem.t :=
  MediaItem.mk "Unrated" (Some 2024) (Some 1) None None (Some 0%Q) (Some 0) []
    None.

(** An entry whose year the catalog reports as 0. *)
Definition year_zero : MediaItem.t :=
  MediaItem.mk "Undated" (Some 0) (Some 9) None None None None [] None.

Definition config_with (filters : CollectionFilter.t) (limit : option Z)
  : CollectionConfig.t :=
  CollectionConfig.mk "c" None None None None None None None None None filters
    limit (CollectionSchedule.mk DAILY None None) None None.

Definition rated_at_least_7 : CollectionFilter.t :=
  CollectionFilter.mk None None (Some 7%Q) None (Some 100) [] [].

Definition from_2020 : CollectionFilter.t :=
  CollectionFilter.mk (Some 2020) None None None None [] [].

Definition titled (title : string) (year : option Z) (tmdb_id : Z)
  : MediaItem.t :=
  MediaItem.mk title year (Some tmdb_id) None None None None [] None.

(** The identifiers the deduplication loop has recorded once it is through
    [items], starting from [seen_ids]. *)
Definition seen_after (seen_ids : gset Z) (items : list MediaItem.t) : gset Z :=
  seen_ids ∪
  list_to_set
    (omap (fun item =>
             if carries_tmdb_id item then MediaItem.tmdb_id item else None)
       items).

(** ** [SonarrClient] over HTTP ([jfc.clients.sonarr]) *)

Module Sonarr.
Record t (H : Type) := mk {
  root_folder : string;
  quality_profile : string;
  default_tag : string;
  (** [httpx.AsyncClient.request] against the Sonarr server *)
  request : Method -> string -> option Json -> M H Response.t
}.
Arguments mk {H}. Arguments root_folder {H}. Arguments quality_profile {H}.
Arguments default_tag {H}. Arguments request {H}.

Record State (H : Type) := mkState {
  server : H;
  _quality_profile_id : Json;
  _tag_id : Json;
  sent : list (Method * string)
}.
Arguments mkState {H}. Arguments server {H}.
Arguments _quality_profile_id {H}. Arguments _tag_id {H}.
Arguments sent {H}.

Definition connect {H} (h : H) : State H := mkState h JNull JNull [].

Definition _request {H} (self : t H) (method : Method) (endpoint : string)
    (json : option Json) : M (State H) Response.t :=
  fun s =>
    let '(r, h') := request self method endpoint json (server s) in
    (r, mkState h' (_quality_profile_id s) (_tag_id s)
          (sent s ++ [(method, endpoint)])).

Definition get {H} (self : t H) (endpoint : string) :=
  _request self GET endpoint None.
Definition post {H} (self : t H) (endpoint : string) (json : Json) :=
  _request self POST endpoint (Some json).

Definition set_quality_profile_id {H} (v : Json) : M (State H) unit :=
  fun s => (Return tt, mkState (server s) v (_tag_id s) (sent s)).
Definition set_tag_id {H} (v : Json) : M (State H) unit :=
  fun s => (Return tt, mkState (server s) (_quality_profile_id s) v (sent s)).

Definition get_quality_profiles {H} (self : t H) : M (State H) Json :=
  response <- get self "/api/v3/qualityprofile" ;;
  Radarr.raise_for_status response ;;;
  Radarr.json response.

Fixpoint find_quality_profile {H} (profiles : list Json) (name : string)
  : M (State H) Json :=
  match profiles with
  | [] => ret JNull
  | profile :: rest =>
      profile_name <- lift_result (getitem profile "name") ;;
      lowered <- lift_result (lower_of profile_name) ;;
      if String.eqb lowered (lower name) then
        id <- lift_result (getitem profile "id") ;;
        set_quality_profile_id id ;;;
        ret id
      else find_quality_profile rest name
  end.

Definition get_quality_profile_id {H} (self : t H) (name : string)
  : M (State H) Json :=
  fun s =>
    if truthy (_quality_profile_id s) then (Return (_quality_profile_id s), s)
    else
      (profiles <- get_quality_profiles self ;;
       profiles <- lift_result (iterate profiles) ;;
       find_quality_profile profiles name) s.

Definition get_root_folders {H} (self : t H) : M (State H) Json :=
  response <- get self "/api/v3/rootfolder" ;;
  Radarr.raise_for_status response ;;;
  Radarr.json response.

Definition get_root_folder_path {H} (self : t H) (path : string)
  : M (State H) Json :=
  folders <- get_root_folders self ;;
  items <- lift_result (iterate folders) ;;
  found <- Radarr.find_root_folder items path ;;
  match found with
  | Some p => ret p
  | None =>
      (* Return first folder if path not found *)
      if truthy folders then
        first <- lift_result (getitem0 folders) ;;
        lift_result (getitem first "path")
      else ret JNull
  end.

Definition get_tags {H} (self : t H) : M (State H) Json :=
  response <- get self "/api/v3/tag" ;;
  Radarr.raise_for_status response ;;;
  Radarr.json response.

Fixpoint find_tag {H} (tags : list Json) (name : string)
  : M (State H) (option Json) :=
  match tags with
  | [] => ret None
  | tag :: rest =>
      label <- lift_result (getitem tag "label") ;;
      lowered <- lift_result (lower_of label) ;;
      if String.eqb lowered (lower name) then
        id <- lift_result (getitem tag "id") ;;
        set_tag_id id ;;;
        ret (Some id)
      else find_tag rest name
  end.

Definition get_or_create_tag {H} (self : t H) (name : string)
  : M (State H) Json :=
  fun s =>
    if truthy (_tag_id s) then (Return (_tag_id s), s)
    else
      (tags <- get_tags self ;;
       tags <- lift_result (iterate tags) ;;
       found <- find_tag tags name ;;
       match found with
       | Some id => ret id
       | None =>
           (* Create tag *)
           response <- post self "/api/v3/tag" (JDict [("label", JStr name)]) ;;
           Radarr.raise_for_status response ;;;
           body <- Radarr.json response ;;
           tag_id <- lift_result (getitem body "id") ;;
           set_tag_id tag_id ;;;
           ret tag_id
       end) s.

Definition get_series {H} (self : t H) : M (State H) Json :=
  response <- get self "/api/v3/series" ;;
  Radarr.raise_for_status response ;;;
  Radarr.json response.

Definition get_series_by_tvdb_id {H} (self : t H) (tvdb_id : Z)
  : M (State H) Json :=
  response <- get self (String.append "/api/v3/series?tvdbId=" (pretty tvdb_id)) ;;
  Radarr.raise_for_status response ;;;
  series_list <- Radarr.json response ;;
  if truthy series_list then lift_result (getitem0 series_list) else ret JNull.

Definition series_exists {H} (self : t H) (tvdb_id : Z) : M (State H) bool :=
  series <- get_series_by_tvdb_id self tvdb_id ;;
  ret (negb (is_JNull series)).

Definition lookup_series {H} (self : t H) (tvdb_id : Z) : M (State H) Json :=
  response <-
    get self (String.append "/api/v3/series/lookup?term=tvdb:" (pretty tvdb_id)) ;;
  if Response.status_code response =? 404 then ret JNull else
  Radarr.raise_for_status response ;;;
  results <- Radarr.json response ;;
  if truthy results then lift_result (getitem0 results) else ret JNull.

Definition add_series {H} (self : t H) (tvdb_id : Z)
    (root_folder' quality_profile' : option string)
    (tags : option (list string)) (monitored season_folder : bool)
    (series_type : string) (search_for_missing : bool) (monitor : string)
  : M (State H) Json :=
  (* Check if already exists *)
  already <- series_exists self tvdb_id ;;
  if (already : bool) then get_series_by_tvdb_id self tvdb_id else
  (* Lookup series *)
  series_data <- lookup_series self tvdb_id ;;
  if negb (truthy series_data) then ret JNull else
  (* Get quality profile ID *)
  let profile_name := or_default quality_profile' (quality_profile self) in
  profile_id <- get_quality_profile_id self profile_name ;;
  if negb (truthy profile_id) then ret JNull else
  (* Get root folder *)
  folder <- get_root_folder_path self
              (or_default root_folder' (root_folder self)) ;;
  if negb (truthy folder) then ret JNull else
  (* Get tag IDs *)
  tag_ids <- map_M (get_or_create_tag self)
               (if truthy tags then default [] tags else [default_tag self]) ;;
  (* Build request *)
  series_data <- lift_result
    (update_of series_data
       [("rootFolderPath", folder);
        ("qualityProfileId", profile_id);
        ("monitored", JBool monitored);
        ("seasonFolder", JBool season_folder);
        ("seriesType", JStr series_type);
        ("tags", JList tag_ids);
        ("addOptions",
         JDict [("monitor", JStr monitor);
                ("searchForMissingEpisodes", JBool search_for_missing);
                ("searchForCutoffUnmetEpisodes", JBool false)])]) ;;
  response <- post self "/api/v3/series" series_data ;;
  if Response.status_code response =? 201 then
    result <- Radarr.json response ;;
    lift_result (getitem result "title") ;;;
    lift_result (getitem result "year") ;;;
    ret result
  else ret JNull.

Definition get_status {H} (self : t H) : M (State H) Json :=
  response <- get self "/api/v3/system/status" ;;
  Radarr.raise_for_status response ;;;
  Radarr.json response.

Definition health_check {H} (self : t H) : M (State H) bool :=
  try_except (get_status self ;;; ret true) (fun _ => ret false).

(** The client as the dispatcher uses it: [add_series(tvdb_id=.., tags=..)]
    with the other arguments at their defaults. *)
Definition client {H} (self : t H) : SonarrClient.t (State H) :=
  SonarrClient.mk (fun tvdb_id tags =>
    r <- add_series self tvdb_id None None tags true true "standard" true
           "all" ;;
    ret (if is_JNull r then None else Some r)).
End Sonarr.

(** ** [JellyfinClient] over HTTP ([jfc.clients.jellyfin]): collections *)

(** [obj.get(key, default)] *)
Definition get_of (obj : Json) (key : string) (default : Json) : Result Json :=
  match obj with
  | JDict kv => Return (match assoc_get kv key with
                        | Some v => v
                        | None => default
                        end)
  | _ => Raise (Exception "AttributeError" "get")
  end.

(** [obj[key] = value] *)
Definition setitem (obj : Json) (key : string) (value : Json) : Result Json :=
  match obj with
  | JDict kv => Return (JDict (assoc_set kv key value))
  | _ => Raise TypeError
  end.

Module Jellyfin.
Record t (H : Type) := mk {
  (** [httpx.AsyncClient.request] against the Jellyfin server, with the
      query parameters and the JSON body *)
  request : Method -> string -> list (string * Json) -> option Json
            -> M H Response.t
}.
Arguments mk {H}. Arguments request {H}.

Record Sent := mkSent {
  sent_method : Method;
  sent_endpoint : string;
  sent_params : list (string * Json);
  sent_json : option Json
}.

Record State (H : Type) := mkState { server : H; sent : list Sent }.
Arguments mkState {H}. Arguments server {H}. Arguments sent {H}.

Definition connect {H} (h : H) : State H := mkState h [].

Definition _request {H} (self : t H) (method : Method) (endpoint : string)
    (params : list (string * Json)) (json : option Json)
  : M (State H) Response.t :=
  fun s =>
    let '(r, h') := request self method endpoint params json (server s) in
    (r, mkState h' (sent s ++ [mkSent method endpoint params json])).

Definition get_libraries {H} (self : t H) : M (State H) Json :=
  response <- _request self GET "/Library/VirtualFolders" [] None ;;
  Radarr.raise_for_status response ;;;
  Radarr.json response.

Definition get_collections {H} (self : t H) (library_id : option string)
  : M (State H) Json :=
  let params := [("IncludeItemTypes", JStr "BoxSet");
                 ("Recursive", JBool true);
                 ("Fields", JStr "ChildCount")] in
  let params :=
    if truthy library_id
    then params ++ [("ParentId", JStr (default "" library_id))]
    else params in
  response <- _request self GET "/Items" params None ;;
  Radarr.raise_for_status response ;;;
  body <- Radarr.json response ;;
  lift_result (get_of body "Items" (JList [])).

Definition get_collection {H} (self : t H) (collection_id : string)
  : M (State H) Json :=
  response <- _request self GET (String.append "/Items/" collection_id) []
                None ;;
  if Response.status_code response =? 200 then Radarr.json response
  else ret JNull.

Definition get_collection_items {H} (self : t H) (collection_id : string)
  : M (State H) (list Json) :=
  let params := [("ParentId", JStr collection_id);
                 ("Fields", JStr "ProviderIds")] in
  response <- _request self GET "/Items" params None ;;
  Radarr.raise_for_status response ;;;
  body <- Radarr.json response ;;
  items <- lift_result (get_of body "Items" (JList [])) ;;
  items <- lift_result (iterate items) ;;
  map_M (fun item => lift_result (getitem item "Id")) items.

Definition create_collection {H} (self : t H) (name : string)
    (item_ids : option (list string)) : M (State H) Json :=
  let params := [("Name", JStr name)] in
  let params :=
    if truthy item_ids
    then params ++ [("Ids", JStr (String.concat "," (default [] item_ids)))]
    else params in
  response <- _request self POST "/Collections" params None ;;
  Radarr.raise_for_status response ;;;
  body <- Radarr.json response ;;
  lift_result (get_of body "Id" JNull).

Definition add_to_collection {H} (self : t H) (collection_id : string)
    (item_ids : list string) : M (State H) bool :=
  if negb (truthy item_ids) then ret true else
  response <-
    _request self POST
      (String.append "/Collections/" (String.append collection_id "/Items"))
      [("Ids", JStr (String.concat "," item_ids))] None ;;
  if Response.status_code response =? 204 then ret true else ret false.

Definition remove_from_collection {H} (self : t H) (collection_id : string)
    (item_ids : list string) : M (State H) bool :=
  if negb (truthy item_ids) then ret true else
  response <-
    _request self DELETE
      (String.append "/Collections/" (String.append collection_id "/Items"))
      [("Ids", JStr (String.concat "," item_ids))] None ;;
  if Response.status_code response =? 204 then ret true else ret false.

Definition delete_collection {H} (self : t H) (collection_id : string)
  : M (State H) bool :=
  response <- _request self DELETE (String.append "/Items/" collection_id) []
                None ;;
  if Response.status_code response =? 204 then ret true else ret false.

(** [if value: collection[key] = value] *)
Definition set_if {S} (value : option string) (key : string) (collection : Json)
  : M S Json :=
  if truthy value
  then lift_result (setitem collection key (JStr (default "" value)))
  else ret collection.

Definition update_collection_metadata {H} (self : t H) (collection_id : string)
    (name overview sort_name : option string) : M (State H) bool :=
  (* First get current item data *)
  collection <- get_collection self collection_id ;;
  if negb (truthy collection) then ret false else
  (* Update fields *)
  collection <- set_if name "Name" collection ;;
  collection <- set_if overview "Overview" collection ;;
  collection <- set_if sort_name "SortName" collection ;;
  response <- _request self POST (String.append "/Items/" collection_id) []
                (Some collection) ;;
  if Response.status_code response =? 204 then ret true else ret false.

Definition _map_item_type (jellyfin_type : string) : MediaType :=
  if String.eqb jellyfin_type "Movie" then MOVIE
  else if String.eqb jellyfin_type "Series" then SERIES
  else if String.eqb jellyfin_type "Season" then SEASON
  else if String.eqb jellyfin_type "Episode" then EPISODE
  else MOVIE.
End Jellyfin.

(** ** [DiscordWebhook.__init__] *)


(** ** Further notions for the statements *)

(** An outcome that is not an exception. *)
Definition returned (ev : Call * Reply) : Prop :=
  match snd ev with Raised _ => False | _ => True end.

(** A computation that lets every exception of a collaborator through at
    once: what it adds to the log is a run of calls that returned, followed,
    when it raises, by the call that raised that very exception. *)
Definition fails_fast {W A} (m : M (State W) A) : Prop :=
  forall s,
    exists new,
      trace (snd (m s)) = trace s ++ new
      /\ match fst (m s) with
         | Return _ => Forall returned new
         | Raise e =>
             exists before c,
               new = before ++ [(c, Raised e)] /\ Forall returned before
         end.

(** A relation between the state a computation starts in and the state it
    ends in, whatever it returns or raises. *)
Definition preserves {S A} (R : S -> S -> Prop) (m : M S A) : Prop :=
  forall s, R s (snd (m s)).

(** The log grew by calls of the class [allowed] only. *)
Definition logged_only {W} (allowed : Call -> bool) (s s' : State W) : Prop :=
  exists new,
    trace s' = trace s ++ new
    /\ Forall (fun ev => allowed (fst ev) = true) new.

(** A computation that only logs calls of the class [allowed]. *)
Definition logs_only {W A} (allowed : Call -> bool) (m : M (State W) A)
  : Prop :=
  preserves (logged_only allowed) m.

(** The reads of the build phase. *)
Definition is_build_read (c : Call) : bool :=
  match c with
  | CallFetch _ _ _ | CallFindInLibrary _ _ => true
  | _ => false
  end.

Definition is_tmdb_fetch (c : Call) : bool :=
  match c with
  | CallFetch provider _ _ => String.eqb provider "tmdb"
  | _ => false
  end.

(** What a whole run may log when nothing is to be changed. *)
Definition is_dry_call (c : Call) : bool :=
  match c with
  | CallGetAllCollections | CallGetLibraries | CallFetch _ _ _
  | CallFindInLibrary _ _ | CallSendRunStart _ _ | CallSendRunEnd _ _ _ _
  | CallSendError _ _ => true
  | _ => false
  end.

(** No provider source is switched on in the definition. *)
Definition no_source (config : CollectionConfig.t) : Prop :=
  truthy (CollectionConfig.tmdb_trending_weekly config) = false
  /\ truthy (CollectionConfig.tmdb_trending_daily config) = false
  /\ truthy (CollectionConfig.tmdb_popular config) = false
  /\ truthy (CollectionConfig.tmdb_discover config) = false
  /\ truthy (CollectionConfig.trakt_trending config) = false
  /\ truthy (CollectionConfig.trakt_popular config) = false
  /\ truthy (CollectionConfig.trakt_chart config) = false.

(** The projection of a candidate that [build_collection] makes, given the
    answer of the matcher. *)
Definition built_from (candidate : MediaItem.t) (item : CollectionItem.t)
  : Prop :=
  CollectionItem.title item = MediaItem.title candidate
  /\ CollectionItem.year item = MediaItem.year candidate
  /\ CollectionItem.tmdb_id item = MediaItem.tmdb_id candidate
  /\ CollectionItem.imdb_id item = MediaItem.imdb_id candidate
  /\ CollectionItem.tvdb_id item = MediaItem.tvdb_id candidate
  /\ CollectionItem.matched item = CollectionItem.in_library item
  /\ CollectionItem.matched item = is_not_None (CollectionItem.jellyfin_id item).

(** The item counters of the statistics are as they were. *)
Definition same_item_counts {W} (s s' : State W) : Prop :=
  Stats.items_added (stats s') = Stats.items_added (stats s)
  /\ Stats.items_removed (stats s') = Stats.items_removed (stats s).

(** The collection a call of the reconciliation engine names, if any. *)
Definition collection_of (c : Call) : option string :=
  match c with
  | CallGetCollectionItems id | CallAddToCollection id _
  | CallRemoveFromCollection id _ | CallUpdateCollectionMetadata id _ _ =>
      Some id
  | _ => None
  end.

(** A call that creates no collection and names no collection but [id]. *)
Definition within (id : string) (c : Call) : bool :=
  match c with
  | CallCreateCollection _ => false
  | _ => match collection_of c with
         | Some id' => String.eqb id' id
         | None => true
         end
  end.

(** An acquisition request that carries exactly [tags]. *)
Definition is_request_with (tags : option (list string)) (c : Call) : bool :=
  match c with
  | CallAddMovie _ tags' | CallAddSeries _ tags' => bool_decide (tags' = tags)
  | _ => false
  end.

(** The calls [Runner.run] makes itself, outside the loop over the
    libraries. *)
Definition is_run_frame (c : Call) : bool :=
  match c with
  | CallGetAllCollections | CallGetLibraries | CallSendRunStart _ _
  | CallSendRunEnd _ _ _ _ => true
  | _ => false
  end.

(** A library whose collection holds one title too many. *)
Definition removal_only_server : Sim.Server :=
  Sim.mkServer [Library.mk "Movies" "lib-1"] [BoxSet.mk "top-id" "Top"]
    [("top-id", ["jf-603"; "jf-old"])] [(603, "jf-603")] [Sim.matrix] [] true
    [] (datetime.mk 2026 11 3).

(** A definition that tags what it requests. *)
Definition tagged (name : string) (n : Z) (radarr_tag sonarr_tag : option string)
  : CollectionConfig.t :=
  CollectionConfig.mk name None None None None (Some n) None None None None
    CollectionFilter.unconstrained None
    (CollectionSchedule.mk DAILY None None) radarr_tag sonarr_tag.

(** A series collection with two missing titles, tagged for Radarr and for
    Sonarr. *)
Definition tagged_shows : Collection.t :=
  Collection.mk (tagged "Shows" 2 (Some "films") (Some "shows")) "Shows"
    [Sim.item "Severance" (Some 95396) (Some 371980) None;
     Sim.item "Dark" (Some 70523) (Some 334824) None].

(** ** A simulated acquisition server

    Quality profiles, root folders, tags, the titles the metadata lookup
    knows and the titles registered so far; it answers the endpoints of
    Radarr or of Sonarr, depending on the prefixes it is given. *)

Module Arr.
Record Server := mkServer {
  profiles : list (string * Z);
  folders : list string;
  tags : list (string * Z);
  catalog : list Z;
  registered : list Z;
  up : bool
}.

Definition profile_record (p : string * Z) : Json :=
  JDict [("id", JInt (snd p)); ("name", JStr (fst p))].
Definition folder_record (p : string) : Json := JDict [("path", JStr p)].
Definition tag_record (t : string * Z) : Json :=
  JDict [("id", JInt (snd t)); ("label", JStr (fst t))].
Definition title_record (key : string) (id : Z) : Json :=
  JDict [(key, JInt id); ("title", JStr "A title"); ("year", JInt 2020)].

Definition answer (code : Z) (j : Json) : Response.t :=
  Response.mk code (Some j) "".
Definition refuse (code : Z) : Response.t := Response.mk code None "".

Definition matching (prefix endpoint : string) (ids : list Z) : list Z :=
  List.filter
    (fun id => String.eqb endpoint (String.append prefix (pretty id))) ids.

Definition add_tag (h : Server) (name : string) (id : Z) : Server :=
  mkServer (profiles h) (folders h) (tags h ++ [(name, id)]) (catalog h)
    (registered h) (up h).
Definition register (h : Server) (id : Z) : Server :=
  mkServer (profiles h) (folders h) (tags h) (catalog h) (registered h ++ [id])
    (up h).

Definition request (key held_prefix lookup_prefix add_endpoint : string)
    (lookup_lists : bool) (method : Method) (endpoint : string)
    (json : option Json) : M Server Response.t :=
  fun h =>
    if negb (up h) then (Return (refuse 503), h) else
    match method with
    | GET =>
        if String.eqb endpoint "/api/v3/qualityprofile" then
          (Return (answer 200 (JList (List.map profile_record (profiles h)))), h)
        else if String.eqb endpoint "/api/v3/rootfolder" then
          (Return (answer 200 (JList (List.map folder_record (folders h)))), h)
        else if String.eqb endpoint "/api/v3/tag" then
          (Return (answer 200 (JList (List.map tag_record (tags h)))), h)
        else if String.eqb endpoint "/api/v3/system/status" then
          (Return (answer 200 (JDict [("version", JStr "5.0")])), h)
        else if String.prefix held_prefix endpoint then
          (Return
             (answer 200
                (JList (List.map (title_record key)
                          (matching held_prefix endpoint (registered h))))), h)
        else if String.prefix lookup_prefix endpoint then
          match matching lookup_prefix endpoint (catalog h) with
          | id :: _ =>
              (Return (answer 200 (if lookup_lists
                                   then JList [title_record key id]
                                   else title_record key id)), h)
          | [] =>
              (Return (if lookup_lists then answer 200 (JList [])
                       else refuse 404), h)
          end
        else (Return (refuse 404), h)
    | POST =>
        if String.eqb endpoint "/api/v3/tag" then
          match json with
          | Some (JDict [(_, JStr name)]) =>
              let id := 1 + Z.of_nat (length (tags h)) in
              (Return (answer 201 (tag_record (name, id))), add_tag h name id)
          | _ => (Return (refuse 400), h)
          end
        else if String.eqb endpoint add_endpoint then
          match json with
          | Some body =>
              match getitem body key with
              | Return (JInt id) => (Return (answer 201 body), register h id)
              | _ => (Return (refuse 400), h)
              end
          | None => (Return (refuse 400), h)
          end
        else (Return (refuse 404), h)
    | _ => (Return (refuse 405), h)
    end.

Definition radarr : Radarr.t Server :=
  Radarr.mk "/movies" "HD-1080p" "jfc"
    (request "tmdbId" "/api/v3/movie?tmdbId="
       "/api/v3/movie/lookup/tmdb?tmdbId=" "/api/v3/movie" false).

Definition sonarr : Sonarr.t Server :=
  Sonarr.mk "/tv" "HD-1080p" "jfc"
    (request "tvdbId" "/api/v3/series?tvdbId="
       "/api/v3/series/lookup?term=tvdb:" "/api/v3/series" true).

(** A server with one profile, two root folders and one tag, that knows
    two titles and holds none. *)
Definition fresh : Server :=
  mkServer [("HD-1080p", 4)] ["/data/media"; "/movies"] [("jfc", 7)]
    [27205; 603] [] true.

Definition down : Server := mkServer [] [] [] [] [] false.
End Arr.

(** The requests sent so far grew by requests of the class [allowed]
    only. *)
Definition sent_only {H} (allowed : Method * string -> bool)
    (s s' : Radarr.State H) : Prop :=
  exists new,
    Radarr.sent s' = Radarr.sent s ++ new
    /\ Forall (fun r => allowed r = true) new.

(** A read, or the creation of a tag. *)
Definition is_read_or_tag (r : Method * string) : bool :=
  match r with
  | (GET, _) => true
  | (POST, endpoint) => String.eqb endpoint "/api/v3/tag"
  | _ => false
  end.

(** The requests sent so far grew by reads and tag creations, with at most
    one registration of a title, which then is the last request. *)
Definition registered_at_most_once {H} (s s' : Radarr.State H) : Prop :=
  exists new,
    Radarr.sent s' = Radarr.sent s ++ new
    /\ (Forall (fun r => is_read_or_tag r = true) new
        \/ exists before,
            new = before ++ [(POST, "/api/v3/movie")]
            /\ Forall (fun r => is_read_or_tag r = true) before).

(** The answer of [get_root_folder_path] on well-formed folders: the first
    folder that is the path or a prefix of it, else the first folder, else
    [None]. *)
Definition chosen_root_folder (paths : list string) (path : string) : Json :=
  match List.find (fun p => String.eqb p path || String.prefix p path) paths with
  | Some p => JStr p
  | None => match paths with
            | first :: _ => JStr first
            | [] => JNull
            end
  end.

(** A library client that answers its three writes with other results:
    [f], [g] and [h] are applied to what [add_to_collection],
    [remove_from_collection] and [update_collection_metadata] return. *)
Definition with_write_results {W} (f g h : bool -> bool)
    (self : CollectionBuilder.t W) : CollectionBuilder.t W :=
  let jellyfin := CollectionBuilder.jellyfin self in
  CollectionBuilder.mk
    (JellyfinClient.mk
       (JellyfinClient.get_libraries jellyfin)
       (JellyfinClient.get_collections jellyfin)
       (JellyfinClient.get_collection_items jellyfin)
       (JellyfinClient.create_collection jellyfin)
       (fun id ids =>
          ok <- JellyfinClient.add_to_collection jellyfin id ids ;; ret (f ok))
       (fun id ids =>
          ok <- JellyfinClient.remove_from_collection jellyfin id ids ;;
          ret (g ok))
       (fun id overview sort_name =>
          ok <- JellyfinClient.update_collection_metadata jellyfin id overview
                  sort_name ;;
          ret (h ok)))
    (CollectionBuilder.tmdb self) (CollectionBuilder.trakt self)
    (CollectionBuilder.radarr self) (CollectionBuilder.sonarr self)
    (CollectionBuilder.dry_run self) (CollectionBuilder.matcher self).

(** A simulated Jellyfin server that holds the record of one collection,
    "top-id": it answers reads of the record, stores what is posted to it,
    accepts membership writes for it and knows nothing else. *)
Definition jellyfin_record_request (method : Method) (endpoint : string)
    (params : list (string * Json)) (json : option Json) : M Json Response.t :=
  fun record =>
    match method with
    | GET =>
        if String.eqb endpoint "/Items/top-id"
        then (Return (Arr.answer 200 record), record)
        else (Return (Arr.refuse 404), record)
    | POST =>
        if String.eqb endpoint "/Items/top-id" then
          match json with
          | Some body => (Return (Arr.refuse 204), body)
          | None => (Return (Arr.refuse 400), record)
          end
        else if String.eqb endpoint "/Collections/top-id/Items"
        then (Return (Arr.refuse 204), record)
        else (Return (Arr.refuse 404), record)
    | DELETE =>
        if String.eqb endpoint "/Collections/top-id/Items"
        then (Return (Arr.refuse 204), record)
        else (Return (Arr.refuse 404), record)
    | PUT => (Return (Arr.refuse 405), record)
    end.

Definition jellyfin_record_client : Jellyfin.t Json :=
  Jellyfin.mk jellyfin_record_request.

Definition top_record : Json :=
  JDict [("Id", JStr "top-id"); ("Name", JStr "Top");
         ("Overview", JStr "The best"); ("Type", JStr "BoxSet")].

(** ** [TraktClient.get_list] ([jfc.clients.trakt])

    [_parse_movie] and [_parse_series] build the catalog models from the
    dictionary they are given and read nothing else; they are taken as they
    come, as functions that return an item or raise. *)

Module Trakt.
Record t (H : Type) := mk {
  request : Method -> string -> list (string * Json) -> option Json
            -> M H Response.t;
  _parse_movie : Json -> Result MediaItem.t;
  _parse_series : Json -> Result MediaItem.t
}.
Arguments mk {H}. Arguments request {H}. Arguments _parse_movie {H}.
Arguments _parse_series {H}.

(** [value == s] for a string [s] *)
Definition is_str (value : Json) (s : string) : bool :=
  match value with JStr s' => String.eqb s' s | _ => false end.

(** [media_type is None or media_type == kind] *)
Definition asks_for (media_type : option MediaType) (kind : MediaType) : bool :=
  match media_type, kind with
  | None, _ => true
  | Some MOVIE, MOVIE | Some SERIES, SERIES | Some SEASON, SEASON
  | Some EPISODE, EPISODE => true
  | _, _ => false
  end.

(** The loop of [get_list]. *)
Fixpoint collect {H} (self : t H) (media_type : option MediaType)
    (entries : list Json) (items : list MediaItem.t)
  : M H (list MediaItem.t) :=
  match entries with
  | [] => ret items
  | item :: rest =>
      item_type <- lift_result (get_of item "type" JNull) ;;
      if is_str item_type "movie" then
        if asks_for media_type MOVIE then
          data <- lift_result (getitem item "movie") ;;
          parsed <- lift_result (_parse_movie self data) ;;
          collect self media_type rest (items ++ [parsed])
        else collect self media_type rest items
      else if is_str item_type "show" then
        if asks_for media_type SERIES then
          data <- lift_result (getitem item "show") ;;
          parsed <- lift_result (_parse_series self data) ;;
          collect self media_type rest (items ++ [parsed])
        else collect self media_type rest items
      else collect self media_type rest items
  end.

Definition get_list {H} (self : t H) (user list_id : string)
    (media_type : option MediaType) : M H (list MediaItem.t) :=
  response <-
    request self GET
      (String.append "/users/"
         (String.append user
            (String.append "/lists/" (String.append list_id "/items"))))
      [("extended", JStr "full")] None ;;
  Radarr.raise_for_status response ;;;
  body <- Radarr.json response ;;
  entries <- lift_result (iterate body) ;;
  collect self media_type entries [].
End Trakt.

(** An entry of a Trakt list that [get_list] keeps when it is asked for
    [media_type]. *)
Definition listed_as (media_type : option MediaType) (entry : Json) : bool :=
  match get_of entry "type" JNull with
  | Return item_type =>
      Trakt.is_str item_type "movie" && Trakt.asks_for media_type MOVIE
      || negb (Trakt.is_str item_type "movie")
         && Trakt.is_str item_type "show" && Trakt.asks_for media_type SERIES
  | Raise _ => false
  end.

(** The item [get_list] makes of an entry it keeps. *)
Definition parsed_from {H} (self : Trakt.t H) (entry : Json)
    (item : MediaItem.t) : Prop :=
  exists item_type data,
    get_of entry "type" JNull = Return item_type
    /\ if Trakt.is_str item_type "movie"
       then getitem entry "movie" = Return data
            /\ Trakt._parse_movie self data = Return item
       else getitem entry "show" = Return data
            /\ Trakt._parse_series self data = Return item.

(** ** [Scheduler] ([jfc.core.scheduler])

    The APScheduler library is a collaborator: the scheduler object [A] it
    creates, and the operations of it the wrapper calls. A job is known by
    its identifier and its next run time. *)

Module Job.
Record t := mk { id : string; next_run_time : option string }.
End Job.

Module APScheduler.
Record t (A : Type) := mk {
  (** [AsyncIOScheduler(timezone=...)], which rejects a time zone it does
      not know *)
  AsyncIOScheduler : string -> Result A;
  running : A -> bool;
  start : M A unit;
  shutdown : M A unit;
  (** [CronTrigger(minute=.., hour=.., day=.., month=.., day_of_week=..,
      timezone=..)], which rejects fields it cannot read *)
  CronTrigger : string -> string -> string -> string -> string -> string
                -> Result string;
  (** [add_job(func, trigger=.., id=name, name=name, replace_existing=True)] *)
  add_job : string -> string -> M A Job.t;
  remove_job : string -> M A unit;
  get_job : string -> A -> option Job.t
}.
Arguments mk {A}. Arguments AsyncIOScheduler {A}. Arguments running {A}.
Arguments start {A}. Arguments shutdown {A}. Arguments CronTrigger {A}.
Arguments add_job {A}. Arguments remove_job {A}. Arguments get_job {A}.
End APScheduler.

(** [c.isspace()] on the ASCII range. *)
Definition isspace (c : ascii) : bool :=
  let n := nat_of_ascii c in
  ((9 <=? n)%nat && (n <=? 13)%nat) || ((28 <=? n)%nat && (n <=? 32)%nat).

(** [s.split()]: the maximal runs of characters that are not whitespace.
    [word] is the run being read, in reverse. *)
Fixpoint split_loop (s : string) (word : list ascii) : list string :=
  let flush (rest : list string) :=
    match word with
    | [] => rest
    | _ => string_of_list_ascii (rev word) :: rest
    end in
  match s with
  | EmptyString => flush []
  | String c s' =>
      if isspace c then flush (split_loop s' [])
      else split_loop s' (c :: word)
  end.

Definition split (s : string) : list string := split_loop s [].

Module Scheduler.
Record t (A : Type) := mk {
  timezone : string;
  lib : APScheduler.t A
}.
Arguments mk {A}. Arguments timezone {A}. Arguments lib {A}.

Record State (A : Type) := mkState {
  _scheduler : option A;
  _jobs : gmap string string
}.
Arguments mkState {A}. Arguments _scheduler {A}. Arguments _jobs {A}.


Definition AttributeError : exn := Exception "AttributeError" "NoneType".

(** An operation of the library on the scheduler object held in
    [_scheduler]. *)
Definition on_scheduler {A B} (op : M A B) : M (State A) B :=
  fun s =>
    match _scheduler s with
    | Some a => let '(r, a') := op a in (r, mkState (Some a') (_jobs s))
    | None => (Raise AttributeError, s)
    end.

Definition set_scheduler {A} (a : A) : M (State A) unit :=
  fun s => (Return tt, mkState (Some a) (_jobs s)).

Definition set_jobs {A} (f : gmap string string -> gmap string string)
  : M (State A) unit :=
  fun s => (Return tt, mkState (_scheduler s) (f (_jobs s))).

Definition is_running {A} (self : t A) : M (State A) bool :=
  on_scheduler (fun a => (Return (APScheduler.running (lib self) a), a)).

Definition start {A} (self : t A) : M (State A) unit :=
  (fun s =>
     if is_not_None (_scheduler s) then (Return tt, s)
     else (a <- lift_result
                  (APScheduler.AsyncIOScheduler (lib self) (timezone self)) ;;
           set_scheduler a) s) ;;;
  running <- is_running self ;;
  if negb running then on_scheduler (APScheduler.start (lib self))
  else ret tt.

Definition stop {A} (self : t A) : M (State A) unit :=
  fun s =>
    match _scheduler s with
    | Some a =>
        if APScheduler.running (lib self) a
        then on_scheduler (APScheduler.shutdown (lib self)) s
        else (Return tt, s)
    | None => (Return tt, s)
    end.

Definition remove_job {A} (self : t A) (name : string) : M (State A) bool :=
  fun s =>
    match _jobs s !! name, _scheduler s with
    | Some job_id, Some _ =>
        try_except
          (on_scheduler (APScheduler.remove_job (lib self) job_id) ;;;
           set_jobs (delete name) ;;;
           ret true)
          (fun e => ret false) s
    | _, _ => (Return false, s)
    end.


Definition get_next_run {A} (self : t A) (name : string) (s : State A)
  : option string :=
  match _jobs s !! name, _scheduler s with
  | Some job_id, Some a =>
      match APScheduler.get_job (lib self) job_id a with
      | Some job => Job.next_run_time job
      | None => None
      end
  | _, _ => None
  end.
End Scheduler.




(** * Properties *)

#[local] Set Warnings "-clear-no-such-hyp".

(** ** Deduplication *)

Lemma truthy_Z_true (n : Z) : truthy n = true <-> n <> 0.
Proof.
  unfold truthy, truthy_Z. rewrite negb_true_iff, Z.eqb_neq. tauto.
Qed.

Lemma truthy_Q_true (q : Q) : truthy q = true <-> ~ (q == 0)%Q.
Proof.
  unfold truthy, truthy_Q. rewrite negb_true_iff.
  rewrite <- not_true_iff_false, Qeq_bool_iff. tauto.
Qed.

Lemma truthy_string_true (s : string) : truthy s = true <-> s <> "".
Proof. destruct s; unfold truthy, truthy_string; split; congruence. Qed.

Lemma truthy_list_false {A} (l : list A) : truthy l = false <-> l = [].
Proof. destruct l; unfold truthy, truthy_list; split; congruence. Qed.

Lemma truthy_Some {A} `{Truthy A} (x : A) : truthy (Some x) = truthy x.
Proof. reflexivity. Qed.

Lemma dedupe_loop_acc (items : list MediaItem.t) :
  forall seen acc, dedupe_loop items seen acc = acc ++ dedupe_loop items seen [].
Proof.
  induction items as [|item rest IH]; intros seen acc; simpl.
  - by rewrite app_nil_r.
  - destruct (MediaItem.tmdb_id item) as [id|]; [|apply IH].
    destruct (truthy id && negb (bool_decide (id ∈ seen))); [|apply IH].
    rewrite (IH _ (acc ++ [item])), (IH _ ([] ++ [item])).
    by rewrite <- app_assoc.
Qed.

#[local] Arguments seen_after : simpl never.

Lemma seen_after_nil seen : seen_after seen [] = seen.
Proof. unfold seen_after. simpl. set_solver. Qed.

Lemma seen_after_cons seen item rest :
  seen_after seen (item :: rest)
  = seen_after (if carries_tmdb_id item
                then {[default 0 (MediaItem.tmdb_id item)]} ∪ seen
                else seen) rest.
Proof.
  unfold seen_after, carries_tmdb_id. simpl.
  destruct (MediaItem.tmdb_id item) as [id|]; simpl; [|reflexivity].
  change (truthy (Some id)) with (truthy id).
  destruct (truthy id); simpl; [|reflexivity].
  set_solver.
Qed.

Lemma dedupe_loop_app (l1 l2 : list MediaItem.t) :
  forall seen acc,
    dedupe_loop (l1 ++ l2) seen acc
    = dedupe_loop l2 (seen_after seen l1) (dedupe_loop l1 seen acc).
Proof.
  induction l1 as [|item rest IH]; intros seen acc.
  - by rewrite seen_after_nil.
  - rewrite seen_after_cons. simpl. unfold carries_tmdb_id.
    destruct (MediaItem.tmdb_id item) as [id|] eqn:Hid; simpl; [|apply IH].
    change (truthy (Some id)) with (truthy id).
    destruct (truthy id) eqn:Ht; simpl; [|apply IH].
    destruct (bool_decide (id ∈ seen)) eqn:Hin; simpl.
    + rewrite IH. f_equal.
      apply bool_decide_eq_true in Hin. unfold seen_after. set_solver.
    + apply IH.
Qed.

Lemma elem_of_seen_after id seen items :
  id ∈ seen_after seen items <->
  id ∈ seen \/ (truthy id = true /\ Some id ∈ List.map MediaItem.tmdb_id items).
Proof.
  unfold seen_after. rewrite elem_of_union, elem_of_list_to_set, list_elem_of_omap.
  split.
  - intros [H|(item & Hin & Hk)]; [by left|right].
    unfold carries_tmdb_id in Hk.
    destruct (MediaItem.tmdb_id item) as [id'|] eqn:Hid; simpl in Hk; [|done].
    rewrite truthy_Some in Hk.
    destruct (truthy id') eqn:Ht; [|done]. injection Hk as ->.
    split; [done|]. rewrite <- Hid. apply list_elem_of_In, in_map.
    by apply list_elem_of_In.
  - intros [H|[Ht Hin]]; [by left|right].
    apply list_elem_of_In, in_map_iff in Hin as (item & Hid & Hin).
    exists item. split; [by apply list_elem_of_In|].
    unfold carries_tmdb_id. rewrite Hid, truthy_Some. by rewrite Ht.
Qed.

Lemma dedupe_loop_seen_all (items : list MediaItem.t) :
  forall seen,
    (forall item id, item ∈ items -> MediaItem.tmdb_id item = Some id ->
                     truthy id = true -> id ∈ seen) ->
    dedupe_loop items seen [] = [].
Proof.
  induction items as [|item rest IH]; intros seen Hall; simpl; [done|].
  destruct (MediaItem.tmdb_id item) as [id|] eqn:Hid.
  - destruct (truthy id) eqn:Ht; simpl.
    + rewrite bool_decide_eq_true_2; simpl.
      * apply IH. intros i j Hi. apply Hall. by right.
      * apply (Hall item); [left|done|done].
    + apply IH. intros i j Hi. apply Hall. by right.
  - apply IH. intros i j Hi. apply Hall. by right.
Qed.

Lemma deduplicate_snoc (items : list MediaItem.t) (item : MediaItem.t) :
  deduplicate (items ++ [item])
  = deduplicate items ++
    (if carries_tmdb_id item
        && negb (bool_decide
                   (MediaItem.tmdb_id item ∈ List.map MediaItem.tmdb_id items))
     then [item] else []).
Proof.
  unfold deduplicate. rewrite dedupe_loop_app. cbn [dedupe_loop].
  unfold carries_tmdb_id.
  destruct (MediaItem.tmdb_id item) as [id|] eqn:Hid;
    [|by rewrite app_nil_r].
  rewrite truthy_Some.
  destruct (truthy id) eqn:Ht; cbn [andb]; [|by rewrite app_nil_r].
  destruct (bool_decide (id ∈ seen_after ∅ items)) eqn:Hseen; cbn [negb].
  - apply bool_decide_eq_true in Hseen.
    apply elem_of_seen_after in Hseen as [Hs|[_ Hs]]; [set_solver|].
    rewrite bool_decide_eq_true_2 by done. by rewrite app_nil_r.
  - apply bool_decide_eq_false in Hseen.
    rewrite bool_decide_eq_false_2; [done|].
    intros Hin. apply Hseen, elem_of_seen_after. by right.
Qed.

Lemma deduplicate_sublist (items : list MediaItem.t) :
  sublist (deduplicate items) items.
Proof.
  induction items as [|item rest IH] using rev_ind; [constructor|].
  rewrite deduplicate_snoc.
  destruct (_ && _).
  - by apply sublist_app.
  - rewrite app_nil_r. by apply sublist_inserts_r.
Qed.

Lemma deduplicate_carries (items : list MediaItem.t) :
  Forall (fun item => carries_tmdb_id item = true) (deduplicate items).
Proof.
  induction items as [|item rest IH] using rev_ind; [constructor|].
  rewrite deduplicate_snoc. apply Forall_app. split; [done|].
  destruct (carries_tmdb_id item) eqn:Hc; simpl; [|constructor].
  destruct (negb _); repeat constructor. done.
Qed.

Lemma deduplicate_NoDup (items : list MediaItem.t) :
  NoDup (List.map MediaItem.tmdb_id (deduplicate items)).
Proof.
  induction items as [|item rest IH] using rev_ind; [constructor|].
  rewrite deduplicate_snoc, map_app. apply NoDup_app. split; [done|].
  destruct (carries_tmdb_id item); simpl;
    [|split; [intros ? ? Hin; inversion Hin | constructor]].
  destruct (bool_decide _) eqn:Hseen; simpl;
    [split; [intros ? ? Hin; inversion Hin | constructor]|].
  apply bool_decide_eq_false in Hseen. split.
  - intros id Hin Hin'. apply list_elem_of_singleton in Hin'. subst id.
    apply Hseen. apply list_elem_of_In, in_map_iff in Hin as (x & Hx & Hin).
    rewrite <- Hx. apply list_elem_of_In, in_map.
    apply list_elem_of_In.
    eapply elem_of_sublist; [|apply deduplicate_sublist].
    by apply list_elem_of_In.
  - apply NoDup_singleton.
Qed.

Lemma deduplicate_first_occurrence (items : list MediaItem.t) :
  forall item, item ∈ deduplicate items ->
    exists before after,
      items = before ++ item :: after /\
      forall earlier, earlier ∈ before ->
                      MediaItem.tmdb_id earlier <> MediaItem.tmdb_id item.
Proof.
  induction items as [|last rest IH] using rev_ind; intros item Hin.
  - inversion Hin.
  - rewrite deduplicate_snoc in Hin. apply elem_of_app in Hin as [Hin|Hin].
    + destruct (IH _ Hin) as (before & after & -> & Hfirst).
      exists before, (after ++ [last]). split; [|done].
      by rewrite <- app_assoc.
    + destruct (carries_tmdb_id last); simpl in Hin; [|inversion Hin].
      destruct (bool_decide _) eqn:Hseen; simpl in Hin; [inversion Hin|].
      apply list_elem_of_singleton in Hin. subst item.
      apply bool_decide_eq_false in Hseen.
      exists rest, []. split; [done|]. intros earlier He Heq. apply Hseen.
      rewrite <- Heq. apply list_elem_of_In, in_map. by apply list_elem_of_In.
Qed.

Lemma deduplicate_app (first second : list MediaItem.t) :
  deduplicate (first ++ second)
  = deduplicate first ++ dedupe_loop second (seen_after ∅ first) [].
Proof. unfold deduplicate. by rewrite dedupe_loop_app, dedupe_loop_acc. Qed.

Lemma dedupe_loop_fresh (items : list MediaItem.t) :
  forall seen item,
    item ∈ dedupe_loop items seen [] ->
    exists id, MediaItem.tmdb_id item = Some id /\ truthy id = true
               /\ id ∉ seen.
Proof.
  induction items as [|x rest IH]; intros seen item Hin; [inversion Hin|].
  cbn [dedupe_loop] in Hin.
  destruct (MediaItem.tmdb_id x) as [id|] eqn:Hid; [|by apply IH].
  destruct (truthy id) eqn:Ht; cbn [andb] in Hin; [|by apply IH].
  destruct (bool_decide (id ∈ seen)) eqn:Hseen; cbn [negb] in Hin;
    [by apply IH|].
  rewrite dedupe_loop_acc in Hin. apply elem_of_app in Hin as [Hin|Hin].
  - apply list_elem_of_singleton in Hin. subst item. exists id.
    by apply bool_decide_eq_false in Hseen.
  - destruct (IH _ _ Hin) as (id' & Hid' & Ht' & Hfresh).
    exists id'. split_and!; [done|done|set_solver].
Qed.

Lemma first_provider_wins (first second : list MediaItem.t) item :
  item ∈ deduplicate (first ++ second) ->
  MediaItem.tmdb_id item ∈ List.map MediaItem.tmdb_id first ->
  item ∈ deduplicate first.
Proof.
  rewrite deduplicate_app. intros Hin Hfirst.
  apply elem_of_app in Hin as [Hin|Hin]; [done|].
  destruct (dedupe_loop_fresh _ _ _ Hin) as (id & Hid & Ht & Hfresh).
  exfalso. apply Hfresh, elem_of_seen_after. right. by rewrite <- Hid.
Qed.

Lemma deduplicate_covers (items : list MediaItem.t) :
  forall item, item ∈ items -> carries_tmdb_id item = true ->
    exists kept, kept ∈ deduplicate items
                 /\ MediaItem.tmdb_id kept = MediaItem.tmdb_id item.
Proof.
  induction items as [|last rest IH] using rev_ind; intros item Hin Hc;
    [inversion Hin|].
  rewrite deduplicate_snoc.
  assert (forall x, x ∈ rest -> carries_tmdb_id x = true ->
            forall tail, exists kept,
              kept ∈ deduplicate rest ++ tail
              /\ MediaItem.tmdb_id kept = MediaItem.tmdb_id x) as Hrest.
  { intros x Hx Hcx tail. destruct (IH x Hx Hcx) as (kept & Hk & Hid).
    exists kept. split; [|done]. apply elem_of_app. by left. }
  apply elem_of_app in Hin as [Hin|Hin]; [by apply Hrest|].
  apply list_elem_of_singleton in Hin. subst item.
  destruct (bool_decide (MediaItem.tmdb_id last
                         ∈ List.map MediaItem.tmdb_id rest)) eqn:Hseen.
  - apply bool_decide_eq_true in Hseen.
    apply list_elem_of_In, in_map_iff in Hseen as (x & Hid & Hx).
    rewrite <- Hid. apply Hrest; [by apply list_elem_of_In|].
    unfold carries_tmdb_id in *. by rewrite Hid.
  - rewrite Hc. exists last. split; [|done]. apply elem_of_app. right. left.
Qed.

Lemma _fetch_items_deduplicates {W} (self : CollectionBuilder.t W) config
    media_type s :
  _fetch_items self config media_type s
  = (match fst (_fetch_sources self config media_type s) with
     | Return items => Return (deduplicate items)
     | Raise e => Raise e
     end, snd (_fetch_sources self config media_type s)).
Proof.
  unfold _fetch_items, bind.
  by destruct (_fetch_sources self config media_type s) as [[items|e] s'].
Qed.

(** C2: aggregation returns the deduplication of the concatenated provider
    results, which keeps an item exactly when it carries a [tmdb_id] (set
    and non-zero, the test the loop makes) that no earlier item of the
    sequence has, whatever the other fields of the earlier item are. Hence
    the result has no two items with the same [tmdb_id], no item without
    one, one item for every identifier of the input, and the order of the
    input; an identifier that the first of two provider results holds is
    kept with the copy of the first provider. *)
Theorem C2_dedup_keeps_unseen_identifiers :
  forall items : list MediaItem.t,
    (forall item,
        deduplicate (items ++ [item])
        = deduplicate items ++
          (if carries_tmdb_id item
              && negb (bool_decide (MediaItem.tmdb_id item
                                    ∈ List.map MediaItem.tmdb_id items))
           then [item] else []))
    /\ (forall item,
          carries_tmdb_id item = true
          <-> exists id, MediaItem.tmdb_id item = Some id /\ id <> 0)
    /\ (forall item, MediaItem.tmdb_id item = None ->
                     item ∉ deduplicate items)
    /\ NoDup (List.map MediaItem.tmdb_id (deduplicate items))
    /\ Forall (fun item => carries_tmdb_id item = true) (deduplicate items)
    /\ sublist (deduplicate items) items
    /\ (forall item, item ∈ items -> carries_tmdb_id item = true ->
          exists kept, kept ∈ deduplicate items
                       /\ MediaItem.tmdb_id kept = MediaItem.tmdb_id item)
    /\ (forall first second item,
          items = first ++ second ->
          item ∈ deduplicate items ->
          MediaItem.tmdb_id item ∈ List.map MediaItem.tmdb_id first ->
          item ∈ deduplicate first)
    /\ (forall W (self : CollectionBuilder.t W) config media_type s s',
          _fetch_sources self config media_type s = (Return items, s') ->
          _fetch_items self config media_type s
          = (Return (deduplicate items), s')).
Proof.
  intros items. split_and!.
  - apply deduplicate_snoc.
  - intros item. unfold carries_tmdb_id.
    destruct (MediaItem.tmdb_id item) as [id|].
    + rewrite truthy_Some, truthy_Z_true. split; [eauto|].
      by intros (id' & [= <-] & Hne).
    + split; [discriminate|]. by intros (id & Hid & _).
  - intros item Hnone Hin.
    pose proof (deduplicate_carries items) as Hall.
    rewrite Forall_forall in Hall. specialize (Hall _ Hin).
    unfold carries_tmdb_id in Hall. by rewrite Hnone in Hall.
  - apply deduplicate_NoDup.
  - apply deduplicate_carries.
  - apply deduplicate_sublist.
  - apply deduplicate_covers.
  - intros first second item ->. apply first_provider_wins.
  - intros W self config media_type s s' Hsrc.
    rewrite _fetch_items_deduplicates. by rewrite Hsrc.
Qed.

(** C9: aggregating a sequence followed by itself gives the same items in
    the same order as aggregating it once, and every kept item is the first
    one of the sequence with its identifier. *)
Theorem C9_dedup_idempotent :
  forall items : list MediaItem.t,
    deduplicate (items ++ items) = deduplicate items
    /\ deduplicate (deduplicate items) = deduplicate items
    /\ forall item, item ∈ deduplicate items ->
         exists before after,
           items = before ++ item :: after /\
           forall earlier, earlier ∈ before ->
                           MediaItem.tmdb_id earlier <> MediaItem.tmdb_id item.
Proof.
  intros items. split; [|split].
  - unfold deduplicate. rewrite dedupe_loop_app, dedupe_loop_acc.
    rewrite (dedupe_loop_seen_all items (seen_after ∅ items));
      [by rewrite app_nil_r|].
    intros item id Hin Hid Ht. apply elem_of_seen_after. right.
    split; [done|]. rewrite <- Hid. apply list_elem_of_In, in_map.
    by apply list_elem_of_In.
  - pose proof (deduplicate_NoDup items) as Hnd.
    pose proof (deduplicate_carries items) as Hc.
    induction (deduplicate items) as [|x l IH] using rev_ind; [done|].
    rewrite deduplicate_snoc.
    apply Forall_app in Hc as [Hc Hx]. rewrite map_app in Hnd.
    apply NoDup_app in Hnd as (Hnd & Hdis & _).
    rewrite IH by done. f_equal.
    inversion Hx as [|? ? Hcx _]; subst. rewrite Hcx. simpl.
    rewrite bool_decide_eq_false_2; [done|].
    intros Hin. apply (Hdis _ Hin). simpl. left.
  - apply deduplicate_first_occurrence.
Qed.

Lemma C2_dedup_keeps_unseen_identifiers_witness :
  let unidentified := movie "Untitled" None in
  let first := [Sim.matrix; unidentified] in
  let second := [movie "Matrix" (Some 603); Sim.inception] in
  let config := Sim.popular "Top" 2 in
  let s := Sim.start Sim.radarr_up_server in
  MediaItem.tmdb_id unidentified = None
  /\ (unidentified ∉ deduplicate (first ++ second))
  /\ deduplicate (first ++ second) = [Sim.matrix; Sim.inception]
  /\ Sim.matrix ∈ deduplicate first
  /\ (exists kept, kept ∈ deduplicate (first ++ second)
                   /\ MediaItem.tmdb_id kept = Some 603)
  /\ _fetch_items (Sim.builder false) config MOVIE s
     = (Return (deduplicate [Sim.matrix; Sim.inception]),
        snd (_fetch_sources (Sim.builder false) config MOVIE s)).
Proof.
  intros unidentified first second config s.
  destruct (C2_dedup_keeps_unseen_identifiers (first ++ second))
    as (_ & _ & Hnone & _ & _ & _ & Hcovers & Hfirst & _).
  destruct (C2_dedup_keeps_unseen_identifiers [Sim.matrix; Sim.inception])
    as (_ & _ & _ & _ & _ & _ & _ & _ & Hfetch).
  split_and!.
  - reflexivity.
  - exact (Hnone unidentified eq_refl).
  - reflexivity.
  - apply (Hfirst first second Sim.matrix eq_refl).
    + apply list_elem_of_In. vm_compute. tauto.
    + apply list_elem_of_In. vm_compute. tauto.
  - apply (Hcovers (movie "Matrix" (Some 603))); [|reflexivity].
    apply list_elem_of_In. simpl. tauto.
  - apply Hfetch. vm_compute. reflexivity.
Defined.

Lemma C9_dedup_idempotent_witness :
  let items := [Sim.matrix; Sim.inception; movie "Matrix" (Some 603)] in
  Sim.inception ∈ deduplicate items
  /\ exists before after,
       items = before ++ Sim.inception :: after
       /\ forall earlier, earlier ∈ before ->
            MediaItem.tmdb_id earlier <> MediaItem.tmdb_id Sim.inception.
Proof.
  intros items.
  assert (Sim.inception ∈ deduplicate items) as Hin
    by (apply list_elem_of_In; vm_compute; tauto).
  destruct (C9_dedup_idempotent items) as (_ & _ & Hfirst).
  split; [exact Hin|exact (Hfirst _ Hin)].
Defined.

(** ** Filter pipeline *)

Lemma Qlt_bool_false (v b : Q) : Qlt_bool v b = false <-> (b <= v)%Q.
Proof.
  unfold Qlt_bool. rewrite negb_false_iff. apply Qle_bool_iff.
Qed.

Lemma lower_bound_Z (b y : Z) :
  truthy b && truthy y && (y <? b) = false <-> (b <> 0 -> y <> 0 -> b <= y).
Proof.
  destruct (truthy b) eqn:Hb, (truthy y) eqn:Hy; simpl.
  - apply truthy_Z_true in Hb, Hy. rewrite Z.ltb_ge. tauto.
  - apply not_true_iff_false in Hy. rewrite truthy_Z_true in Hy. tauto.
  - apply not_true_iff_false in Hb. rewrite truthy_Z_true in Hb. tauto.
  - apply not_true_iff_false in Hb. rewrite truthy_Z_true in Hb. tauto.
Qed.

Lemma upper_bound_Z (b y : Z) :
  truthy b && truthy y && (b <? y) = false <-> (b <> 0 -> y <> 0 -> y <= b).
Proof.
  destruct (truthy b) eqn:Hb, (truthy y) eqn:Hy; simpl.
  - apply truthy_Z_true in Hb, Hy. rewrite Z.ltb_ge. tauto.
  - apply not_true_iff_false in Hy. rewrite truthy_Z_true in Hy. tauto.
  - apply not_true_iff_false in Hb. rewrite truthy_Z_true in Hb. tauto.
  - apply not_true_iff_false in Hb. rewrite truthy_Z_true in Hb. tauto.
Qed.

Lemma lower_bound_Q (b v : Q) :
  truthy b && truthy v && Qlt_bool v b = false
  <-> (~ (b == 0)%Q -> ~ (v == 0)%Q -> (b <= v)%Q).
Proof.
  destruct (truthy b) eqn:Hb, (truthy v) eqn:Hv; simpl.
  - apply truthy_Q_true in Hb, Hv. rewrite Qlt_bool_false. tauto.
  - apply not_true_iff_false in Hv. rewrite truthy_Q_true in Hv. tauto.
  - apply not_true_iff_false in Hb. rewrite truthy_Q_true in Hb. tauto.
  - apply not_true_iff_false in Hb. rewrite truthy_Q_true in Hb. tauto.
Qed.

Lemma excluded_country (excluded : list string) (c : string) :
  truthy excluded && truthy c && bool_decide (c ∈ excluded) = false
  <-> (c <> "" -> c ∉ excluded).
Proof.
  destruct (truthy excluded) eqn:He; simpl.
  - destruct (truthy c) eqn:Hc; simpl.
    + apply truthy_string_true in Hc. rewrite bool_decide_eq_false. tauto.
    + apply not_true_iff_false in Hc. rewrite truthy_string_true in Hc. tauto.
  - apply truthy_list_false in He. subst. split; [|done].
    intros _ _ Hin. inversion Hin.
Qed.

Lemma passes_filters_within_bounds filters item :
  passes_filters filters item = true <-> within_bounds filters item.
Proof.
  unfold passes_filters, within_bounds.
  destruct filters as [yg yl va cr vc cn ocn], item as [t y id imdb tv v n g c].
  cbn [CollectionFilter.year_gte CollectionFilter.year_lte
       CollectionFilter.vote_average_gte CollectionFilter.critic_rating_gte
       CollectionFilter.tmdb_vote_count_gte CollectionFilter.country_not
       CollectionFilter.origin_country_not MediaItem.year
       MediaItem.vote_average MediaItem.vote_count MediaItem.original_country].
  split.
  - intros H.
    repeat match type of H with
           | (if ?g then false else _) = true =>
               let E := fresh "G" in destruct g eqn:E; [discriminate H|]
           end.
    split_and!.
    + intros b y' -> [= ->]. by apply lower_bound_Z.
    + intros b y' -> [= ->]. by apply upper_bound_Z.
    + intros b v' -> [= ->]. by apply lower_bound_Q.
    + intros b v' -> [= ->]. by apply lower_bound_Q.
    + intros b v' -> [= ->]. by apply lower_bound_Z.
    + intros c' [= ->] Hc. split; by apply excluded_country.
  - intros (H1 & H2 & H3 & H4 & H5 & H6).
    repeat match goal with
           | |- (if ?g then false else _) = true =>
               let E := fresh "G" in destruct g eqn:E
           end; try reflexivity; exfalso.
    + destruct yg as [b|], y as [y|]; try discriminate.
      apply not_false_iff_true in G. apply G, lower_bound_Z. eauto.
    + destruct yl as [b|], y as [y|]; try discriminate.
      apply not_false_iff_true in G0. apply G0, upper_bound_Z. eauto.
    + destruct va as [b|], v as [v|]; try discriminate.
      apply not_false_iff_true in G1. apply G1, lower_bound_Q. eauto.
    + destruct cr as [b|], v as [v|]; try discriminate.
      apply not_false_iff_true in G2. apply G2, lower_bound_Q. eauto.
    + destruct vc as [b|], n as [n|]; try discriminate.
      apply not_false_iff_true in G3. apply G3, lower_bound_Z. eauto.
    + destruct c as [c|]; try discriminate.
      apply not_false_iff_true in G4. apply G4, excluded_country.
      intros Hc. by apply (H6 c).
    + destruct c as [c|]; try discriminate.
      apply not_false_iff_true in G5. apply G5, excluded_country.
      intros Hc. by apply (H6 c).
Qed.

Lemma filter_sublist_of {A} (p : A -> bool) (l : list A) :
  sublist (List.filter p l) l.
Proof.
  induction l as [|x l IH]; simpl; [constructor|].
  destruct (p x); by constructor.
Qed.

Lemma slice_to_prefix {A} (l : list A) (n : Z) : slice_to l n `prefix_of` l.
Proof. unfold slice_to. destruct (0 <=? n); apply prefix_take. Qed.

Lemma _apply_filters_prefix items config :
  _apply_filters items config
    `prefix_of` List.filter (passes_filters (CollectionConfig.filters config)) items.
Proof.
  unfold _apply_filters. destruct (CollectionConfig.limit config) as [n|]; [|done].
  destruct (truthy n); [apply slice_to_prefix|done].
Qed.

(** C4 (as amended): filtering keeps, in the order of the input, exactly the
    items that violate no bound in force, where a bound is in force only if
    it is set and not zero and is checked only against a field that is set
    and not zero; bounds are inclusive. The result is a prefix of the
    filtered sequence, cut after filtering: its first [limit] items when
    the limit is positive, all of it when the limit is absent or zero. *)
Theorem C4_filter_then_truncate :
  forall (items : list MediaItem.t) (config : CollectionConfig.t),
    let filters := CollectionConfig.filters config in
    let filtered := List.filter (passes_filters filters) items in
    (forall item, item ∈ filtered <-> item ∈ items /\ within_bounds filters item)
    /\ sublist filtered items
    /\ _apply_filters items config `prefix_of` filtered
    /\ (forall n, CollectionConfig.limit config = Some n -> 0 < n ->
          _apply_filters items config = take (Z.to_nat n) filtered
          /\ Z.of_nat (length (_apply_filters items config)) <= n)
    /\ (CollectionConfig.limit config = None
        \/ CollectionConfig.limit config = Some 0 ->
          _apply_filters items config = filtered)
    /\ _apply_filters [titled "Old" (Some 2019) 1; titled "Undated" None 2;
                       titled "Same year" (Some 2020) 3]
         (config_with from_2020 None)
       = [titled "Undated" None 2; titled "Same year" (Some 2020) 3].
Proof.
  intros items config filters filtered. split_and!.
  - intros item. unfold filtered.
    rewrite <- passes_filters_within_bounds, !list_elem_of_In.
    apply filter_In.
  - apply filter_sublist_of.
  - apply _apply_filters_prefix.
  - intros n Hn Hpos. unfold _apply_filters. rewrite Hn.
    assert (truthy n = true) as -> by (apply truthy_Z_true; lia).
    unfold slice_to. assert ((0 <=? n) = true) as -> by (apply Z.leb_le; lia).
    split; [done|]. rewrite length_take. fold filters filtered. lia.
  - intros [Hn|Hn]; unfold _apply_filters; by rewrite Hn.
  - reflexivity.
Qed.

Lemma C4_filter_then_truncate_witness :
  let items := [unrated; Sim.matrix; Sim.inception] in
  let config := config_with rated_at_least_7 (Some 2) in
  let unlimited := config_with rated_at_least_7 (Some 0) in
  CollectionConfig.limit config = Some 2 /\ 0 < 2
  /\ _apply_filters items config = [unrated; Sim.matrix]
  /\ Z.of_nat (length (_apply_filters items config)) <= 2
  /\ CollectionConfig.limit unlimited = Some 0
  /\ _apply_filters items unlimited = items.
Proof.
  intros items config unlimited.
  destruct (C4_filter_then_truncate items config)
    as (_ & _ & _ & Hlimit & _).
  destruct (C4_filter_then_truncate items unlimited)
    as (_ & _ & _ & _ & Hnolimit & _).
  destruct (Hlimit 2 eq_refl ltac:(lia)) as [Htake Hlen].
  split_and!; [reflexivity|lia| |exact Hlen|reflexivity|].
  - rewrite Htake. reflexivity.
  - rewrite (Hnolimit (or_intror eq_refl)). reflexivity.
Defined.

(** The claim as stated fails: a title whose rating and vote count are
    present and below the bounds (0.0 and 0) is kept, and a limit of zero
    does not bound the length of the result. *)
Lemma C4_counterexample :
  let config := config_with rated_at_least_7 None in
  let unlimited := config_with CollectionFilter.unconstrained (Some 0) in
  (unrated ∈ _apply_filters [unrated] config
   /\ spec_satisfies_bounds (CollectionConfig.filters config) unrated = false)
  /\ (CollectionConfig.limit unlimited = Some 0
      /\ length (_apply_filters [unrated; Sim.matrix] unlimited) = 2%nat).
Proof.
  split; split; try reflexivity. left.
Qed.

(** C10: a numeric field that is zero counts as absent: an item whose
    rating is 0.0 is not dropped by the lower bounds on the rating, one
    whose vote count is 0 not by the lower bound on the vote count, and one
    whose year is 0 not by the lower bound on the year: the verdict of the
    filter is the same with that bound removed. *)
Theorem C10_zero_fields_pass_lower_bounds :
  forall (filters : CollectionFilter.t) (item : MediaItem.t),
    (forall q, MediaItem.vote_average item = Some q -> (q == 0)%Q ->
       passes_filters filters item
       = passes_filters (without_vote_average_gte filters) item
       /\ passes_filters
            (CollectionFilter.mk None None
               (CollectionFilter.vote_average_gte filters)
               (CollectionFilter.critic_rating_gte filters) None [] [])
            item = true)
    /\ (MediaItem.vote_count item = Some 0 ->
        passes_filters filters item
        = passes_filters (without_vote_count_gte filters) item)
    /\ (MediaItem.year item = Some 0 ->
        passes_filters filters item
        = passes_filters (without_year_gte filters) item).
Proof.
  intros filters item.
  destruct filters as [yg yl va cr vc cn ocn], item as [t y id imdb tv v n g c].
  unfold passes_filters, without_vote_average_gte, without_vote_count_gte,
    without_year_gte.
  cbn [CollectionFilter.year_gte CollectionFilter.year_lte
       CollectionFilter.vote_average_gte CollectionFilter.critic_rating_gte
       CollectionFilter.tmdb_vote_count_gte CollectionFilter.country_not
       CollectionFilter.origin_country_not MediaItem.year
       MediaItem.vote_average MediaItem.vote_count MediaItem.original_country].
  split_and!.
  - intros q -> Hzero.
    assert (forall b, truthy b && truthy q && Qlt_bool q b = false) as G.
    { intros b. replace (truthy q) with false; [by rewrite andb_false_r|].
      symmetry. apply not_true_iff_false. rewrite truthy_Q_true. tauto. }
    split.
    + destruct va as [b|]; [by rewrite G|done].
    + destruct va as [b|], cr as [b'|]; rewrite ?G; by destruct c.
  - intros ->. destruct vc as [b|]; [|done].
    change (truthy 0) with false. by rewrite andb_false_r.
  - intros ->. destruct yg as [b|]; [|done].
    change (truthy 0) with false. by rewrite andb_false_r.
Qed.

Lemma C10_zero_fields_pass_lower_bounds_witness :
  MediaItem.vote_average unrated = Some 0%Q /\ (0 == 0)%Q
  /\ MediaItem.vote_count unrated = Some 0
  /\ MediaItem.year year_zero = Some 0
  /\ passes_filters rated_at_least_7 unrated
     = passes_filters (without_vote_average_gte rated_at_least_7) unrated
  /\ passes_filters rated_at_least_7 unrated
     = passes_filters (without_vote_count_gte rated_at_least_7) unrated
  /\ passes_filters from_2020 year_zero
     = passes_filters (without_year_gte from_2020) year_zero
  /\ passes_filters rated_at_least_7 unrated = true
  /\ passes_filters from_2020 year_zero = true.
Proof.
  destruct (C10_zero_fields_pass_lower_bounds rated_at_least_7 unrated)
    as (Hrating & Hcount & _).
  destruct (C10_zero_fields_pass_lower_bounds from_2020 year_zero)
    as (_ & _ & Hyear).
  destruct (Hrating 0%Q eq_refl (Qeq_refl 0)) as [Hsame _].
  split_and!; [reflexivity|reflexivity|reflexivity|reflexivity|exact Hsame
              |exact (Hcount eq_refl)|exact (Hyear eq_refl)|reflexivity
              |reflexivity].
Defined.

(** ** Schedule gate *)

Lemma days_before_next_year (y : Z) :
  datetime._days_before_year (y + 1)
  = datetime._days_before_year y + 365
    + (if datetime._is_leap y then 1 else 0).
Proof.
  unfold datetime._days_before_year, datetime._is_leap.
  replace (y + 1 - 1) with y by lia.
  destruct (Z.eqb_spec (y mod 4) 0), (Z.eqb_spec (y mod 100) 0),
    (Z.eqb_spec (y mod 400) 0); simpl;
    Z.to_euclidean_division_equations; lia.
Qed.

Lemma days_before_next_month (y m : Z) :
  1 <= m < 12 ->
  datetime._days_before_month y (m + 1)
  = datetime._days_before_month y m + datetime._days_in_month y m.
Proof.
  intros Hm. unfold datetime._days_before_month, datetime._days_in_month.
  assert (m = 1 \/ m = 2 \/ m = 3 \/ m = 4 \/ m = 5 \/ m = 6 \/ m = 7 \/ m = 8
          \/ m = 9 \/ m = 10 \/ m = 11) as Hcases by lia.
  destruct (datetime._is_leap y);
    repeat (destruct Hcases as [->|Hcases]; [reflexivity|]);
    subst; reflexivity.
Qed.

Lemma toordinal_tomorrow (d : datetime.t) :
  datetime.valid d ->
  datetime.toordinal (datetime.tomorrow d) = datetime.toordinal d + 1.
Proof.
  intros (Hy & Hm & Hd). unfold datetime.tomorrow, datetime.toordinal.
  destruct (Z.ltb_spec (datetime.day d)
              (datetime._days_in_month (datetime.year d) (datetime.month d)));
    simpl; [lia|].
  destruct (Z.ltb_spec (datetime.month d) 12); simpl.
  - rewrite days_before_next_month by lia. lia.
  - assert (datetime.month d = 12) as Hdec by lia.
    rewrite days_before_next_year. rewrite Hdec in *.
    unfold datetime._days_before_month, datetime._days_in_month in *.
    simpl in *. destruct (datetime._is_leap (datetime.year d)); simpl; lia.
Qed.

Lemma valid_tomorrow (d : datetime.t) :
  datetime.valid d -> datetime.valid (datetime.tomorrow d).
Proof.
  intros (Hy & Hm & Hd). unfold datetime.tomorrow, datetime.valid.
  destruct (Z.ltb_spec (datetime.day d)
              (datetime._days_in_month (datetime.year d) (datetime.month d)));
    simpl; [lia|].
  destruct (Z.ltb_spec (datetime.month d) 12); simpl.
  - split; [lia|]. split; [lia|].
    assert (datetime.month d = 1 \/ datetime.month d = 2 \/ datetime.month d = 3
            \/ datetime.month d = 4 \/ datetime.month d = 5
            \/ datetime.month d = 6 \/ datetime.month d = 7
            \/ datetime.month d = 8 \/ datetime.month d = 9
            \/ datetime.month d = 10 \/ datetime.month d = 11) as Hcases by lia.
    clear Hd H. unfold datetime._days_in_month.
    destruct (datetime._is_leap (datetime.year d));
      repeat (destruct Hcases as [->|Hcases]; [simpl; lia|]);
      rewrite Hcases; simpl; lia.
  - split; [lia|]. split; [lia|]. unfold datetime._days_in_month. simpl. lia.
Qed.

Lemma weekday_range (d : datetime.t) : 0 <= datetime.weekday d < 7.
Proof. unfold datetime.weekday. apply Z.mod_pos_bound. lia. Qed.

Lemma weekday_tomorrow (d : datetime.t) :
  datetime.valid d ->
  datetime.weekday (datetime.tomorrow d) = (datetime.weekday d + 1) mod 7.
Proof.
  intros Hv. unfold datetime.weekday. rewrite toordinal_tomorrow by done.
  rewrite Zplus_mod_idemp_l. f_equal. lia.
Qed.

Lemma weekdays_from (n : nat) :
  forall d, datetime.valid d ->
    List.map datetime.weekday (datetime.days_from d n)
    = List.map (fun k => (datetime.weekday d + Z.of_nat k) mod 7) (seq 0 n).
Proof.
  induction n as [|n IH]; intros d Hv; [reflexivity|].
  cbn [datetime.days_from List.map seq]. f_equal.
  - rewrite Z.add_0_r. symmetry. apply Z.mod_small, weekday_range.
  - rewrite IH by (by apply valid_tomorrow).
    rewrite <- seq_shift, List.map_map. apply List.map_ext. intros k.
    rewrite weekday_tomorrow by done. rewrite Zplus_mod_idemp_l. f_equal. lia.
Qed.

Lemma length_filter_map {A B} (p : A -> bool) (q : B -> bool) (f : A -> B)
    (l : list A) :
  (forall x, p x = q (f x)) ->
  length (List.filter p l) = length (List.filter q (List.map f l)).
Proof.
  intros H. induction l as [|x l IH]; simpl; [done|].
  rewrite <- H. destruct (p x); simpl; by rewrite IH.
Qed.

Lemma weekly_gate (schedule : CollectionSchedule.t) (today : datetime.t) :
  CollectionSchedule.schedule_type schedule = WEEKLY ->
  _should_run_today schedule today
  = weekly_match (lower (configured_day_of_week schedule))
      (datetime.weekday today).
Proof. intros H. unfold _should_run_today. by rewrite H. Qed.

Lemma weekly_once_in_seven (schedule : CollectionSchedule.t)
    (today : datetime.t) :
  CollectionSchedule.schedule_type schedule = WEEKLY ->
  datetime.valid today ->
  In (lower (configured_day_of_week schedule)) weekday_names ->
  runs_among schedule (datetime.days_from today 7) = 1%nat.
Proof.
  intros Hw Hv Hname. unfold runs_among.
  rewrite (length_filter_map _
             (weekly_match (lower (configured_day_of_week schedule)))
             datetime.weekday)
    by (intros d; by apply weekly_gate).
  rewrite weekdays_from by done.
  pose proof (weekday_range today) as Hr.
  assert (datetime.weekday today = 0 \/ datetime.weekday today = 1
          \/ datetime.weekday today = 2 \/ datetime.weekday today = 3
          \/ datetime.weekday today = 4 \/ datetime.weekday today = 5
          \/ datetime.weekday today = 6) as Hcases by lia.
  unfold weekday_names in Hname. simpl in Hname.
  repeat (destruct Hname as [<-|Hname];
          [repeat (destruct Hcases as [->|Hcases]; [reflexivity|]);
           rewrite Hcases; reflexivity|]).
  destruct Hname.
Qed.

Ltac bool_to_prop :=
  repeat match goal with
    | H : _ && _ = true |- _ => apply andb_true_iff in H as [? ?]
    | H : _ && _ = false |- _ => apply andb_false_iff in H as [?|?]
    | H : (_ <=? _) = true |- _ => apply Z.leb_le in H
    | H : (_ <=? _) = false |- _ => apply Z.leb_gt in H
    | H : (_ <? _) = true |- _ => apply Z.ltb_lt in H
    | H : (_ <? _) = false |- _ => apply Z.ltb_ge in H
    | H : (_ =? _) = true |- _ => apply Z.eqb_eq in H
    | H : (_ =? _) = false |- _ => apply Z.eqb_neq in H
    end.

Lemma count_day_in_seq (d : Z) (n : nat) :
  forall start : nat,
    length (List.filter (fun k => Z.of_nat k =? d) (seq start n))
    = if (Z.of_nat start <=? d) && (d <? Z.of_nat start + Z.of_nat n)
      then 1%nat else 0%nat.
Proof.
  induction n as [|n IH]; intros start.
  - cbn [seq List.filter length].
    destruct (_ && _) eqn:E; [|done]. bool_to_prop. lia.
  - cbn [seq List.filter]. specialize (IH (S start)).
    destruct (Z.of_nat start =? d) eqn:Hd; cbn [length]; rewrite IH;
      destruct ((Z.of_nat (S start) <=? d) && _) eqn:E1;
      destruct ((Z.of_nat start <=? d) && _) eqn:E2;
      bool_to_prop; try reflexivity; lia.
Qed.

Lemma monthly_once_a_month (schedule : CollectionSchedule.t) (year month : Z) :
  CollectionSchedule.schedule_type schedule = MONTHLY ->
  runs_among schedule (days_of_month year month)
  = if (1 <=? configured_day_of_month schedule)
       && (configured_day_of_month schedule
           <=? datetime._days_in_month year month)
    then 1%nat else 0%nat.
Proof.
  intros Hm. unfold runs_among, days_of_month.
  rewrite <- (length_filter_map
                (fun k => Z.of_nat k =? configured_day_of_month schedule)
                (_should_run_today schedule)
                (fun d => datetime.mk year month (Z.of_nat d))).
  - rewrite count_day_in_seq.
    set (d := configured_day_of_month schedule).
    set (dim := datetime._days_in_month year month).
    destruct ((1 <=? d) && _) eqn:E1;
      destruct ((Z.of_nat 1 <=? d) && _) eqn:E2;
      bool_to_prop; try reflexivity; lia.
  - intros k. unfold _should_run_today. by rewrite Hm.
Qed.

(** ** Effects: how computations compose *)

Lemma bind_Return {S A B} (m : M S A) (k : A -> M S B) s a s1 :
  m s = (Return a, s1) -> bind m k s = k a s1.
Proof. intros H. unfold bind. by rewrite H. Qed.

Lemma bind_Raise {S A B} (m : M S A) (k : A -> M S B) s e s1 :
  m s = (Raise e, s1) -> bind m k s = (Raise e, s1).
Proof. intros H. unfold bind. by rewrite H. Qed.

Lemma bind_inv_Return {S A B} (m : M S A) (k : A -> M S B) s b s' :
  bind m k s = (Return b, s') ->
  exists a s1, m s = (Return a, s1) /\ k a s1 = (Return b, s').
Proof.
  unfold bind. destruct (m s) as [[a|e] s1]; [eauto|discriminate].
Qed.

Lemma bind_assoc {S A B C} (m : M S A) (k : A -> M S B) (k' : B -> M S C) s :
  bind (bind m k) k' s = bind m (fun a => bind (k a) k') s.
Proof.
  unfold bind. destruct (m s) as [[a|e] s1]; [|done].
  by destruct (k a s1) as [[b|e] s2].
Qed.

Lemma bind_ext {S A B} (m : M S A) (k k' : A -> M S B) s :
  (forall a s1, k a s1 = k' a s1) -> bind m k s = bind m k' s.
Proof. intros H. unfold bind. by destruct (m s) as [[a|e] s1]. Qed.

Lemma quiet_ret {W A} (a : A) : quiet_on_stats (W:=W) (ret a).
Proof. intros s. split; [done|]. exists []. simpl. by rewrite app_nil_r. Qed.

Lemma quiet_lift_result {W A} (r : Result A) :
  quiet_on_stats (W:=W) (lift_result r).
Proof. intros s. split; [done|]. exists []. simpl. by rewrite app_nil_r. Qed.

Lemma quiet_perform {W A} c (show : A -> Reply) (op : M W A) :
  quiet_on_stats (perform c show op).
Proof.
  intros s. unfold perform. destruct (op (world s)) as [r w']. simpl.
  split; [done|]. eauto.
Qed.

Lemma quiet_bind {W A B} (m : M (State W) A) (k : A -> M (State W) B) :
  quiet_on_stats m -> (forall a, quiet_on_stats (k a)) ->
  quiet_on_stats (bind m k).
Proof.
  intros Hm Hk s. unfold bind. specialize (Hm s).
  destruct (m s) as [[a|e] s1]; simpl in *; [|done].
  destruct Hm as (Hst & new & Htr). destruct (Hk a s1) as (Hst' & new' & Htr').
  split; [congruence|]. exists (new ++ new'). rewrite Htr', Htr.
  by rewrite app_assoc.
Qed.

Lemma quiet_for_each {W A} (l : list A) (body : A -> M (State W) unit) :
  (forall x, quiet_on_stats (body x)) -> quiet_on_stats (for_each l body).
Proof.
  intros H. induction l as [|x l IH]; simpl; [apply quiet_ret|].
  apply quiet_bind; [apply H|]. intros _. apply IH.
Qed.

Lemma quiet_map_M {W A B} (f : A -> M (State W) B) (l : list A) :
  (forall x, quiet_on_stats (f x)) -> quiet_on_stats (map_M f l).
Proof.
  intros H. induction l as [|x l IH]; simpl; [apply quiet_ret|].
  apply quiet_bind; [apply H|]. intros y.
  apply quiet_bind; [apply IH|]. intros ys. apply quiet_ret.
Qed.

Ltac quiet :=
  repeat first
    [ apply quiet_ret
    | apply quiet_lift_result
    | apply quiet_perform
    | apply quiet_for_each; intros ?
    | apply quiet_map_M; intros ?
    | apply quiet_bind; [|intros ?]
    | match goal with
      | |- quiet_on_stats (if ?c then _ else _) => destruct c
      | |- quiet_on_stats (match ?x with _ => _ end) => destruct x
      | |- quiet_on_stats (let _ := _ in _) => cbv zeta
      end ].

Lemma quiet_fetch_sources {W} (self : CollectionBuilder.t W) config media_type :
  quiet_on_stats (_fetch_sources self config media_type).
Proof.
  unfold _fetch_sources, extend_if, _fetch_tmdb_discover, _fetch_trakt_chart,
    fetch.
  quiet.
Qed.

Lemma quiet_build_collection {W} (self : CollectionBuilder.t W) config
    library_name library_id media_type :
  quiet_on_stats (build_collection self config library_name library_id
                    media_type).
Proof.
  unfold build_collection, _fetch_items.
  apply quiet_bind; [|intros items; quiet].
  apply quiet_bind; [apply quiet_fetch_sources|intros; apply quiet_ret].
Qed.

Lemma quiet_add_missing_to_arr {W} (self : CollectionBuilder.t W) collection :
  quiet_on_stats (_add_missing_to_arr self collection).
Proof. unfold _add_missing_to_arr, _add_missing_item. quiet. Qed.

Lemma quiet_sync_membership {W} (self : CollectionBuilder.t W) collection :
  quiet_on_stats (sync_membership self collection).
Proof. unfold sync_membership. quiet. Qed.

Lemma quiet_sync_collection {W} (self : CollectionBuilder.t W) collection flag :
  quiet_on_stats (sync_collection self collection flag).
Proof.
  unfold sync_collection.
  destruct (CollectionBuilder.dry_run self); [apply quiet_ret|].
  pose proof (quiet_add_missing_to_arr self collection). quiet; assumption.
Qed.

(** ** Reconciliation engine *)

Lemma diff_disjoint (current_ids target_ids : gset string) :
  to_add_of current_ids target_ids ## to_remove_of current_ids target_ids.
Proof. unfold to_add_of, to_remove_of. set_solver. Qed.

Lemma diff_reaches_target (current_ids target_ids : gset string) :
  (current_ids ∖ to_remove_of current_ids target_ids)
  ∪ to_add_of current_ids target_ids = target_ids.
Proof.
  unfold to_add_of, to_remove_of. apply set_eq. intros x.
  rewrite elem_of_union, !elem_of_difference.
  destruct (decide (x ∈ current_ids)), (decide (x ∈ target_ids)); tauto.
Qed.

Lemma perform_inv_Return {W A} c (show : A -> Reply) (op : M W A) s a s1 :
  perform c show op s = (Return a, s1) ->
  exists w', op (world s) = (Return a, w')
             /\ s1 = mkState w' (trace s ++ [(c, show a)]) (stats s).
Proof.
  unfold perform. destruct (op (world s)) as [[a'|e] w']; intros [= <- <-];
    eauto.
Qed.

Lemma sync_collection_split {W} (self : CollectionBuilder.t W) collection
    flag s :
  sync_collection self collection flag s
  = (if CollectionBuilder.dry_run self then ret (0, 0)
     else (r <- sync_membership self collection ;;
           (if flag then _add_missing_to_arr self collection else ret tt) ;;;
           ret r)) s.
Proof.
  unfold sync_collection, sync_membership.
  destruct (CollectionBuilder.dry_run self); [done|].
  cbv zeta. rewrite !bind_assoc. apply bind_ext. intros colls s1.
  rewrite !bind_assoc. apply bind_ext. intros cid s2.
  rewrite !bind_assoc. apply bind_ext. intros current s3.
  rewrite !bind_assoc. apply bind_ext. intros [] s4.
  rewrite !bind_assoc. apply bind_ext. intros [] s5.
  rewrite !bind_assoc. apply bind_ext. intros ok s6.
  unfold bind at 3. unfold ret at 1. done.
Qed.

Lemma optional_write_inv {W} (cond : bool) c (op : M W bool) s s1 :
  (if cond then perform c quiet op ;;; ret tt else ret tt) s = (Return tt, s1) ->
  exists w', s1 = mkState w'
                    (trace s ++ (if cond then [(c, Returned)] else []))
                    (stats s).
Proof.
  destruct cond.
  - intros H. apply bind_inv_Return in H as (ok & s2 & Hop & H).
    apply perform_inv_Return in Hop as (w' & _ & ->).
    injection H as <-. eauto.
  - intros [= <-]. exists (world s). destruct s. simpl. by rewrite app_nil_r.
Qed.

Lemma sync_membership_Return {W} (self : CollectionBuilder.t W) collection
    s r s1 :
  sync_membership self collection s = (Return r, s1) ->
  exists created jellyfin_id current,
    let current_ids : gset string := list_to_set current in
    let target_ids := target_ids_of (Collection.items collection) in
    trace s1 = trace s ++ membership_events created (Collection.config collection)
                            jellyfin_id current target_ids
    /\ r = (Z.of_nat (size (to_add_of current_ids target_ids)),
            Z.of_nat (size (to_remove_of current_ids target_ids)))
    /\ stats s1 = stats s.
Proof.
  intros H. unfold sync_membership in H. cbv zeta in H.
  apply bind_inv_Return in H as (colls & s2 & Hget & H).
  apply perform_inv_Return in Hget as (w2 & _ & ->).
  apply bind_inv_Return in H as (cid & s3 & Hid & H).
  apply bind_inv_Return in H as (current & s4 & Hcur & H).
  apply perform_inv_Return in Hcur as (w4 & _ & ->).
  apply bind_inv_Return in H as ([] & s5 & Hadd & H).
  apply optional_write_inv in Hadd as (w5 & ->).
  apply bind_inv_Return in H as ([] & s6 & Hrem & H).
  apply optional_write_inv in Hrem as (w6 & ->).
  apply bind_inv_Return in H as (ok & s7 & Hmeta & H).
  apply perform_inv_Return in Hmeta as (w7 & _ & ->).
  injection H as <- <-.
  assert (exists created : bool,
             trace s3 = trace s ++ [(CallGetCollections, Returned)]
                        ++ (if created
                            then [(CallCreateCollection
                                     (CollectionConfig.name
                                        (Collection.config collection)),
                                   Returned)]
                            else [])
             /\ stats s3 = stats s) as (created & Htr & Hst).
  { destruct (List.find _ colls) as [c|].
    - injection Hid as <- <-. by exists false.
    - apply perform_inv_Return in Hid as (w3 & _ & ->). exists true.
      cbn [trace stats]. by rewrite <- app_assoc. }
  exists created, cid, current. cbn [trace stats]. split_and!; [|done|done].
  rewrite Htr. unfold membership_events, to_add_of, to_remove_of.
  by rewrite <- !app_assoc.
Qed.

Lemma add_missing_item_spec {W} (self : CollectionBuilder.t W) collection
    item s :
  let result :=
    _add_missing_item self collection (dispatched_as_series collection) item s
  in
  stats (snd result) = stats s /\
  match request_for self collection item with
  | None => result = (Return tt, s)
  | Some c =>
      (fst result = Return tt
       /\ trace (snd result) = trace s ++ [(c, Returned)])
      \/ (exists e, fst result = Raise e
                    /\ trace (snd result) = trace s ++ [(c, Raised e)])
  end.
Proof.
  unfold _add_missing_item, request_for, dispatch_tags. cbv zeta.
  destruct (dispatched_as_series collection).
  - destruct (CollectionBuilder.sonarr self) as [sonarr|];
      [|split; [done|by destruct (CollectionItem.tvdb_id item)]].
    cbn [is_not_None andb].
    destruct (CollectionItem.tvdb_id item) as [tvdb_id|]; [|done].
    rewrite truthy_Some. destruct (truthy tvdb_id); [|done].
    unfold bind, perform. cbn [default].
    destruct (SonarrClient.add_series _ _ _ _) as [[v|e] w']; simpl; eauto.
  - destruct (CollectionBuilder.radarr self) as [radarr|]; [|done].
    cbn [is_not_None andb].
    destruct (CollectionItem.tmdb_id item) as [tmdb_id|]; [|done].
    rewrite truthy_Some. destruct (truthy tmdb_id); [|done].
    unfold bind, perform. cbn [default].
    destruct (RadarrClient.add_movie _ _ _ _) as [[v|e] w']; simpl; eauto.
Qed.

Lemma dispatch_loop_spec {W} (self : CollectionBuilder.t W) collection
    (missing : list CollectionItem.t) :
  forall s,
    let result :=
      for_each missing
        (_add_missing_item self collection (dispatched_as_series collection)) s
    in
    stats (snd result) = stats s /\
    exists new,
      trace (snd result) = trace s ++ new
      /\ calls_of new `prefix_of` omap (request_for self collection) missing
      /\ (fst result = Return tt ->
          new = List.map (fun c => (c, Returned))
                  (omap (request_for self collection) missing))
      /\ (forall e, fst result = Raise e ->
            exists done_before c,
              new = List.map (fun c => (c, Returned)) done_before
                    ++ [(c, Raised e)]).
Proof.
  induction missing as [|item rest IH]; intros s.
  { simpl. split; [done|]. exists []. rewrite app_nil_r.
    split_and!; [done|done|done|discriminate]. }
  cbn [for_each].
  destruct (add_missing_item_spec self collection item s) as [Hst Hitem].
  cbn [omap list_omap]. fold (omap (request_for self collection) rest).
  destruct (_add_missing_item _ _ _ item s) as [[[]|e] s1] eqn:Hbody;
    cbn [fst snd] in *.
  - rewrite (bind_Return _ _ _ _ _ Hbody).
    destruct (IH s1) as (Hst' & new' & Htr' & Hpre & Hret & Hraise).
    split; [congruence|].
    destruct (request_for self collection item) as [c|].
    + destruct Hitem as [[_ Htr]|(e & He & _)]; [|discriminate].
      exists ((c, Returned) :: new'). rewrite Htr', Htr, <- app_assoc.
      split_and!; [done| |intros H; by rewrite Hret| ].
      * cbn [calls_of List.map fst]. by apply prefix_cons.
      * intros e He. destruct (Hraise e He) as (before & c' & ->).
        by exists (c :: before), c'.
    + injection Hitem as <-. exists new'. split_and!; try done.
  - rewrite (bind_Raise _ _ _ _ _ Hbody). cbn [fst snd].
    split; [done|]. destruct (request_for self collection item) as [c|].
    + destruct Hitem as [[Hr _]|(e' & [= <-] & Htr)]; [discriminate|].
      exists [(c, Raised e)]. split_and!; [done| |discriminate| ].
      * cbn. apply prefix_cons, prefix_nil.
      * intros e' [= <-]. by exists [], c.
    + discriminate.
Qed.

Lemma add_missing_to_arr_spec {W} (self : CollectionBuilder.t W) collection s :
  let result := _add_missing_to_arr self collection s in
  stats (snd result) = stats s /\
  exists new,
    trace (snd result) = trace s ++ new
    /\ calls_of new `prefix_of` requests_for self collection
    /\ (fst result = Return tt ->
        new = List.map (fun c => (c, Returned)) (requests_for self collection))
    /\ (forall e, fst result = Raise e ->
          exists done_before c,
            new = List.map (fun c => (c, Returned)) done_before
                  ++ [(c, Raised e)]).
Proof.
  unfold _add_missing_to_arr, requests_for. cbv zeta.
  destruct (List.filter _ (Collection.items collection)) as [|item rest] eqn:Hm.
  - simpl. split; [done|]. exists []. rewrite app_nil_r.
    split_and!; [done|done|done|discriminate].
  - cbn [truthy truthy_list negb]. apply dispatch_loop_spec.
Qed.

Lemma add_missing_to_arr_never_raises {W} (self : CollectionBuilder.t W)
    collection s :
  radarr_never_raises self -> sonarr_never_raises self ->
  fst (_add_missing_to_arr self collection s) = Return tt.
Proof.
  intros Hr Hs. unfold _add_missing_to_arr. cbv zeta.
  destruct (negb _); [done|].
  generalize (List.filter
                (fun item => negb (CollectionItem.in_library item))
                (Collection.items collection)) as missing.
  intros missing. revert s. induction missing as [|item rest IH]; intros s;
    [done|].
  cbn [for_each]. unfold bind at 1.
  match goal with |- context [let '(_, _) := ?step s in _] =>
    assert (fst (step s) = Return tt) as Hstep;
      [|destruct (step s) as [[[]|e] s1]; [apply IH|discriminate]]
  end.
  unfold _add_missing_item. cbv zeta.
  repeat match goal with
         | |- context [match ?x with _ => _ end] => destruct x eqn:?
         end; try done; unfold bind, perform;
    match goal with
    | |- context [SonarrClient.add_series ?c ?i ?t ?w] =>
        destruct (Hs c i t w) as (v & w' & ->); done
    | |- context [RadarrClient.add_movie ?c ?i ?t ?w] =>
        destruct (Hr c i t w) as (v & w' & ->); done
    end.
Qed.

(** C1: the engine adds [target - current] and removes [current - target];
    the two sets are disjoint, taking the removals out of the current
    membership and putting the additions in gives the target, and
    [sync_collection] returns the two cardinals. The log of a successful
    synchronisation is the one of [membership_events] followed by the
    requests of the acquisition dispatcher. *)
Theorem C1_membership_diff :
  (forall current_ids target_ids : gset string,
      to_add_of current_ids target_ids = target_ids ∖ current_ids
      /\ to_remove_of current_ids target_ids = current_ids ∖ target_ids
      /\ to_add_of current_ids target_ids ## to_remove_of current_ids target_ids
      /\ (current_ids ∖ to_remove_of current_ids target_ids)
         ∪ to_add_of current_ids target_ids = target_ids)
  /\ forall W (self : CollectionBuilder.t W) (collection : Collection.t)
       (add_missing_to_arr : bool) (s s' : State W) (r : Z * Z),
      CollectionBuilder.dry_run self = false ->
      sync_collection self collection add_missing_to_arr s = (Return r, s') ->
      exists created jellyfin_id current,
        let current_ids : gset string := list_to_set current in
        let target_ids := target_ids_of (Collection.items collection) in
        trace s' = trace s
                   ++ membership_events created (Collection.config collection)
                        jellyfin_id current target_ids
                   ++ List.map (fun c => (c, Returned))
                        (if add_missing_to_arr
                         then requests_for self collection else [])
        /\ r = (Z.of_nat (size (to_add_of current_ids target_ids)),
                Z.of_nat (size (to_remove_of current_ids target_ids))).
Proof.
  split.
  - intros current_ids target_ids.
    split_and!; [done|done|apply diff_disjoint|apply diff_reaches_target].
  - intros W self collection flag s s' r Hdry Hsync.
    rewrite sync_collection_split, Hdry in Hsync.
    apply bind_inv_Return in Hsync as (r0 & s1 & Hmem & Hrest).
    apply bind_inv_Return in Hrest as ([] & s2 & Harr & Hret).
    injection Hret as <- <-.
    apply sync_membership_Return in Hmem
      as (created & cid & current & Htr & Hr & _).
    exists created, cid, current. cbv zeta. split; [|done].
    destruct flag.
    + destruct (add_missing_to_arr_spec self collection s1)
        as (_ & new & Hnew & _ & Hall & _).
      rewrite Harr in Hnew, Hall. cbn [fst snd] in *.
      rewrite Hnew, Htr, (Hall eq_refl). by rewrite <- app_assoc.
    + injection Harr as <-. rewrite Htr. simpl. by rewrite !app_nil_r.
Qed.

Lemma C1_membership_diff_witness :
  let s := Sim.start Sim.scenario_B_server in
  let result :=
    sync_collection (Sim.builder false) Sim.scenario_B_collection false s in
  CollectionBuilder.dry_run (Sim.builder false) = false
  /\ result = (Return (1, 1), snd result)
  /\ elements (to_add_of (list_to_set ["a"; "b"; "c"])
                 (target_ids_of (Collection.items Sim.scenario_B_collection)))
     = ["d"]
  /\ elements (to_remove_of (list_to_set ["a"; "b"; "c"])
                 (target_ids_of (Collection.items Sim.scenario_B_collection)))
     = ["a"]
  /\ exists created jellyfin_id current,
       trace (snd result)
       = trace s
         ++ membership_events created
              (Collection.config Sim.scenario_B_collection) jellyfin_id current
              (target_ids_of (Collection.items Sim.scenario_B_collection))
         ++ []
       /\ (1, 1)
          = (Z.of_nat
               (size (to_add_of (list_to_set current)
                        (target_ids_of
                           (Collection.items Sim.scenario_B_collection)))),
             Z.of_nat
               (size (to_remove_of (list_to_set current)
                        (target_ids_of
                           (Collection.items Sim.scenario_B_collection))))).
Proof.
  intros s result.
  assert (result = (Return (1, 1), snd result)) as Hrun
    by (vm_compute; reflexivity).
  split; [reflexivity|]. split; [exact Hrun|].
  split; [vm_compute; reflexivity|]. split; [vm_compute; reflexivity|].
  destruct C1_membership_diff as [_ Hsync].
  exact (Hsync _ (Sim.builder false) Sim.scenario_B_collection false s
           (snd result) (1, 1) eq_refl Hrun).
Defined.

(** C5: in dry-run mode [sync_collection] returns [(0, 0)] and leaves the
    state as it found it: nothing is added to the log of collaborator calls
    (no read, no write to the library server, no acquisition request) and
    the world is unchanged, whatever the collection holds. *)
Theorem C5_dry_run_is_inert :
  forall W (self : CollectionBuilder.t W) (collection : Collection.t)
    (add_missing_to_arr : bool) (s : State W),
    CollectionBuilder.dry_run self = true ->
    sync_collection self collection add_missing_to_arr s = (Return (0, 0), s).
Proof.
  intros W self collection flag s Hdry. unfold sync_collection.
  by rewrite Hdry.
Qed.

Lemma C5_dry_run_is_inert_witness :
  let s := Sim.start Sim.scenario_B_server in
  Collection.items Sim.scenario_B_collection <> []
  /\ CollectionBuilder.dry_run (Sim.builder true) = true
  /\ sync_collection (Sim.builder true) Sim.scenario_B_collection true s
     = (Return (0, 0), s)
  /\ trace (snd (sync_collection (Sim.builder true) Sim.scenario_B_collection
                   true s)) = [].
Proof.
  intros s. split; [discriminate|]. split; [reflexivity|].
  pose proof (C5_dry_run_is_inert _ (Sim.builder true)
                Sim.scenario_B_collection true s eq_refl) as H.
  split; [exact H|]. rewrite H. reflexivity.
Defined.

(** ** Notifications never raise *)

Lemma discord_send_returns {W} (self : DiscordWebhook.t W) url payload w :
  exists b w', DiscordWebhook._send self url payload w = (Return b, w').
Proof.
  unfold DiscordWebhook._send. destruct (negb (truthy url)); [by eexists _, _|].
  unfold try_except, bind.
  destruct (DiscordWebhook.post self url payload w) as [[response|e] w'].
  - destruct (_ =? 204); by eexists _, _.
  - by eexists _, _.
Qed.

Lemma send_error_returns {W} (self : DiscordWebhook.t W) title message w :
  exists b w', DiscordWebhook.send_error self title message w = (Return b, w').
Proof.
  unfold DiscordWebhook.send_error.
  destruct (DiscordWebhook._get_url self "error") as [url|]; [|by eexists _, _].
  destruct (negb (truthy url)); [by eexists _, _|]. apply discord_send_returns.
Qed.

Lemma send_collection_changes_returns {W} (self : DiscordWebhook.t W)
    name library added removed w :
  exists b w',
    DiscordWebhook.send_collection_changes self name library added removed w
    = (Return b, w').
Proof.
  unfold DiscordWebhook.send_collection_changes.
  destruct (DiscordWebhook._get_url self "changes") as [url|];
    [|by eexists _, _].
  destruct (negb (truthy url)); [by eexists _, _|].
  destruct (_ && _); [by eexists _, _|]. apply discord_send_returns.
Qed.

Lemma send_run_start_returns {W} (self : DiscordWebhook.t W) libraries
    scheduled w :
  exists b w',
    DiscordWebhook.send_run_start self libraries scheduled w = (Return b, w').
Proof.
  unfold DiscordWebhook.send_run_start.
  destruct (DiscordWebhook._get_url self "run_start") as [url|];
    [|by eexists _, _].
  destruct (negb (truthy url)); [by eexists _, _|]. apply discord_send_returns.
Qed.

Lemma send_run_end_returns {W} (self : DiscordWebhook.t W) u a r e w :
  exists b w', DiscordWebhook.send_run_end self u a r e w = (Return b, w').
Proof.
  unfold DiscordWebhook.send_run_end.
  destruct (DiscordWebhook._get_url self "run_end") as [url|];
    [|by eexists _, _].
  destruct (negb (truthy url)); [by eexists _, _|]. apply discord_send_returns.
Qed.

Lemma perform_returns {W A} c (show : A -> Reply) (op : M W A) s :
  (exists a w', op (world s) = (Return a, w')) ->
  exists a w',
    perform c show op s
    = (Return a, mkState w' (trace s ++ [(c, show a)]) (stats s)).
Proof.
  intros (a & w' & H). exists a, w'. unfold perform. by rewrite H.
Qed.

(** ** Run orchestrator: one collection *)

Lemma handle_collection_error_spec {W} (self : Runner.t W) config e s :
  exists w',
    handle_collection_error self config e s
    = (Return tt,
       mkState w'
         (trace s
          ++ [(CallSendError
                 (String.append "Collection Error: "
                    (CollectionConfig.name config)) (str e),
               Returned)])
         (add_error (stats s))).
Proof.
  unfold handle_collection_error. cbv zeta.
  unfold bind at 1. unfold update_stats at 1.
  destruct (perform_returns
              (CallSendError
                 (String.append "Collection Error: "
                    (CollectionConfig.name config)) (str e)) quiet
              (DiscordWebhook.send_error (Runner.discord self)
                 (String.append "Collection Error: "
                    (CollectionConfig.name config)) (str e))
              (mkState (world s) (trace s) (add_error (stats s))))
    as (b & w' & Hsend); [apply send_error_returns|].
  exists w'. by rewrite (bind_Return _ _ _ _ _ Hsend).
Qed.

Lemma process_collection_build_raises {W} (self : Runner.t W) config
    library_name library_id media_type s e s0 :
  build_collection (Runner.builder self) config library_name library_id
    media_type s = (Raise e, s0) ->
  process_collection self config library_name library_id media_type s
  = (Raise e, s0).
Proof. intros H. unfold process_collection. by rewrite (bind_Raise _ _ _ _ _ H). Qed.

Lemma process_collection_sync_raises {W} (self : Runner.t W) config
    library_name library_id media_type s collection s0 e s1 :
  build_collection (Runner.builder self) config library_name library_id
    media_type s = (Return collection, s0) ->
  sync_collection (Runner.builder self) collection true s0 = (Raise e, s1) ->
  process_collection self config library_name library_id media_type s
  = (Raise e, s1).
Proof.
  intros Hb Hs. unfold process_collection.
  rewrite (bind_Return _ _ _ _ _ Hb). by rewrite (bind_Raise _ _ _ _ _ Hs).
Qed.

Lemma process_collection_returns {W} (self : Runner.t W) config
    library_name library_id media_type s collection s0 r s1 :
  build_collection (Runner.builder self) config library_name library_id
    media_type s = (Return collection, s0) ->
  sync_collection (Runner.builder self) collection true s0 = (Return r, s1) ->
  exists s2,
    process_collection self config library_name library_id media_type s
    = (Return tt, s2)
    /\ stats s2 = add_updated (fst r) (snd r) (stats s1).
Proof.
  intros Hb Hs. unfold process_collection.
  rewrite (bind_Return _ _ _ _ _ Hb), (bind_Return _ _ _ _ _ Hs). cbv zeta.
  unfold bind at 1. unfold update_stats at 1.
  destruct ((0 <? fst r) || (0 <? snd r)); [|by eexists].
  match goal with |- context [bind (perform ?c ?sh ?op) _ ?st] =>
    destruct (perform_returns c sh op st) as (b & w' & Hsend);
      [apply send_collection_changes_returns|]
  end.
  rewrite (bind_Return _ _ _ _ _ Hsend). by eexists.
Qed.

Lemma process_collection_stats {W} (self : Runner.t W) config library_name
    library_id media_type s :
  match process_collection self config library_name library_id media_type s
  with
  | (Return _, s') =>
      exists added removed, stats s' = add_updated added removed (stats s)
  | (Raise _, s') => stats s' = stats s
  end.
Proof.
  destruct (quiet_build_collection (Runner.builder self) config library_name
              library_id media_type s) as [Hst0 _].
  destruct (build_collection _ _ _ _ _ s) as [[collection|e] s0] eqn:Hb;
    [|by rewrite (process_collection_build_raises _ _ _ _ _ _ _ _ Hb)].
  destruct (quiet_sync_collection (Runner.builder self) collection true s0)
    as [Hst1 _].
  destruct (sync_collection _ collection true s0) as [[r|e] s1] eqn:Hs.
  - destruct (process_collection_returns _ _ _ _ _ _ _ _ _ _ Hb Hs)
      as (s2 & -> & Hst2).
    exists (fst r), (snd r). simpl in *. congruence.
  - rewrite (process_collection_sync_raises _ _ _ _ _ _ _ _ _ _ Hb Hs).
    simpl in *. congruence.
Qed.

Lemma run_config_spec {W} (self : Runner.t W) collections scheduled
    library_name library_id media_type config s :
  exists s',
    run_config self collections scheduled library_name library_id media_type
      config s = (Return tt, s')
    /\ match outcome_of self collections scheduled library_name library_id
               media_type config s with
       | Skipped => s' = s
       | Updated =>
           exists added removed, stats s' = add_updated added removed (stats s)
       | Failed e => stats s' = add_error (stats s)
       end.
Proof.
  unfold run_config, outcome_of.
  destruct (negb (selected collections config)); [by eexists|].
  destruct (negb (due self scheduled config s)); [by eexists|].
  unfold try_except.
  pose proof (process_collection_stats self config library_name library_id
                media_type s) as Hst.
  destruct (process_collection _ _ _ _ _ s) as [[[]|e] s1]; cbn [fst].
  - by eexists.
  - destruct (handle_collection_error_spec self config e s1) as (w' & ->).
    eexists. split; [done|]. cbn [stats]. by rewrite Hst.
Qed.

(** The claim C7 as stated fails: with the Radarr server down, the
    membership addition, the removal and the metadata update of the
    collection succeed, the request for the missing title raises, and the
    run reports the collection as an error, not as updated, and none of its
    additions or removals. *)
Lemma C7_counterexample :
  let result :=
    run (Sim.runner Sim.top_configs false) None None false
      (Sim.start Sim.radarr_down_server) in
  fst result = Return (Stats.mk 0 0 0 1)
  /\ (CallAddToCollection "top-id" ["jf-603"], Returned) ∈ trace (snd result)
  /\ (CallRemoveFromCollection "top-id" ["jf-old"], Returned)
     ∈ trace (snd result)
  /\ (CallUpdateCollectionMetadata "top-id" None None, Returned)
     ∈ trace (snd result)
  /\ (CallAddMovie 27205 None, Raised (Exception "HTTPStatusError" "503"))
     ∈ trace (snd result)
  /\ Radarr.sent (world (snd result)) = [(GET, "/api/v3/movie?tmdbId=27205")].
Proof.
  vm_compute. split_and!; try reflexivity; apply list_elem_of_In; simpl; tauto.
Qed.

(** C7 (as amended): once the membership writes and the metadata update of
    a collection have succeeded, an exception raised by a request to an
    acquisition manager propagates out of [sync_collection]; the
    orchestrator catches it and counts the collection as one error, not as
    updated, and its additions and removals are not reported. A dispatch
    that ends without raising leaves the collection counted as updated with
    its additions and removals, and the dispatch cannot raise when the
    clients report their failures through their result only. *)
Theorem C7_acquisition_failure_fails_the_collection :
  forall W (self : Runner.t W) collections scheduled library_name library_id
    media_type config (s : State W) collection s0 r s1,
    selected collections config = true ->
    due self scheduled config s = true ->
    CollectionBuilder.dry_run (Runner.builder self) = false ->
    build_collection (Runner.builder self) config library_name library_id
      media_type s = (Return collection, s0) ->
    sync_membership (Runner.builder self) collection s0 = (Return r, s1) ->
    (forall e s2,
        _add_missing_to_arr (Runner.builder self) collection s1 = (Raise e, s2) ->
        sync_collection (Runner.builder self) collection true s0 = (Raise e, s2)
        /\ exists s3,
            run_config self collections scheduled library_name library_id
              media_type config s = (Return tt, s3)
            /\ stats s3 = add_error (stats s))
    /\ (forall s2,
           _add_missing_to_arr (Runner.builder self) collection s1
           = (Return tt, s2) ->
           sync_collection (Runner.builder self) collection true s0
           = (Return r, s2)
           /\ exists s3,
               run_config self collections scheduled library_name library_id
                 media_type config s = (Return tt, s3)
               /\ stats s3 = add_updated (fst r) (snd r) (stats s))
    /\ (radarr_never_raises (Runner.builder self) ->
        sonarr_never_raises (Runner.builder self) ->
        exists s2,
          _add_missing_to_arr (Runner.builder self) collection s1
          = (Return tt, s2)).
Proof.
  intros W self collections scheduled library_name library_id media_type
    config s collection s0 r s1 Hsel Hdue Hdry Hb Hmem.
  destruct (quiet_build_collection (Runner.builder self) config library_name
              library_id media_type s) as [Hst0 _].
  rewrite Hb in Hst0. cbn [snd] in Hst0.
  assert (forall res s2,
             _add_missing_to_arr (Runner.builder self) collection s1
             = (res, s2) ->
             sync_collection (Runner.builder self) collection true s0
             = (match res with Return _ => Return r | Raise e => Raise e end,
                s2)) as Hsync.
  { intros res s2 Harr. rewrite sync_collection_split, Hdry.
    rewrite (bind_Return _ _ _ _ _ Hmem). unfold bind. rewrite Harr.
    by destruct res as [[]|e]. }
  split_and!.
  - intros e s2 Harr. specialize (Hsync _ _ Harr). split; [done|].
    destruct (quiet_sync_collection (Runner.builder self) collection true s0)
      as [Hst2 _].
    rewrite Hsync in Hst2. cbn [snd] in Hst2.
    unfold run_config. rewrite Hsel, Hdue. cbn [negb]. unfold try_except.
    rewrite (process_collection_sync_raises _ _ _ _ _ _ _ _ _ _ Hb Hsync).
    destruct (handle_collection_error_spec self config e s2) as (w' & ->).
    eexists. split; [done|]. cbn [stats]. congruence.
  - intros s2 Harr. specialize (Hsync _ _ Harr). split; [done|].
    destruct (quiet_sync_collection (Runner.builder self) collection true s0)
      as [Hst2 _].
    rewrite Hsync in Hst2. cbn [snd] in Hst2.
    unfold run_config. rewrite Hsel, Hdue. cbn [negb]. unfold try_except.
    destruct (process_collection_returns _ _ _ _ _ _ _ _ _ _ Hb Hsync)
      as (s3 & -> & Hst3).
    exists s3. split; [done|]. congruence.
  - intros Hr Hs.
    pose proof (add_missing_to_arr_never_raises (Runner.builder self)
                  collection s1 Hr Hs) as H.
    destruct (_add_missing_to_arr _ collection s1) as [res s2].
    simpl in H. subst res. by exists s2.
Qed.

Lemma C7_acquisition_failure_fails_the_collection_witness :
  let self := Sim.runner Sim.top_configs false in
  let config := Sim.popular "Top" 2 in
  let down := Sim.start Sim.radarr_down_server in
  let built := build_collection (Runner.builder self) config "Movies" "lib-1"
                 MOVIE down in
  let collection := value_of (Collection.mk config "" []) (fst built) in
  let synced := sync_membership (Runner.builder self) collection (snd built) in
  let dispatched :=
    _add_missing_to_arr (Runner.builder self) collection (snd synced) in
  let up := Sim.start Sim.radarr_up_server in
  let built' := build_collection (Runner.builder self) config "Movies" "lib-1"
                  MOVIE up in
  let collection' := value_of (Collection.mk config "" []) (fst built') in
  let synced' :=
    sync_membership (Runner.builder self) collection' (snd built') in
  let dispatched' :=
    _add_missing_to_arr (Runner.builder self) collection' (snd synced') in
  (built = (Return collection, snd built)
   /\ synced = (Return (1, 1), snd synced)
   /\ dispatched = (Raise (Exception "HTTPStatusError" "503"), snd dispatched)
   /\ exists s3,
       run_config self None false "Movies" "lib-1" MOVIE config down
       = (Return tt, s3)
       /\ stats s3 = add_error (stats down))
  /\ (built' = (Return collection', snd built')
      /\ synced' = (Return (1, 1), snd synced')
      /\ dispatched' = (Return tt, snd dispatched')
      /\ exists s3,
          run_config self None false "Movies" "lib-1" MOVIE config up
          = (Return tt, s3)
          /\ stats s3 = add_updated 1 1 (stats up)).
Proof.
  intros self config down built collection synced dispatched up built'
    collection' synced' dispatched'.
  assert (built = (Return collection, snd built)) as Hb
    by (vm_compute; reflexivity).
  assert (synced = (Return (1, 1), snd synced)) as Hm
    by (vm_compute; reflexivity).
  assert (dispatched
          = (Raise (Exception "HTTPStatusError" "503"), snd dispatched)) as Hd
    by (vm_compute; reflexivity).
  assert (built' = (Return collection', snd built')) as Hb'
    by (vm_compute; reflexivity).
  assert (synced' = (Return (1, 1), snd synced')) as Hm'
    by (vm_compute; reflexivity).
  assert (dispatched' = (Return tt, snd dispatched')) as Hd'
    by (vm_compute; reflexivity).
  destruct (C7_acquisition_failure_fails_the_collection _ self None false
              "Movies" "lib-1" MOVIE config down collection (snd built) (1, 1)
              (snd synced) eq_refl eq_refl eq_refl Hb Hm) as (Hraise & _ & _).
  destruct (C7_acquisition_failure_fails_the_collection _ self None false
              "Movies" "lib-1" MOVIE config up collection' (snd built') (1, 1)
              (snd synced') eq_refl eq_refl eq_refl Hb' Hm')
    as (_ & Hreturn & _).
  split.
  - split; [exact Hb|]. split; [exact Hm|]. split; [exact Hd|].
    exact (proj2 (Hraise _ _ Hd)).
  - split; [exact Hb'|]. split; [exact Hm'|]. split; [exact Hd'|].
    exact (proj2 (Hreturn _ Hd')).
Defined.

(** ** Run orchestrator: the loops *)

Lemma count_of_cons {A} (p : A -> bool) (x : A) (l : list A) :
  count_of p (x :: l) = (if p x then 1 else 0) + count_of p l.
Proof. unfold count_of. simpl. destruct (p x); simpl; lia. Qed.

Lemma run_configs_spec {W} (self : Runner.t W) collections scheduled
    library_name library_id media_type (configs : list CollectionConfig.t) :
  forall s, exists s',
    for_each configs
      (run_config self collections scheduled library_name library_id
         media_type) s = (Return tt, s')
    /\ length (outcomes self collections scheduled library_name library_id
                 media_type configs s) = length configs
    /\ Stats.errors (stats s')
       = Stats.errors (stats s)
         + count_of is_failed
             (outcomes self collections scheduled library_name library_id
                media_type configs s)
    /\ Stats.collections_updated (stats s')
       = Stats.collections_updated (stats s)
         + count_of is_updated
             (outcomes self collections scheduled library_name library_id
                media_type configs s).
Proof.
  induction configs as [|config rest IH]; intros s.
  { exists s. unfold count_of. simpl. split_and!; try done; lia. }
  cbn [for_each outcomes length].
  destruct (run_config_spec self collections scheduled library_name library_id
              media_type config s) as (s1 & Hrun & Hout).
  rewrite (bind_Return _ _ _ _ _ Hrun), Hrun. cbn [snd].
  destruct (IH s1) as (s' & Hloop & Hlen & Herr & Hupd).
  exists s'. rewrite !count_of_cons, Hlen, Herr, Hupd.
  split_and!; [done|done| |];
    destruct (outcome_of _ _ _ _ _ _ config s) as [| |e];
    cbn [is_failed is_updated];
    [ subst s1 | destruct Hout as (added & removed & Hout); rewrite Hout
    | rewrite Hout
    | subst s1 | destruct Hout as (added & removed & Hout); rewrite Hout
    | rewrite Hout ];
    simpl; lia.
Qed.

Lemma run_library_returns {W} (self : Runner.t W) collections scheduled
    library_id_map entry s :
  exists s',
    run_library self collections scheduled library_id_map entry s
    = (Return tt, s').
Proof.
  unfold run_library. cbv zeta. destruct (negb (truthy _)); [by eexists|].
  destruct (run_configs_spec self collections scheduled (fst entry)
              (default "" (library_id_map !! fst entry))
              (_infer_media_type (fst entry)) (snd entry) s)
    as (s' & H & _).
  by exists s'.
Qed.

Lemma run_libraries_return {W} (self : Runner.t W) collections scheduled
    library_id_map (entries : list (string * list CollectionConfig.t)) :
  forall s, exists s',
    for_each entries (run_library self collections scheduled library_id_map) s
    = (Return tt, s').
Proof.
  induction entries as [|entry rest IH]; intros s; [by eexists|].
  cbn [for_each].
  destruct (run_library_returns self collections scheduled library_id_map
              entry s) as (s1 & H).
  rewrite (bind_Return _ _ _ _ _ H). apply IH.
Qed.

Lemma run_raises_only_at_startup {W} (self : Runner.t W) libraries collections
    scheduled s e s' :
  run self libraries collections scheduled s = (Raise e, s') ->
  exists before,
    trace s' = before ++ [(CallGetAllCollections, Raised e)]
    \/ trace s' = before ++ [(CallGetLibraries, Raised e)].
Proof.
  unfold run. unfold bind at 1. unfold update_stats at 1.
  unfold bind at 1. unfold perform at 1. cbn [world trace stats].
  destruct (KometaParser.get_all_collections _ _) as [[all|e0] w1].
  2:{ intros [= <- <-]. eexists. by left. }
  cbv zeta.
  match goal with |- context [bind (perform ?c ?sh ?op) _ ?st] =>
    destruct (perform_returns c sh op st) as (b & w2 & Hstart);
      [apply send_run_start_returns|]
  end.
  rewrite (bind_Return _ _ _ _ _ Hstart).
  unfold bind at 1. unfold perform at 1. cbn [world trace stats].
  destruct (JellyfinClient.get_libraries _ _) as [[libs|e0] w3].
  2:{ intros [= <- <-]. eexists. by right. }
  match goal with |- context [bind (for_each ?l ?body) _ ?st] =>
    destruct (run_libraries_return self collections scheduled
                (library_id_map_of libs) l st) as (s4 & Hloop)
  end.
  rewrite (bind_Return _ _ _ _ _ Hloop).
  unfold bind at 1. unfold get_stats at 1.
  match goal with |- context [bind (perform ?c ?sh ?op) _ ?st] =>
    destruct (perform_returns c sh op st) as (b' & w5 & Hend);
      [apply send_run_end_returns|]
  end.
  rewrite (bind_Return _ _ _ _ _ Hend). discriminate.
Qed.

(** C3: an exception raised while a collection is built or synchronised is
    caught by the orchestrator: the step of the loop for that collection
    returns, with one more error and the other counters as they were, and
    the loop goes on: every collection definition of the list gets its
    outcome, the errors of the run grow by the number of failures and the
    updated collections by the number of successes; the loop over the
    libraries always returns, and [run] itself can only raise from its two
    start-up reads. In the run of three collections whose second one is
    refused by the library server the third is synchronised and the
    statistics are errors = 1 and collections_updated = 2. *)
Theorem C3_failure_isolation :
  (forall W (self : Runner.t W) collections scheduled library_name library_id
     media_type,
      (forall config s, exists s',
          run_config self collections scheduled library_name library_id
            media_type config s = (Return tt, s')
          /\ match outcome_of self collections scheduled library_name
                     library_id media_type config s with
             | Skipped => s' = s
             | Updated =>
                 exists added removed,
                   stats s' = add_updated added removed (stats s)
             | Failed e => stats s' = add_error (stats s)
             end)
      /\ (forall configs s, exists s',
             for_each configs
               (run_config self collections scheduled library_name library_id
                  media_type) s = (Return tt, s')
             /\ length (outcomes self collections scheduled library_name
                          library_id media_type configs s) = length configs
             /\ Stats.errors (stats s')
                = Stats.errors (stats s)
                  + count_of is_failed
                      (outcomes self collections scheduled library_name
                         library_id media_type configs s)
             /\ Stats.collections_updated (stats s')
                = Stats.collections_updated (stats s)
                  + count_of is_updated
                      (outcomes self collections scheduled library_name
                         library_id media_type configs s))
      /\ (forall library_id_map entries s, exists s',
             for_each entries
               (run_library self collections scheduled library_id_map) s
             = (Return tt, s'))
      /\ (forall libraries s e s',
             run self libraries collections scheduled s = (Raise e, s') ->
             exists before,
               trace s' = before ++ [(CallGetAllCollections, Raised e)]
               \/ trace s' = before ++ [(CallGetLibraries, Raised e)]))
  /\ let self := Sim.runner Sim.scenario_E_configs false in
     let s := Sim.start Sim.scenario_E_server in
     let result := run self None None false s in
     outcomes self None false "Movies" "lib-1" MOVIE
       [Sim.popular "A" 1; Sim.popular "B" 1; Sim.popular "C" 1] s
     = [Updated; Failed Sim.refused; Updated]
     /\ fst result = Return (Stats.mk 2 2 0 1)
     /\ (CallAddToCollection "B-id" ["jf-603"], Raised Sim.refused)
        ∈ trace (snd result)
     /\ (CallAddToCollection "C-id" ["jf-603"], Returned) ∈ trace (snd result)
     /\ (CallUpdateCollectionMetadata "C-id" None None, Returned)
        ∈ trace (snd result).
Proof.
  split.
  - intros W self collections scheduled library_name library_id media_type.
    split_and!.
    + intros config s. apply run_config_spec.
    + intros configs s. apply run_configs_spec.
    + intros library_id_map entries s. apply run_libraries_return.
    + intros libraries s e s'. apply run_raises_only_at_startup.
  - vm_compute.
    split_and!; try reflexivity; apply list_elem_of_In; simpl; tauto.
Qed.

Lemma C3_failure_isolation_witness :
  let self := Sim.offline_runner Sim.scenario_E_configs in
  let s := Sim.start Sim.scenario_E_server in
  let result := run self None None false s in
  result = (Raise Sim.offline, snd result)
  /\ exists before,
       trace (snd result) = before ++ [(CallGetAllCollections, Raised Sim.offline)]
       \/ trace (snd result) = before ++ [(CallGetLibraries, Raised Sim.offline)].
Proof.
  intros self s result.
  assert (result = (Raise Sim.offline, snd result)) as Hrun
    by (vm_compute; reflexivity).
  split; [exact Hrun|].
  destruct C3_failure_isolation as [Hgeneral _].
  destruct (Hgeneral _ self None false "Movies" "lib-1" MOVIE)
    as (_ & _ & _ & Hstartup).
  exact (Hstartup None s Sim.offline (snd result) Hrun).
Defined.

(** ** Acquisition dispatcher *)

(** The claim C8 as stated fails: the second title of this collection is
    missing from the library, both acquisition clients are configured, and
    no request is made for it: the collection is dispatched as series
    (its first title has a [tvdb_id]) and the missing title has none. *)
Lemma C8_counterexample :
  let s := Sim.start Sim.radarr_up_server in
  let missing := Sim.item "Inception" (Some 27205) None None in
  missing ∈ Collection.items Sim.mixed_collection
  /\ CollectionItem.in_library missing = false
  /\ is_not_None (CollectionBuilder.radarr (Sim.builder false)) = true
  /\ is_not_None (CollectionBuilder.sonarr (Sim.builder false)) = true
  /\ _add_missing_to_arr (Sim.builder false) Sim.mixed_collection s
     = (Return tt, s)
  /\ trace (snd (_add_missing_to_arr (Sim.builder false) Sim.mixed_collection s))
     = [].
Proof.
  split_and!; try reflexivity. right. left.
Qed.

Lemma get_movie_by_tmdb_id_found {H} (self : Radarr.t H) tmdb_id
    (s : Radarr.State H) response h1 movies movie :
  let endpoint := String.append "/api/v3/movie?tmdbId=" (pretty tmdb_id) in
  Radarr.request self GET endpoint None (Radarr.server s)
  = (Return response, h1) ->
  200 <= Response.status_code response <= 299 ->
  Response.json response = Some movies ->
  truthy movies = true ->
  getitem0 movies = Return movie ->
  Radarr.get_movie_by_tmdb_id self tmdb_id s
  = (Return movie,
     Radarr.mkState h1 (Radarr._quality_profile_id s) (Radarr._tag_id s)
       (Radarr.sent s ++ [(GET, endpoint)])).
Proof.
  intros endpoint Hreq Hcode Hjson Htruthy Hfirst.
  unfold Radarr.get_movie_by_tmdb_id, Radarr.get, Radarr._request, bind.
  fold endpoint. rewrite Hreq.
  unfold Radarr.raise_for_status, Radarr.json. rewrite Hjson.
  assert ((200 <=? Response.status_code response)
          && (Response.status_code response <=? 299) = true) as ->.
  { apply andb_true_iff. split; apply Z.leb_le; lia. }
  unfold ret. rewrite Htruthy. unfold lift_result. by rewrite Hfirst.
Qed.

Lemma add_movie_already_registered {H} (self : Radarr.t H) tmdb_id
    root_folder quality_profile tags monitored search minimum_availability
    (s : Radarr.State H) response h1 h2 movies movie :
  let endpoint := String.append "/api/v3/movie?tmdbId=" (pretty tmdb_id) in
  Radarr.request self GET endpoint None (Radarr.server s)
  = (Return response, h1) ->
  Radarr.request self GET endpoint None h1 = (Return response, h2) ->
  200 <= Response.status_code response <= 299 ->
  Response.json response = Some movies ->
  truthy movies = true ->
  getitem0 movies = Return movie ->
  is_JNull movie = false ->
  Radarr.add_movie self tmdb_id root_folder quality_profile tags monitored
    search minimum_availability s
  = (Return movie,
     Radarr.mkState h2 (Radarr._quality_profile_id s) (Radarr._tag_id s)
       (Radarr.sent s ++ [(GET, endpoint); (GET, endpoint)])).
Proof.
  intros endpoint Hreq1 Hreq2 Hcode Hjson Htruthy Hfirst Hmovie.
  unfold Radarr.add_movie, Radarr.movie_exists.
  rewrite bind_assoc.
  rewrite (bind_Return _ _ _ _ _
             (get_movie_by_tmdb_id_found self tmdb_id s response h1 movies
                movie Hreq1 Hcode Hjson Htruthy Hfirst)).
  unfold bind at 1. unfold ret at 1. rewrite Hmovie. cbn [negb].
  rewrite (get_movie_by_tmdb_id_found self tmdb_id _ response h2 movies movie);
    try done.
  cbn [Radarr.sent Radarr._quality_profile_id Radarr._tag_id].
  by rewrite <- app_assoc.
Qed.

Lemma requests_for_series {W} (self : CollectionBuilder.t W) collection :
  dispatched_as_series collection = true ->
  Forall (fun c => exists tvdb_id tags, c = CallAddSeries tvdb_id tags)
    (requests_for self collection).
Proof.
  intros Hkind. unfold requests_for. apply Forall_forall. intros c Hc.
  apply list_elem_of_omap in Hc as (item & _ & Hreq).
  unfold request_for in Hreq. rewrite Hkind in Hreq.
  destruct (_ && _); [|done]. injection Hreq as <-. eauto.
Qed.

Lemma requests_for_movies {W} (self : CollectionBuilder.t W) collection :
  dispatched_as_series collection = false ->
  Forall (fun c => exists tmdb_id tags, c = CallAddMovie tmdb_id tags)
    (requests_for self collection).
Proof.
  intros Hkind. unfold requests_for. apply Forall_forall. intros c Hc.
  apply list_elem_of_omap in Hc as (item & _ & Hreq).
  unfold request_for in Hreq. rewrite Hkind in Hreq.
  destruct (_ && _); [|done]. injection Hreq as <-. eauto.
Qed.

Lemma requests_for_complete {W} (self : CollectionBuilder.t W) collection item :
  item ∈ Collection.items collection ->
  CollectionItem.in_library item = false ->
  forall c, request_for self collection item = Some c ->
            c ∈ requests_for self collection.
Proof.
  intros Hin Hmissing c Hreq. unfold requests_for.
  apply list_elem_of_omap. exists item. split; [|done].
  apply list_elem_of_In, filter_In. split; [by apply list_elem_of_In|].
  by rewrite Hmissing.
Qed.

(** C8 (as amended): the media kind is settled once for the collection,
    from whether its first item has a [tvdb_id]. The dispatcher goes through
    the items whose [in_library] flag is false, in order, and requests from
    the manager of that kind those that carry the identifier of that kind
    ([tvdb_id] for series, [tmdb_id] for movies, not zero), provided the
    client of that kind is configured; the other missing items are passed
    over. So all the requests of a collection are of one kind. A title that
    Radarr already holds is answered with its record after two reads and no
    write. *)
Theorem C8_dispatch_by_collection_kind :
  (forall W (self : CollectionBuilder.t W) (collection : Collection.t)
     (s : State W),
      let result := _add_missing_to_arr self collection s in
      (exists new,
          trace (snd result) = trace s ++ new
          /\ calls_of new `prefix_of` requests_for self collection
          /\ (fst result = Return tt ->
              new = List.map (fun c => (c, Returned))
                      (requests_for self collection)))
      /\ (dispatched_as_series collection = true ->
          Forall (fun c => exists tvdb_id tags, c = CallAddSeries tvdb_id tags)
            (requests_for self collection))
      /\ (dispatched_as_series collection = false ->
          Forall (fun c => exists tmdb_id tags, c = CallAddMovie tmdb_id tags)
            (requests_for self collection))
      /\ (forall item c,
             item ∈ Collection.items collection ->
             CollectionItem.in_library item = false ->
             request_for self collection item = Some c ->
             c ∈ requests_for self collection))
  /\ (forall H (radarr : Radarr.t H) tmdb_id tags (w : Radarr.State H)
        response h1 h2 movies movie,
         let endpoint :=
           String.append "/api/v3/movie?tmdbId=" (pretty tmdb_id) in
         Radarr.request radarr GET endpoint None (Radarr.server w)
         = (Return response, h1) ->
         Radarr.request radarr GET endpoint None h1 = (Return response, h2) ->
         200 <= Response.status_code response <= 299 ->
         Response.json response = Some movies ->
         truthy movies = true ->
         getitem0 movies = Return movie ->
         is_JNull movie = false ->
         RadarrClient.add_movie (Radarr.client radarr) tmdb_id tags w
         = (Return (Some movie),
            Radarr.mkState h2 (Radarr._quality_profile_id w) (Radarr._tag_id w)
              (Radarr.sent w ++ [(GET, endpoint); (GET, endpoint)]))).
Proof.
  split.
  - intros W self collection s result. split_and!.
    + destruct (add_missing_to_arr_spec self collection s)
        as (_ & new & Htr & Hpre & Hall & _).
      exists new. by split_and!.
    + apply requests_for_series.
    + apply requests_for_movies.
    + intros item c Hin Hmissing Hreq.
      by apply (requests_for_complete self collection item).
  - intros H radarr tmdb_id tags w response h1 h2 movies movie endpoint
      Hreq1 Hreq2 Hcode Hjson Htruthy Hfirst Hmovie.
    cbn [Radarr.client RadarrClient.add_movie].
    rewrite (bind_Return _ _ _ _ _
               (add_movie_already_registered radarr tmdb_id None None tags true
                  true "announced" w response h1 h2 movies movie Hreq1 Hreq2
                  Hcode Hjson Htruthy Hfirst Hmovie)).
    unfold ret. by rewrite Hmovie.
Qed.

Lemma C8_dispatch_by_collection_kind_witness :
  let w := Radarr.connect Sim.radarr_up_server in
  let response :=
    Response.mk 200 (Some (JList [Sim.movie_record 27205])) "" in
  let s := Sim.start Sim.radarr_up_server in
  let result := _add_missing_to_arr (Sim.builder false) Sim.top_collection s in
  (Radarr.request Sim.radarr GET "/api/v3/movie?tmdbId=27205" None
     (Radarr.server w) = (Return response, Sim.radarr_up_server)
   /\ truthy (JList [Sim.movie_record 27205]) = true
   /\ is_JNull (Sim.movie_record 27205) = false
   /\ RadarrClient.add_movie (Radarr.client Sim.radarr) 27205 None w
      = (Return (Some (Sim.movie_record 27205)),
         Radarr.mkState Sim.radarr_up_server JNull JNull
           [(GET, "/api/v3/movie?tmdbId=27205");
            (GET, "/api/v3/movie?tmdbId=27205")]))
  /\ (fst result = Return tt
      /\ dispatched_as_series Sim.top_collection = false
      /\ requests_for (Sim.builder false) Sim.top_collection
         = [CallAddMovie 27205 None]
      /\ trace (snd result) = [(CallAddMovie 27205 None, Returned)]).
Proof.
  intros w response s result.
  assert (Radarr.request Sim.radarr GET "/api/v3/movie?tmdbId=27205" None
            (Radarr.server w) = (Return response, Sim.radarr_up_server)) as Hreq
    by (vm_compute; reflexivity).
  assert (fst result = Return tt) as Hret by (vm_compute; reflexivity).
  destruct C8_dispatch_by_collection_kind as [Hdispatch Hregistered].
  destruct (Hdispatch _ (Sim.builder false) Sim.top_collection s)
    as ((new & Htrace & _ & Hall) & _).
  split.
  - split; [exact Hreq|]. split; [reflexivity|]. split; [reflexivity|].
    exact (Hregistered _ Sim.radarr 27205 None w response Sim.radarr_up_server
             Sim.radarr_up_server (JList [Sim.movie_record 27205])
             (Sim.movie_record 27205) Hreq Hreq ltac:(simpl; lia) eq_refl
             eq_refl eq_refl eq_refl).
  - split; [exact Hret|]. split; [reflexivity|]. split; [reflexivity|].
    fold result in Htrace, Hall. rewrite Htrace, (Hall Hret). reflexivity.
Defined.

(** ** Schedule gate: the claim *)

Lemma outcome_skipped_manual {W} (self : Runner.t W) collections library_name
    library_id media_type config s :
  outcome_of self collections false library_name library_id media_type config s
  = Skipped <-> selected collections config = false.
Proof.
  unfold outcome_of, due. cbn [andb negb].
  destruct (selected collections config); cbn [negb]; [|done].
  destruct (process_collection _ _ _ _ _ s) as [[[]|e] s1]; cbn [fst];
    split; discriminate.
Qed.

(** C6: the gate is true for a daily schedule and false for one that never
    runs; for a weekly schedule it is true exactly when the name of the
    weekday of the date is the configured day (Sunday when none is set),
    letter case apart, which for a configured weekday name is one day out
    of any seven consecutive days; for a monthly schedule it is true
    exactly when the day of the month is the configured day (1 when none
    is set), which is once in a month that has that day and never in a
    shorter month. In a run that is not scheduled the gate is not
    consulted: every selected collection reaches the [try] statement, and
    only the collections that are not selected are skipped. *)
Theorem C6_schedule_gate :
  forall (schedule : CollectionSchedule.t) (today : datetime.t),
    (CollectionSchedule.schedule_type schedule = DAILY ->
     _should_run_today schedule today = true)
    /\ (CollectionSchedule.schedule_type schedule = NEVER ->
        _should_run_today schedule today = false)
    /\ (CollectionSchedule.schedule_type schedule = WEEKLY ->
        (_should_run_today schedule today = true
         <-> lower (datetime.strftime_A today)
             = lower (configured_day_of_week schedule))
        /\ (CollectionSchedule.day_of_week schedule = None ->
            configured_day_of_week schedule = "sunday")
        /\ (forall name, CollectionSchedule.day_of_week schedule = Some name ->
                         name <> "" -> configured_day_of_week schedule = name)
        /\ (datetime.valid today ->
            In (lower (configured_day_of_week schedule)) weekday_names ->
            runs_among schedule (datetime.days_from today 7) = 1%nat))
    /\ (CollectionSchedule.schedule_type schedule = MONTHLY ->
        (_should_run_today schedule today = true
         <-> datetime.day today = configured_day_of_month schedule)
        /\ (CollectionSchedule.day_of_month schedule = None ->
            configured_day_of_month schedule = 1)
        /\ (forall d, CollectionSchedule.day_of_month schedule = Some d ->
                      d <> 0 -> configured_day_of_month schedule = d)
        /\ forall year month,
            runs_among schedule (days_of_month year month)
            = if (1 <=? configured_day_of_month schedule)
                 && (configured_day_of_month schedule
                     <=? datetime._days_in_month year month)
              then 1%nat else 0%nat)
    /\ (forall W (self : Runner.t W) collections library_name library_id
          media_type config (s : State W),
           CollectionConfig.schedule config = schedule ->
           due self false config s = true
           /\ (selected collections config = true ->
               run_config self collections false library_name library_id
                 media_type config s
               = try_except
                   (process_collection self config library_name library_id
                      media_type)
                   (handle_collection_error self config) s)
           /\ (outcome_of self collections false library_name library_id
                 media_type config s = Skipped
               <-> selected collections config = false)).
Proof.
  intros schedule today. split_and!.
  - intros H. unfold _should_run_today. by rewrite H.
  - intros H. unfold _should_run_today. by rewrite H.
  - intros H. split_and!.
    + unfold _should_run_today, configured_day_of_week. rewrite H.
      apply String.eqb_eq.
    + intros Hnone. unfold configured_day_of_week. by rewrite Hnone.
    + intros name Hname Hne. unfold configured_day_of_week. rewrite Hname.
      unfold or_default.
      by replace (truthy name) with true
        by (symmetry; by apply truthy_string_true).
    + by apply weekly_once_in_seven.
  - intros H. split_and!.
    + unfold _should_run_today, configured_day_of_month. rewrite H.
      apply Z.eqb_eq.
    + intros Hnone. unfold configured_day_of_month. by rewrite Hnone.
    + intros d Hd Hne. unfold configured_day_of_month. rewrite Hd.
      unfold or_default.
      by replace (truthy d) with true by (symmetry; by apply truthy_Z_true).
    + intros year month. by apply monthly_once_a_month.
  - intros W self collections library_name library_id media_type config s _.
    split_and!.
    + reflexivity.
    + intros Hsel. unfold run_config, due. by rewrite Hsel.
    + apply outcome_skipped_manual.
Qed.

Lemma C6_schedule_gate_witness :
  let tuesday := datetime.mk 2026 11 3 in
  let every_monday := CollectionSchedule.mk WEEKLY (Some "Monday") None in
  let every_31st := CollectionSchedule.mk MONTHLY None (Some 31) in
  let every_day := CollectionSchedule.mk DAILY None None in
  let never := CollectionSchedule.mk NEVER None None in
  let self := Sim.runner Sim.top_configs false in
  let config := Sim.popular "Top" 2 in
  let s := Sim.start Sim.radarr_up_server in
  datetime.valid tuesday
  /\ In (lower (configured_day_of_week every_monday)) weekday_names
  /\ datetime.strftime_A tuesday = "Tuesday"
  /\ runs_among every_monday (datetime.days_from tuesday 7) = 1%nat
  /\ List.map (_should_run_today every_monday) (datetime.days_from tuesday 7)
     = [false; false; false; false; false; false; true]
  /\ runs_among every_31st (days_of_month 2026 11) = 0%nat
  /\ runs_among every_31st (days_of_month 2026 12) = 1%nat
  /\ configured_day_of_week every_monday = "Monday"
  /\ configured_day_of_month every_31st = 31
  /\ _should_run_today every_day tuesday = true
  /\ _should_run_today never tuesday = false
  /\ selected None config = true
  /\ run_config self None false "Movies" "lib-1" MOVIE config s
     = try_except (process_collection self config "Movies" "lib-1" MOVIE)
         (handle_collection_error self config) s.
Proof.
  intros tuesday every_monday every_31st every_day never self config s.
  assert (datetime.valid tuesday) as Hvalid
    by (unfold datetime.valid; vm_compute; repeat split; discriminate).
  assert (In (lower (configured_day_of_week every_monday)) weekday_names)
    as Hname by (simpl; tauto).
  destruct (C6_schedule_gate every_monday tuesday) as (_ & _ & Hweekly & _).
  destruct (Hweekly eq_refl) as (_ & _ & Hnamed & Hseven).
  destruct (C6_schedule_gate every_31st tuesday) as (_ & _ & _ & Hmonthly & _).
  destruct (Hmonthly eq_refl) as (_ & _ & Hday & Hmonth).
  destruct (C6_schedule_gate every_day tuesday) as (Hdaily & _ & _ & _ & Hmanual).
  destruct (C6_schedule_gate never tuesday) as (_ & Hnever & _).
  destruct (Hmanual _ self None "Movies" "lib-1" MOVIE config s eq_refl)
    as (_ & Htry & _).
  split_and!; [exact Hvalid|exact Hname|reflexivity|exact (Hseven Hvalid Hname)
              |reflexivity| |
              |exact (Hnamed "Monday" eq_refl ltac:(discriminate))
              |exact (Hday 31 eq_refl ltac:(discriminate))
              |exact (Hdaily eq_refl)|exact (Hnever eq_refl)
              |reflexivity|exact (Htry eq_refl)].
  - rewrite Hmonth. reflexivity.
  - rewrite Hmonth. reflexivity.
Defined.

(** ** What a computation leaves as it was *)

Section Preserves.
Context {S : Type} (R : S -> S -> Prop).
Hypothesis R_refl : forall s, R s s.
Hypothesis R_trans : forall s1 s2 s3, R s1 s2 -> R s2 s3 -> R s1 s3.

Lemma preserves_ret {A} (a : A) : preserves R (ret a).
Proof. intros s. apply R_refl. Qed.

Lemma preserves_raise {A} (e : exn) : preserves R (raise (A:=A) e).
Proof. intros s. apply R_refl. Qed.

Lemma preserves_lift_result {A} (r : Result A) : preserves R (lift_result r).
Proof. intros s. apply R_refl. Qed.

Lemma preserves_bind {A B} (m : M S A) (k : A -> M S B) :
  preserves R m -> (forall a, preserves R (k a)) -> preserves R (bind m k).
Proof.
  intros Hm Hk s. unfold bind. specialize (Hm s).
  destruct (m s) as [[a|e] s1]; simpl in *; [|done].
  eapply R_trans; [exact Hm|apply Hk].
Qed.

Lemma preserves_try_except {A} (body : M S A) (handler : exn -> M S A) :
  preserves R body -> (forall e, preserves R (handler e)) ->
  preserves R (try_except body handler).
Proof.
  intros Hm Hk s. unfold try_except. specialize (Hm s).
  destruct (body s) as [[a|e] s1]; simpl in *; [done|].
  eapply R_trans; [exact Hm|apply Hk].
Qed.

Lemma preserves_for_each {A} (l : list A) (body : A -> M S unit) :
  (forall x, preserves R (body x)) -> preserves R (for_each l body).
Proof.
  intros H. induction l as [|x l IH]; simpl; [apply preserves_ret|].
  apply preserves_bind; [apply H|]. intros _. apply IH.
Qed.

Lemma preserves_map_M {A B} (f : A -> M S B) (l : list A) :
  (forall x, preserves R (f x)) -> preserves R (map_M f l).
Proof.
  intros H. induction l as [|x l IH]; simpl; [apply preserves_ret|].
  apply preserves_bind; [apply H|]. intros y.
  apply preserves_bind; [apply IH|]. intros ys. apply preserves_ret.
Qed.
End Preserves.

Lemma logged_only_refl {W} allowed (s : State W) : logged_only allowed s s.
Proof. exists []. split; [by rewrite app_nil_r|constructor]. Qed.

Lemma logged_only_trans {W} allowed (s1 s2 s3 : State W) :
  logged_only allowed s1 s2 -> logged_only allowed s2 s3 ->
  logged_only allowed s1 s3.
Proof.
  intros (new & Htr & Hall) (new' & Htr' & Hall'). exists (new ++ new').
  split; [by rewrite Htr', Htr, app_assoc|by apply Forall_app].
Qed.

Lemma logs_only_weaken {W A} (p q : Call -> bool) (m : M (State W) A) :
  (forall c, p c = true -> q c = true) -> logs_only p m -> logs_only q m.
Proof.
  intros Hpq Hm s. destruct (Hm s) as (new & Htr & Hall). exists new.
  split; [done|]. eapply Forall_impl; [exact Hall|]. intros ev. apply Hpq.
Qed.

Lemma logs_perform {W A} allowed c (show : A -> Reply) (op : M W A) :
  allowed c = true -> preserves (logged_only allowed) (perform c show op).
Proof.
  intros Hc s. unfold perform. destruct (op (world s)) as [r w']. simpl.
  eexists. split; [reflexivity|]. by repeat constructor.
Qed.

Lemma logs_update_stats {W} allowed f :
  preserves (logged_only (W:=W) allowed) (update_stats f).
Proof. intros s. exists []. split; [simpl; by rewrite app_nil_r|constructor]. Qed.

Lemma logs_get_stats {W} allowed :
  preserves (logged_only (W:=W) allowed) get_stats.
Proof. intros s. apply logged_only_refl. Qed.

Ltac logs_with side :=
  unfold logs_only;
  repeat first
    [ apply preserves_ret; exact (logged_only_refl _)
    | apply preserves_lift_result; exact (logged_only_refl _)
    | apply logs_perform; side
    | apply logs_update_stats
    | apply logs_get_stats
    | apply preserves_for_each;
        [exact (logged_only_refl _)|exact (logged_only_trans _)|intros ?]
    | apply preserves_map_M;
        [exact (logged_only_refl _)|exact (logged_only_trans _)|intros ?]
    | apply preserves_bind; [exact (logged_only_trans _)| |intros ?]
    | match goal with
      | |- preserves _ (if ?c then _ else _) => destruct c
      | |- preserves _ (match ?x with _ => _ end) => destruct x
      | |- preserves _ (let _ := _ in _) => cbv zeta
      end ].

Ltac logs := logs_with ltac:(reflexivity).

Lemma build_collection_logs {W} (self : CollectionBuilder.t W) config
    library_name library_id media_type :
  logs_only is_build_read
    (build_collection self config library_name library_id media_type).
Proof.
  unfold build_collection, _fetch_items, _fetch_sources, extend_if,
    _fetch_tmdb_discover, _fetch_trakt_chart, fetch.
  logs.
Qed.

(** X1: building a collection only reads: every collaborator call it logs is
    a provider fetch or a library lookup of the matcher, whatever the
    configuration and whether it returns or raises, and the statistics of
    the run are left alone. *)
Theorem build_collection_only_reads :
  forall W (self : CollectionBuilder.t W) config library_name library_id
    media_type,
    logs_only is_build_read
      (build_collection self config library_name library_id media_type)
    /\ quiet_on_stats
         (build_collection self config library_name library_id media_type).
Proof.
  intros. split; [apply build_collection_logs|apply quiet_build_collection].
Qed.

(** ** Exceptions are let through at once *)

Lemma fails_fast_ret {W A} (a : A) : fails_fast (W:=W) (ret a).
Proof. intros s. exists []. simpl. split; [by rewrite app_nil_r|constructor]. Qed.

Lemma fails_fast_update_stats {W} f : fails_fast (W:=W) (update_stats f).
Proof. intros s. exists []. simpl. split; [by rewrite app_nil_r|constructor]. Qed.

Lemma fails_fast_perform {W A} c (show : A -> Reply) (op : M W A) :
  (forall a, returned (c, show a)) -> fails_fast (perform c show op).
Proof.
  intros Hshow s. unfold perform. destruct (op (world s)) as [[a|e] w'];
    simpl; eexists; (split; [reflexivity|]).
  - repeat constructor. apply Hshow.
  - exists [], c. split; [done|constructor].
Qed.

Lemma fails_fast_bind {W A B} (m : M (State W) A) (k : A -> M (State W) B) :
  fails_fast m -> (forall a, fails_fast (k a)) -> fails_fast (bind m k).
Proof.
  intros Hm Hk s. unfold bind. destruct (Hm s) as (new & Htr & Hres).
  destruct (m s) as [[a|e] s1]; simpl in *.
  - destruct (Hk a s1) as (new' & Htr' & Hres'). exists (new ++ new').
    split; [by rewrite Htr', Htr, app_assoc|].
    destruct (fst (k a s1)) as [b|e].
    + by apply Forall_app.
    + destruct Hres' as (before & c & -> & Hbefore).
      exists (new ++ before), c. split; [by rewrite app_assoc|].
      by apply Forall_app.
  - by exists new.
Qed.

Lemma fails_fast_for_each {W A} (l : list A) (body : A -> M (State W) unit) :
  (forall x, fails_fast (body x)) -> fails_fast (for_each l body).
Proof.
  intros H. induction l as [|x l IH]; simpl; [apply fails_fast_ret|].
  apply fails_fast_bind; [apply H|]. intros _. apply IH.
Qed.

Lemma fails_fast_map_M {W A B} (f : A -> M (State W) B) (l : list A) :
  (forall x, fails_fast (f x)) -> fails_fast (map_M f l).
Proof.
  intros H. induction l as [|x l IH]; simpl; [apply fails_fast_ret|].
  apply fails_fast_bind; [apply H|]. intros y.
  apply fails_fast_bind; [apply IH|]. intros ys. apply fails_fast_ret.
Qed.

Ltac stops_at_failure :=
  repeat first
    [ apply fails_fast_ret
    | apply fails_fast_update_stats
    | apply fails_fast_perform; intros ?; exact I
    | apply fails_fast_for_each; intros ?
    | apply fails_fast_map_M; intros ?
    | apply fails_fast_bind; [|intros ?]
    | match goal with
      | |- fails_fast (if ?c then _ else _) => destruct c
      | |- fails_fast (match ?x with _ => _ end) => destruct x
      | |- fails_fast (let _ := _ in _) => cbv zeta
      end ].

Lemma build_collection_fails_fast {W} (self : CollectionBuilder.t W) config
    library_name library_id media_type :
  fails_fast (build_collection self config library_name library_id media_type).
Proof.
  unfold build_collection, _fetch_items, _fetch_sources, extend_if,
    _fetch_tmdb_discover, _fetch_trakt_chart, fetch.
  stops_at_failure.
Qed.

Lemma sync_collection_fails_fast {W} (self : CollectionBuilder.t W) collection
    flag :
  fails_fast (sync_collection self collection flag).
Proof.
  unfold sync_collection, _add_missing_to_arr, _add_missing_item.
  stops_at_failure.
Qed.

(** X2: the builder handles no exception. When building or synchronising a
    collection raises [e], the last call in the log is the collaborator call
    that raised [e] and every call logged before it during that step had
    returned: nothing is attempted after a failure (no removal after a
    refused addition, no metadata update, no acquisition request) and no
    failure is passed over. The same holds for the whole body of the [try]
    statement of [Runner.run]; when any of them returns, every call it
    logged had returned. *)
Theorem attempt_stops_at_the_first_exception :
  forall W (self : Runner.t W) config library_name library_id media_type,
    fails_fast (build_collection (Runner.builder self) config library_name
                  library_id media_type)
    /\ (forall collection add_missing_to_arr,
           fails_fast (sync_collection (Runner.builder self) collection
                         add_missing_to_arr))
    /\ fails_fast (process_collection self config library_name library_id
                     media_type).
Proof.
  intros. split_and!.
  - apply build_collection_fails_fast.
  - intros. apply sync_collection_fails_fast.
  - unfold process_collection.
    apply fails_fast_bind; [apply build_collection_fails_fast|].
    intros collection.
    apply fails_fast_bind; [apply sync_collection_fails_fast|].
    intros result. stops_at_failure.
Qed.

(** ** Building a collection *)

Lemma _apply_filters_nil config : _apply_filters [] config = [].
Proof.
  pose proof (_apply_filters_prefix [] config) as H. simpl in H.
  by apply prefix_nil_inv in H.
Qed.

(** X3: a definition that switches no provider source on (each one absent
    or zero) is built without a single collaborator call: the candidate list
    is empty and so is the collection, which still carries its definition
    and its library name. *)
Theorem nothing_configured_nothing_fetched :
  forall W (self : CollectionBuilder.t W) config library_name library_id
    media_type (s : State W),
    no_source config ->
    _fetch_items self config media_type s = (Return [], s)
    /\ build_collection self config library_name library_id media_type s
       = (Return (Collection.mk config library_name []), s).
Proof.
  intros W self config library_name library_id media_type s
    (H1 & H2 & H3 & H4 & H5 & H6 & H7).
  assert (_fetch_items self config media_type s = (Return [], s)) as Hfetch.
  { unfold _fetch_items, _fetch_sources, extend_if. cbv zeta.
    rewrite H1, H2, H3, H4, H5, H6, H7.
    by destruct (CollectionBuilder.trakt self). }
  split; [done|]. unfold build_collection.
  rewrite (bind_Return _ _ _ _ _ Hfetch). cbv zeta.
  by rewrite _apply_filters_nil.
Qed.

Lemma nothing_configured_nothing_fetched_witness :
  let config := config_with CollectionFilter.unconstrained (Some 5) in
  let s := Sim.start Sim.scenario_E_server in
  no_source config
  /\ build_collection (Sim.builder false) config "Movies" "lib-1" MOVIE s
     = (Return (Collection.mk config "Movies" []), s).
Proof.
  intros config s.
  assert (no_source config) as H by (vm_compute; repeat split).
  split; [exact H|].
  exact (proj2 (nothing_configured_nothing_fetched _ (Sim.builder false) config
                  "Movies" "lib-1" MOVIE s H)).
Defined.

Lemma fetch_sources_without_trakt {W} (self : CollectionBuilder.t W) config
    media_type :
  CollectionBuilder.trakt self = None ->
  logs_only is_tmdb_fetch (_fetch_sources self config media_type).
Proof.
  intros Hnone.
  unfold _fetch_sources, extend_if, _fetch_tmdb_discover, fetch.
  rewrite Hnone. logs.
Qed.

(** X4: without a Trakt client the Trakt sources of a definition are passed
    over in silence, whatever the definition asks for: every provider call
    of [_fetch_items] goes to TMDb, and [_fetch_trakt_chart] returns the
    empty list without any call. *)
Theorem without_trakt_client_only_tmdb_is_asked :
  forall W (self : CollectionBuilder.t W) config media_type,
    CollectionBuilder.trakt self = None ->
    logs_only is_tmdb_fetch (_fetch_items self config media_type)
    /\ forall chart_config s,
        _fetch_trakt_chart self chart_config media_type s = (Return [], s).
Proof.
  intros W self config media_type Hnone. split.
  - unfold _fetch_items, logs_only.
    apply preserves_bind; [exact (logged_only_trans _)| |].
    + by apply fetch_sources_without_trakt.
    + intros items. apply preserves_ret. exact (logged_only_refl _).
  - intros chart_config s. unfold _fetch_trakt_chart. by rewrite Hnone.
Qed.

Lemma without_trakt_client_only_tmdb_is_asked_witness :
  let config :=
    CollectionConfig.mk "Mixed" None None None None (Some 2) None (Some 10)
      (Some 10) (Some [("chart", AStr "popular")])
      CollectionFilter.unconstrained None
      (CollectionSchedule.mk DAILY None None) None None in
  let s := Sim.start Sim.radarr_up_server in
  CollectionBuilder.trakt (Sim.builder false) = None
  /\ logged_only is_tmdb_fetch s
       (snd (_fetch_items (Sim.builder false) config MOVIE s)).
Proof.
  intros config s. split; [reflexivity|].
  exact (proj1 (without_trakt_client_only_tmdb_is_asked _ (Sim.builder false)
                  config MOVIE eq_refl) s).
Defined.

(** The three charts [_fetch_trakt_chart] knows. *)
Lemma trakt_chart_cases (chart : Any) :
  (Any_eqb chart (AStr "watched") = false
   /\ Any_eqb chart (AStr "trending") = false
   /\ Any_eqb chart (AStr "popular") = false)
  <-> chart <> AStr "watched" /\ chart <> AStr "trending"
      /\ chart <> AStr "popular".
Proof.
  assert (forall a, Any_eqb chart (AStr a) = false <-> chart <> AStr a) as H.
  { intros a. destruct chart as [n|c|]; simpl; try (split; [discriminate|done]).
    rewrite String.eqb_neq. split; [intros Hne [= ->]; done|congruence]. }
  by rewrite !H.
Qed.

(** X5: [_fetch_trakt_chart] makes at most one call, to Trakt; a chart name
    other than "watched", "trending" and "popular" gives the empty list
    without any call and without an error, and a chart configuration that
    names no chart is read as "watched". *)
Theorem trakt_chart_makes_at_most_one_call :
  forall W (self : CollectionBuilder.t W) chart_config media_type (s : State W),
    let result := _fetch_trakt_chart self chart_config media_type s in
    let chart := dict_get chart_config "chart" (AStr "watched") in
    (exists new,
        trace (snd result) = trace s ++ new
        /\ (length new <= 1)%nat
        /\ Forall (fun ev => exists method args,
                       fst ev = CallFetch "trakt" method args) new)
    /\ (chart <> AStr "watched" /\ chart <> AStr "trending"
        /\ chart <> AStr "popular" ->
        result = (Return [], s))
    /\ (forall trakt period limit,
           CollectionBuilder.trakt self = Some trakt ->
           (forall v, ("chart", v) ∉ chart_config) ->
           period = dict_get chart_config "time_period" (AStr "weekly") ->
           limit = dict_get chart_config "limit" (AInt 20) ->
           result
           = (if is_movie media_type
              then fetch "trakt" "get_watched_movies" [period; limit]
                     (TraktClient.get_watched_movies trakt period limit)
              else fetch "trakt" "get_watched_series" [period; limit]
                     (TraktClient.get_watched_series trakt period limit)) s).
Proof.
  intros W self chart_config media_type s result chart. subst result chart.
  split_and!.
  - unfold _fetch_trakt_chart, fetch.
    destruct (CollectionBuilder.trakt self) as [trakt|];
      [|exists []; simpl; rewrite app_nil_r; split_and!; [done|lia|constructor]].
    cbv zeta.
    repeat match goal with
           | |- context [if ?c then _ else _] => destruct c
           end;
      try (exists []; simpl; rewrite app_nil_r;
           split_and!; [done|lia|constructor]);
      unfold perform;
      match goal with
      | |- context [let '(_, _) := ?op (world s) in _] =>
          destruct (op (world s)) as [r w']
      end;
      simpl; eexists; (split_and!; [reflexivity|simpl; lia|]);
      repeat constructor; simpl; eauto.
  - intros Hchart. apply trakt_chart_cases in Hchart as (H1 & H2 & H3).
    unfold _fetch_trakt_chart.
    destruct (CollectionBuilder.trakt self) as [trakt|]; [|done].
    cbv zeta. by rewrite H1, H2, H3.
  - intros trakt period limit Htrakt Hnochart -> ->.
    unfold _fetch_trakt_chart. rewrite Htrakt. cbv zeta.
    assert (dict_get chart_config "chart" (AStr "watched") = AStr "watched")
      as ->; [|done].
    induction chart_config as [|[k v] rest IH]; [done|].
    cbn [dict_get]. destruct (String.eqb_spec "chart" k) as [<-|Hne].
    + exfalso. apply (Hnochart v). left.
    + apply IH. intros v' Hin. apply (Hnochart v'). by right.
Qed.

Lemma match_loop_spec {W} (self : CollectionBuilder.t W) library_id
    (items : list MediaItem.t) :
  forall (s s' : State W) collection_items,
    map_M (fun item =>
             lib_item <- perform (CallFindInLibrary item library_id) quiet
                           (MediaMatcher.find_in_library
                              (CollectionBuilder.matcher self) item library_id) ;;
             ret (CollectionItem.mk
                    (MediaItem.title item) (MediaItem.year item)
                    (MediaItem.tmdb_id item) (MediaItem.imdb_id item)
                    (MediaItem.tvdb_id item)
                    (LibraryItem.jellyfin_id <$> lib_item)
                    (is_not_None lib_item)
                    (is_not_None lib_item)))
      items s = (Return collection_items, s') ->
    Forall2 built_from items collection_items
    /\ trace s'
       = trace s
         ++ List.map (fun item => (CallFindInLibrary item library_id, Returned))
              items.
Proof.
  induction items as [|item rest IH]; intros s s' cis H.
  - injection H as <- <-. split; [constructor|]. simpl. by rewrite app_nil_r.
  - cbn [map_M] in H.
    apply bind_inv_Return in H as (ci & s1 & Hitem & H).
    apply bind_inv_Return in H as (cis' & s2 & Hrest & H).
    injection H as <- <-.
    apply bind_inv_Return in Hitem as (lib_item & s0 & Hfind & Hitem).
    apply perform_inv_Return in Hfind as (w' & _ & ->).
    injection Hitem as <- <-.
    destruct (IH _ _ _ Hrest) as (Hall & Htr). split.
    + constructor; [|done]. unfold built_from. cbn.
      split_and!; try done. by destruct lib_item.
    + rewrite Htr. cbn [trace List.map]. by rewrite <- app_assoc.
Qed.

Lemma built_from_tmdb_ids candidates items :
  Forall2 built_from candidates items ->
  List.map CollectionItem.tmdb_id items = List.map MediaItem.tmdb_id candidates.
Proof.
  induction 1 as [|c i cs its Hci _ IH]; [done|]. simpl.
  destruct Hci as (_ & _ & -> & _). by rewrite IH.
Qed.

Lemma _apply_filters_sublist items config :
  sublist (_apply_filters items config) items.
Proof.
  destruct (_apply_filters_prefix items config) as (rest & Hrest).
  etrans; [|apply filter_sublist_of]. rewrite Hrest.
  by apply sublist_inserts_r.
Qed.

Lemma slice_to_length {A} (l : list A) (n : Z) :
  0 <= n -> Z.of_nat (length (slice_to l n)) <= n.
Proof.
  intros Hn. unfold slice_to.
  destruct (Z.leb_spec 0 n); [|lia]. rewrite length_take. lia.
Qed.

(** X6: what [build_collection] returns. The collection carries the
    definition and the library name it was built for, and one item per
    candidate, in the order of the candidates, the candidates being the
    provider results after deduplication, filtering and truncation. Each
    item copies the title, the year and the three identifiers of its
    candidate and is flagged [matched] and [in_library] exactly when the
    matcher found it, which is when it has a library identifier. The
    matcher is asked once per candidate, in order, after all the provider
    calls. No two items share a TMDb identifier, every item carries one, and
    a positive limit bounds the number of items. *)
Theorem build_collection_matches_each_candidate :
  forall W (self : CollectionBuilder.t W) config library_name library_id
    media_type (s s' : State W) collection,
    build_collection self config library_name library_id media_type s
    = (Return collection, s') ->
    exists sources s1,
      _fetch_sources self config media_type s = (Return sources, s1)
      /\ let candidates := _apply_filters (deduplicate sources) config in
         Collection.config collection = config
         /\ Collection.library_name collection = library_name
         /\ Forall2 built_from candidates (Collection.items collection)
         /\ trace s'
            = trace s1
              ++ List.map
                   (fun item => (CallFindInLibrary item library_id, Returned))
                   candidates
         /\ NoDup (List.map CollectionItem.tmdb_id (Collection.items collection))
         /\ Forall (fun item => truthy (CollectionItem.tmdb_id item) = true)
              (Collection.items collection)
         /\ (forall n, CollectionConfig.limit config = Some n -> 0 < n ->
                       Z.of_nat (length (Collection.items collection)) <= n).
Proof.
  intros W self config library_name library_id media_type s s' collection H.
  unfold build_collection, _fetch_items in H.
  apply bind_inv_Return in H as (items & s1 & Hfetch & H).
  apply bind_inv_Return in Hfetch as (sources & s0 & Hsources & Hdedup).
  injection Hdedup as <- <-.
  cbv zeta in H. apply bind_inv_Return in H as (cis & s2 & Hloop & H).
  injection H as <- <-.
  apply match_loop_spec in Hloop as (Hall & Htr).
  exists sources, s0. split; [done|]. cbv zeta. cbn [Collection.config
    Collection.library_name Collection.items].
  pose proof (_apply_filters_sublist (deduplicate sources) config) as Hsub.
  split_and!; try done.
  - rewrite (built_from_tmdb_ids _ _ Hall).
    eapply sublist_NoDup; [apply deduplicate_NoDup|].
    change (List.map MediaItem.tmdb_id ?l) with (MediaItem.tmdb_id <$> l).
    by apply fmap_sublist.
  - assert (Forall (fun c => truthy (MediaItem.tmdb_id c) = true)
              (_apply_filters (deduplicate sources) config)) as Hc.
    { apply Forall_forall. intros c Hin.
      pose proof (deduplicate_carries sources) as Hd.
      rewrite Forall_forall in Hd. apply Hd.
      by eapply elem_of_sublist. }
    clear -Hall Hc. induction Hall as [|c i cs its Hci _ IH]; [constructor|].
    inversion Hc as [|? ? Hhd Htl]; subst. constructor; [|by apply IH].
    destruct Hci as (_ & _ & -> & _). done.
  - intros n Hlimit Hn.
    rewrite <- (Forall2_length _ _ _ Hall).
    unfold _apply_filters. rewrite Hlimit. cbv zeta.
    assert (truthy n = true) as -> by (apply truthy_Z_true; lia).
    apply slice_to_length. lia.
Qed.

Lemma build_collection_matches_each_candidate_witness :
  let s := Sim.start Sim.radarr_up_server in
  let result :=
    build_collection (Sim.builder false) (Sim.popular "Top" 2) "Movies" "lib-1"
      MOVIE s in
  let collection := value_of Sim.top_collection (fst result) in
  result = (Return collection, snd result)
  /\ List.map CollectionItem.matched (Collection.items collection)
     = [true; false]
  /\ NoDup (List.map CollectionItem.tmdb_id (Collection.items collection)).
Proof.
  intros s result collection.
  assert (result = (Return collection, snd result)) as H
    by (vm_compute; reflexivity).
  split; [exact H|]. split; [vm_compute; reflexivity|].
  destruct (build_collection_matches_each_candidate _ _ _ _ _ _ _ _ _ H)
    as (sources & s1 & _ & _ & _ & _ & _ & Hnodup & _).
  exact Hnodup.
Defined.

(** ** Synchronising a collection *)

(** X7: which collection a synchronisation works on. After listing the
    collections of the server, the engine takes the first one whose name is
    the name of the definition and creates none; only when there is none
    does it create one, once, and take the identifier the server answers.
    Every later call that names a collection (reading the membership,
    adding, removing, updating the metadata) names that one, whether the
    synchronisation returns or raises. *)
Theorem sync_works_on_the_collection_of_that_name :
  forall W (self : CollectionBuilder.t W) collection add_missing_to_arr
    (s : State W) collections w1,
    CollectionBuilder.dry_run self = false ->
    JellyfinClient.get_collections (CollectionBuilder.jellyfin self) (world s)
    = (Return collections, w1) ->
    let name := CollectionConfig.name (Collection.config collection) in
    let result := sync_collection self collection add_missing_to_arr s in
    (forall existing,
        List.find (fun c => String.eqb (BoxSet.Name c) name) collections
        = Some existing ->
        exists new,
          trace (snd result) = trace s ++ (CallGetCollections, Returned) :: new
          /\ Forall (fun ev => within (BoxSet.Id existing) (fst ev) = true) new)
    /\ (List.find (fun c => String.eqb (BoxSet.Name c) name) collections = None ->
        forall id w2,
          JellyfinClient.create_collection (CollectionBuilder.jellyfin self)
            name w1 = (Return id, w2) ->
          exists new,
            trace (snd result)
            = trace s ++ (CallGetCollections, Returned)
                :: (CallCreateCollection name, Returned) :: new
            /\ Forall (fun ev => within id (fst ev) = true) new).
Proof.
  intros W self collection flag s collections w1 Hdry Hget name result.
  subst result name.
  assert (perform CallGetCollections quiet
            (JellyfinClient.get_collections (CollectionBuilder.jellyfin self)) s
          = (Return collections,
             mkState w1 (trace s ++ [(CallGetCollections, Returned)]) (stats s)))
    as Hperform by (unfold perform; by rewrite Hget).
  unfold sync_collection, _add_missing_to_arr, _add_missing_item.
  rewrite Hdry. cbv zeta. rewrite (bind_Return _ _ _ _ _ Hperform).
  split.
  - intros existing ->. unfold bind at 1. unfold ret at 1.
    match goal with
    | |- context [snd (?m ?s1)] =>
        assert (logs_only (within (BoxSet.Id existing)) m) as Hm;
          [|destruct (Hm s1) as (new & Htr & Hall)]
    end.
    { logs_with ltac:(first [reflexivity | simpl; apply String.eqb_refl]). }
    exists new. split; [|done]. rewrite Htr. cbn [trace].
    by rewrite <- app_assoc.
  - intros -> id w2 Hcreate.
    match goal with
    | |- context [bind (perform ?c ?sh ?op) _ ?st] =>
        assert (perform c sh op st
                = (Return id,
                   mkState w2 (trace st ++ [(c, Returned)]) (stats st)))
          as Hperform2 by (unfold perform; cbn [world]; by rewrite Hcreate)
    end.
    rewrite (bind_Return _ _ _ _ _ Hperform2). cbn [trace stats].
    rewrite <- app_assoc. cbn [app].
    match goal with
    | |- context [snd (?m ?s1)] =>
        assert (logs_only (within id) m) as Hm;
          [|destruct (Hm s1) as (new & Htr & Hall)]
    end.
    { logs_with ltac:(first [reflexivity | simpl; apply String.eqb_refl]). }
    exists new. split; [|done]. rewrite Htr. cbn [trace].
    by rewrite <- app_assoc.
Qed.

Lemma sync_works_on_the_collection_of_that_name_witness :
  let s := Sim.start Sim.scenario_B_server in
  let result := sync_collection (Sim.builder false) Sim.scenario_B_collection
                  true s in
  exists new,
    trace (snd result) = trace s ++ (CallGetCollections, Returned) :: new
    /\ Forall (fun ev => within "top-id" (fst ev) = true) new.
Proof.
  intros s result.
  assert (JellyfinClient.get_collections
            (CollectionBuilder.jellyfin (Sim.builder false)) (world s)
          = (Return [BoxSet.mk "top-id" "Top"], world s)) as Hget
    by (vm_compute; reflexivity).
  exact (proj1 (sync_works_on_the_collection_of_that_name _ (Sim.builder false)
                  Sim.scenario_B_collection true s _ _ eq_refl Hget)
           (BoxSet.mk "top-id" "Top") eq_refl).
Defined.

Lemma add_missing_to_arr_tags {W} (self : CollectionBuilder.t W) collection :
  logs_only (is_request_with (dispatch_tags (Collection.config collection)))
    (_add_missing_to_arr self collection).
Proof.
  unfold _add_missing_to_arr, _add_missing_item, dispatch_tags.
  logs_with ltac:(simpl; by apply bool_decide_eq_true).
Qed.

(** X8: one tag for both managers. Every request of a dispatch carries the
    same tags, chosen without looking at the kind of the collection: the
    Radarr tag of the definition when it is set and not empty, also on
    requests to Sonarr; otherwise the Sonarr tag, also on requests to
    Radarr; and no tag list at all when neither is set. *)
Theorem dispatch_tag_ignores_the_kind :
  forall W (self : CollectionBuilder.t W) collection,
    let config := Collection.config collection in
    (forall tag,
        CollectionConfig.item_radarr_tag config = Some tag -> tag <> "" ->
        logs_only (is_request_with (Some [tag]))
          (_add_missing_to_arr self collection))
    /\ (forall tag,
           truthy (CollectionConfig.item_radarr_tag config) = false ->
           CollectionConfig.item_sonarr_tag config = Some tag -> tag <> "" ->
           logs_only (is_request_with (Some [tag]))
             (_add_missing_to_arr self collection))
    /\ (truthy (CollectionConfig.item_radarr_tag config) = false ->
        truthy (CollectionConfig.item_sonarr_tag config) = false ->
        logs_only (is_request_with None) (_add_missing_to_arr self collection)).
Proof.
  intros W self collection config. subst config.
  pose proof (add_missing_to_arr_tags self collection) as H.
  unfold dispatch_tags, or_else in H. split_and!.
  - intros tag Hr Hne. rewrite Hr in H. rewrite truthy_Some in H.
    apply truthy_string_true in Hne. rewrite Hne in H.
    rewrite truthy_Some, Hne in H. exact H.
  - intros tag Hr Hs Hne. rewrite Hr, Hs in H. rewrite truthy_Some in H.
    apply truthy_string_true in Hne. rewrite Hne in H. exact H.
  - intros Hr Hs. rewrite Hr in H. by rewrite Hs in H.
Qed.

Lemma dispatch_tag_ignores_the_kind_witness :
  let s := Sim.start Sim.radarr_up_server in
  let result := _add_missing_to_arr (Sim.builder false) tagged_shows s in
  calls_of (trace (snd result))
  = [CallAddSeries 371980 (Some ["films"]); CallAddSeries 334824 (Some ["films"])]
  /\ logged_only (is_request_with (Some ["films"])) s (snd result).
Proof.
  intros s result. split; [vm_compute; reflexivity|].
  assert ("films" <> "") as Hne by discriminate.
  exact (proj1 (dispatch_tag_ignores_the_kind _ (Sim.builder false)
                  tagged_shows) "films" eq_refl Hne s).
Defined.

(** ** Run orchestrator: notifications and statistics *)

Lemma send_collection_changes_nothing {W} (self : DiscordWebhook.t W)
    collection_name library w :
  exists b,
    DiscordWebhook.send_collection_changes self collection_name library [] [] w
    = (Return b, w).
Proof.
  unfold DiscordWebhook.send_collection_changes.
  destruct (DiscordWebhook._get_url self "changes") as [url|]; [|by exists false].
  destruct (negb (truthy url)); [by exists false|by exists true].
Qed.

(** X9: a synchronisation that only removed items is announced with two
    empty lists, because the removed titles are not tracked and the added
    titles are cut to the number of additions, which is zero; and the
    notifier posts nothing for two empty lists. So the webhook is not
    called, the world is as the synchronisation left it, and the collection
    is counted as updated with its removals. *)
Theorem removal_only_change_is_not_posted :
  forall W (self : Runner.t W) config library_name library_id media_type
    (s s0 s1 : State W) collection removed,
    build_collection (Runner.builder self) config library_name library_id
      media_type s = (Return collection, s0) ->
    sync_collection (Runner.builder self) collection true s0
    = (Return (0, removed), s1) ->
    0 < removed ->
    process_collection self config library_name library_id media_type s
    = (Return tt,
       mkState (world s1)
         (trace s1
          ++ [(CallSendCollectionChanges (CollectionConfig.name config)
                 library_name [] [], Returned)])
         (add_updated 0 removed (stats s1))).
Proof.
  intros W self config library_name library_id media_type s s0 s1 collection
    removed Hbuild Hsync Hpos.
  unfold process_collection.
  rewrite (bind_Return _ _ _ _ _ Hbuild), (bind_Return _ _ _ _ _ Hsync).
  cbn [fst snd]. unfold bind at 1. unfold update_stats at 1.
  assert ((0 <? 0) || (0 <? removed) = true) as ->
      by (apply orb_true_iff; right; lia).
  change (slice_to _ 0) with (@nil string).
  unfold bind, perform. cbn [world trace stats].
  destruct (send_collection_changes_nothing (Runner.discord self)
              (CollectionConfig.name config) library_name (world s1))
    as (b & ->).
  reflexivity.
Qed.

Lemma removal_only_change_is_not_posted_witness :
  let self := Sim.runner [] false in
  let s := Sim.start removal_only_server in
  let result := process_collection self (Sim.popular "Top" 1) "Movies" "lib-1"
                  MOVIE s in
  fst result = Return tt
  /\ stats (snd result) = Stats.mk 1 0 1 0
  /\ last (trace (snd result))
     = Some (CallSendCollectionChanges "Top" "Movies" [] [], Returned).
Proof.
  intros self s result.
  pose (built := build_collection (Runner.builder self) (Sim.popular "Top" 1)
                   "Movies" "lib-1" MOVIE s).
  pose (collection := value_of Sim.top_collection (fst built)).
  pose (synced := sync_collection (Runner.builder self) collection true
                    (snd built)).
  assert (build_collection (Runner.builder self) (Sim.popular "Top" 1)
            "Movies" "lib-1" MOVIE s = (Return collection, snd built)) as Hbuild
    by (vm_compute; reflexivity).
  assert (sync_collection (Runner.builder self) collection true (snd built)
          = (Return (0, 1), snd synced)) as Hsync
    by (vm_compute; reflexivity).
  assert (0 < 1) as Hpos by lia.
  pose proof (removal_only_change_is_not_posted _ self _ _ _ _ _ _ _ _ _
                Hbuild Hsync Hpos) as H.
  fold result in H. rewrite H. cbn [fst snd stats trace].
  split; [reflexivity|]. split; [vm_compute; reflexivity|].
  apply last_snoc.
Defined.

Lemma library_id_map_lookup_None (jellyfin_libraries : list Library.t)
    (m : gmap string string) (name : string) :
  fold_left (fun m lib => <[Library.Name lib := Library.ItemId lib]> m)
    jellyfin_libraries m !! name = None
  <-> m !! name = None
      /\ Forall (fun lib => Library.Name lib <> name) jellyfin_libraries.
Proof.
  revert m. induction jellyfin_libraries as [|lib rest IH]; intros m; simpl.
  - split; [intros H; split; [done|constructor]|by intros [H _]].
  - rewrite IH, lookup_insert_None, Forall_cons. tauto.
Qed.

Lemma library_id_map_last (jellyfin_libraries : list Library.t)
    (lib : Library.t) :
  library_id_map_of (jellyfin_libraries ++ [lib]) !! Library.Name lib
  = Some (Library.ItemId lib).
Proof.
  unfold library_id_map_of. rewrite fold_left_app. simpl.
  apply lookup_insert_eq.
Qed.

(** X10: a configured library that Jellyfin does not list costs the run one
    error and nothing else: none of its collections is looked at, no call is
    made and nothing but the error counter changes. The same happens when
    the library is listed with an empty identifier. When Jellyfin lists a
    name more than once, the identifier of the last entry is the one that
    counts. *)
Theorem unknown_library_costs_one_error :
  forall W (self : Runner.t W) collections scheduled jellyfin_libraries
    library_name collection_configs (s : State W),
    (Forall (fun lib => Library.Name lib <> library_name) jellyfin_libraries ->
     run_library self collections scheduled
       (library_id_map_of jellyfin_libraries)
       (library_name, collection_configs) s
     = (Return tt, mkState (world s) (trace s) (add_error (stats s))))
    /\ run_library self collections scheduled
         (library_id_map_of (jellyfin_libraries ++ [Library.mk library_name ""]))
         (library_name, collection_configs) s
       = (Return tt, mkState (world s) (trace s) (add_error (stats s)))
    /\ forall lib,
        library_id_map_of (jellyfin_libraries ++ [lib]) !! Library.Name lib
        = Some (Library.ItemId lib).
Proof.
  intros W self collections scheduled libs name configs s. split_and!.
  - intros Hnone. unfold run_library. cbn [fst snd].
    assert (library_id_map_of libs !! name = None) as ->; [|done].
    apply library_id_map_lookup_None. by split.
  - unfold run_library. cbn [fst snd].
    pose proof (library_id_map_last libs (Library.mk name "")) as Hlast.
    cbn [Library.Name Library.ItemId] in Hlast. by rewrite Hlast.
  - apply library_id_map_last.
Qed.

Lemma unknown_library_costs_one_error_witness :
  let s := Sim.start Sim.scenario_E_server in
  Forall (fun lib => Library.Name lib <> "Shows")
    (Sim.libraries Sim.scenario_E_server)
  /\ run_library (Sim.runner [] false) None false
       (library_id_map_of (Sim.libraries Sim.scenario_E_server))
       ("Shows", [Sim.popular "A" 1]) s
     = (Return tt, mkState (world s) (trace s) (add_error (stats s))).
Proof.
  intros s.
  assert (Forall (fun lib => Library.Name lib <> "Shows")
            (Sim.libraries Sim.scenario_E_server)) as H
    by (repeat constructor; discriminate).
  split; [exact H|].
  exact (proj1 (unknown_library_costs_one_error _ (Sim.runner [] false) None
                  false _ "Shows" [Sim.popular "A" 1] s) H).
Defined.

Lemma run_config_preserves {W} (R : State W -> State W -> Prop)
    (self : Runner.t W) collections scheduled library_name library_id
    media_type config :
  (forall s, R s s) -> (forall s1 s2 s3, R s1 s2 -> R s2 s3 -> R s1 s3) ->
  preserves R (process_collection self config library_name library_id
                 media_type) ->
  (forall e, preserves R (handle_collection_error self config e)) ->
  preserves R (run_config self collections scheduled library_name library_id
                 media_type config).
Proof.
  intros Hrefl Htrans Hbody Hhandler s. unfold run_config.
  destruct (negb (selected collections config)); [apply Hrefl|].
  destruct (negb (due self scheduled config s)); [apply Hrefl|].
  by apply preserves_try_except.
Qed.

Lemma run_library_logs {W} (self : Runner.t W) collections scheduled
    library_id_map entry :
  logs_only (fun c => negb (is_run_frame c))
    (run_library self collections scheduled library_id_map entry).
Proof.
  unfold run_library. cbv zeta. unfold logs_only.
  destruct (negb _); [apply logs_update_stats|].
  apply preserves_for_each;
    [exact (logged_only_refl _)|exact (logged_only_trans _)|].
  intros config. apply run_config_preserves;
    [exact (logged_only_refl _)|exact (logged_only_trans _)| |].
  - unfold process_collection.
    apply preserves_bind; [exact (logged_only_trans _)| |].
    { eapply logs_only_weaken; [|apply build_collection_logs].
      by intros []. }
    intros collection.
    apply preserves_bind; [exact (logged_only_trans _)| |].
    { unfold sync_collection, _add_missing_to_arr, _add_missing_item. logs. }
    intros result. logs.
  - intros e. unfold handle_collection_error. logs.
Qed.

(** X11: what a run that returns has done. It read the definitions, sent the
    start notification with the names of the libraries it is going to
    process (only names that were asked for, when a selection is given),
    and read the libraries of the server, in this order; it sent the end
    notification last, with exactly the statistics it returns; and it made
    none of these four calls in between. *)
Theorem run_reports_what_it_returns :
  forall W (self : Runner.t W) libraries collections scheduled
    (s s' : State W) st,
    run self libraries collections scheduled s = (Return st, s') ->
    st = stats s'
    /\ exists library_names middle,
        trace s'
        = trace s
          ++ [(CallGetAllCollections, Returned);
              (CallSendRunStart library_names scheduled, Returned);
              (CallGetLibraries, Returned)]
          ++ middle
          ++ [(CallSendRunEnd (Stats.collections_updated st)
                 (Stats.items_added st) (Stats.items_removed st)
                 (Stats.errors st), Returned)]
        /\ Forall (fun ev => is_run_frame (fst ev) = false) middle
        /\ (truthy libraries = true ->
            Forall (fun name => name ∈ default [] libraries) library_names).
Proof.
  intros W self libraries collections scheduled s s' st H.
  unfold run in H.
  apply bind_inv_Return in H as ([] & s0 & Hzero & H).
  injection Hzero as <-.
  apply bind_inv_Return in H as (all_collections & s1 & Hparse & H).
  apply perform_inv_Return in Hparse as (w1 & _ & ->).
  cbv zeta in H.
  apply bind_inv_Return in H as (ok & s2 & Hstart & H).
  apply perform_inv_Return in Hstart as (w2 & _ & ->).
  apply bind_inv_Return in H as (jellyfin_libraries & s3 & Hlibs & H).
  apply perform_inv_Return in Hlibs as (w3 & _ & ->).
  apply bind_inv_Return in H as ([] & s4 & Hloop & H).
  apply bind_inv_Return in H as (st' & s5 & Hstats & H).
  injection Hstats as <- <-.
  apply bind_inv_Return in H as (ok' & s6 & Hend & H).
  apply perform_inv_Return in Hend as (w6 & _ & ->).
  injection H as <- <-. split; [done|].
  match type of Hloop with
  | for_each ?l ?body ?s3 = _ =>
      assert (logs_only (fun c => negb (is_run_frame c)) (for_each l body))
        as Hlogs;
        [|destruct (Hlogs s3) as (middle & Htr & Hall)]
  end.
  { apply preserves_for_each;
      [exact (logged_only_refl _)|exact (logged_only_trans _)|].
    intros entry. apply run_library_logs. }
  rewrite Hloop in Htr. cbn [snd trace] in Htr.
  eexists _, middle. cbn [trace stats]. split_and!.
  - rewrite Htr. by rewrite <- !app_assoc.
  - eapply Forall_impl; [exact Hall|]. intros ev Hev.
    by apply negb_true_iff.
  - intros Hsel. rewrite Hsel. apply Forall_forall. intros name Hin.
    apply list_elem_of_In, in_map_iff in Hin as (kv & <- & Hin).
    apply filter_In in Hin as (_ & Hin). by apply bool_decide_eq_true in Hin.
Qed.

Lemma run_reports_what_it_returns_witness :
  let self := Sim.runner Sim.scenario_E_configs false in
  let s := Sim.start Sim.scenario_E_server in
  let result := run self None None false s in
  fst result = Return (Stats.mk 2 2 0 1)
  /\ last (trace (snd result)) = Some (CallSendRunEnd 2 2 0 1, Returned).
Proof.
  intros self s result.
  assert (result = (Return (Stats.mk 2 2 0 1), snd result)) as H
    by (vm_compute; reflexivity).
  split; [by rewrite H|].
  destruct (run_reports_what_it_returns _ self None None false s _ _ H)
    as (_ & names & middle & Htr & _).
  rewrite Htr, !app_assoc. apply last_snoc.
Defined.

(** ** Dry run *)

Lemma same_item_counts_refl {W} (s : State W) : same_item_counts s s.
Proof. by split. Qed.

Lemma same_item_counts_trans {W} (s1 s2 s3 : State W) :
  same_item_counts s1 s2 -> same_item_counts s2 s3 -> same_item_counts s1 s3.
Proof. intros [H1 H2] [H3 H4]. split; congruence. Qed.

Lemma quiet_keeps_item_counts {W A} (m : M (State W) A) :
  quiet_on_stats m -> preserves same_item_counts m.
Proof. intros H s. destruct (H s) as [Hst _]. split; by rewrite Hst. Qed.

Lemma sync_collection_dry {W} (self : CollectionBuilder.t W) collection flag s :
  CollectionBuilder.dry_run self = true ->
  sync_collection self collection flag s = (Return (0, 0), s).
Proof. intros H. unfold sync_collection. by rewrite H. Qed.

Lemma process_collection_dry {W} (self : Runner.t W) config library_name
    library_id media_type s :
  CollectionBuilder.dry_run (Runner.builder self) = true ->
  process_collection self config library_name library_id media_type s
  = (build_collection (Runner.builder self) config library_name library_id
       media_type ;;;
     update_stats (add_updated 0 0)) s.
Proof.
  intros Hdry. unfold process_collection. apply bind_ext.
  intros collection s1.
  rewrite (bind_Return _ _ _ _ _
             (sync_collection_dry _ collection true s1 Hdry)).
  cbn [fst snd]. unfold bind, update_stats. simpl. done.
Qed.

Lemma process_collection_dry_spec {W} (self : Runner.t W) config library_name
    library_id media_type :
  CollectionBuilder.dry_run (Runner.builder self) = true ->
  logs_only is_dry_call
    (process_collection self config library_name library_id media_type)
  /\ preserves same_item_counts
       (process_collection self config library_name library_id media_type).
Proof.
  intros Hdry. split; intros s; rewrite (process_collection_dry _ _ _ _ _ _ Hdry).
  - revert s. apply preserves_bind; [exact (logged_only_trans _)| |].
    + eapply logs_only_weaken; [|apply build_collection_logs]. by intros [].
    + intros _. apply logs_update_stats.
  - revert s. apply preserves_bind; [exact same_item_counts_trans| |].
    + apply quiet_keeps_item_counts, quiet_build_collection.
    + intros _ s. split; simpl; lia.
Qed.

Lemma handle_collection_error_dry_spec {W} (self : Runner.t W) config e :
  logs_only is_dry_call (handle_collection_error self config e)
  /\ preserves same_item_counts (handle_collection_error self config e).
Proof.
  unfold handle_collection_error. split; [logs|].
  apply preserves_bind; [exact same_item_counts_trans| |].
  - by intros s.
  - intros _. apply quiet_keeps_item_counts. quiet.
Qed.

Lemma run_library_dry_spec {W} (self : Runner.t W) collections scheduled
    library_id_map entry :
  CollectionBuilder.dry_run (Runner.builder self) = true ->
  logs_only is_dry_call
    (run_library self collections scheduled library_id_map entry)
  /\ preserves same_item_counts
       (run_library self collections scheduled library_id_map entry).
Proof.
  intros Hdry. unfold run_library. cbv zeta. unfold logs_only.
  destruct (negb _); [split; [apply logs_update_stats|by intros s]|].
  split.
  - apply preserves_for_each;
      [exact (logged_only_refl _)|exact (logged_only_trans _)|].
    intros config. apply run_config_preserves;
      [exact (logged_only_refl _)|exact (logged_only_trans _)| |].
    + by apply process_collection_dry_spec.
    + intros e. apply handle_collection_error_dry_spec.
  - apply preserves_for_each;
      [exact same_item_counts_refl|exact same_item_counts_trans|].
    intros config. apply run_config_preserves;
      [exact same_item_counts_refl|exact same_item_counts_trans| |].
    + by apply process_collection_dry_spec.
    + intros e. apply handle_collection_error_dry_spec.
Qed.

(** X12: a whole run in dry-run mode. It reads the definitions and the
    libraries, asks the providers and the matcher, and sends the start, end
    and error notifications; it never reads or writes a collection of the
    server, never asks an acquisition manager for a title and never sends a
    change notification. The statistics it returns report no addition and
    no removal, yet every collection that could be built is counted as
    updated. *)
Theorem dry_run_of_a_whole_run :
  forall W (self : Runner.t W) libraries collections scheduled,
    CollectionBuilder.dry_run (Runner.builder self) = true ->
    logs_only is_dry_call (run self libraries collections scheduled)
    /\ (forall s st s',
           run self libraries collections scheduled s = (Return st, s') ->
           Stats.items_added st = 0 /\ Stats.items_removed st = 0)
    /\ (forall config library_name library_id media_type s collection s0,
           build_collection (Runner.builder self) config library_name
             library_id media_type s = (Return collection, s0) ->
           process_collection self config library_name library_id media_type s
           = (Return tt,
              mkState (world s0) (trace s0) (add_updated 0 0 (stats s0)))).
Proof.
  intros W self libraries collections scheduled Hdry. split_and!.
  - unfold run, logs_only.
    apply preserves_bind; [exact (logged_only_trans _)| |];
      [apply logs_update_stats|intros _].
    apply preserves_bind; [exact (logged_only_trans _)| |];
      [apply logs_perform; reflexivity|intros all_collections].
    cbv zeta.
    apply preserves_bind; [exact (logged_only_trans _)| |];
      [apply logs_perform; reflexivity|intros _].
    apply preserves_bind; [exact (logged_only_trans _)| |];
      [apply logs_perform; reflexivity|intros jellyfin_libraries].
    apply preserves_bind; [exact (logged_only_trans _)| |].
    { apply preserves_for_each;
        [exact (logged_only_refl _)|exact (logged_only_trans _)|].
      intros entry. by apply run_library_dry_spec. }
    intros _. logs.
  - intros s st s' H. unfold run in H.
    apply bind_inv_Return in H as ([] & s0 & Hzero & H).
    injection Hzero as <-.
    apply bind_inv_Return in H as (all_collections & s1 & Hparse & H).
    apply perform_inv_Return in Hparse as (w1 & _ & ->).
    cbv zeta in H.
    apply bind_inv_Return in H as (ok & s2 & Hstart & H).
    apply perform_inv_Return in Hstart as (w2 & _ & ->).
    apply bind_inv_Return in H as (jellyfin_libraries & s3 & Hlibs & H).
    apply perform_inv_Return in Hlibs as (w3 & _ & ->).
    apply bind_inv_Return in H as ([] & s4 & Hloop & H).
    apply bind_inv_Return in H as (st' & s5 & Hstats & H).
    injection Hstats as <- <-.
    apply bind_inv_Return in H as (ok' & s6 & Hend & H).
    apply perform_inv_Return in Hend as (w6 & _ & ->).
    injection H as <- <-. cbn [stats].
    match type of Hloop with
    | for_each ?l ?body ?s3 = _ =>
        assert (preserves same_item_counts (for_each l body)) as Hkeeps;
          [|pose proof (Hkeeps s3) as Hcounts]
    end.
    { apply preserves_for_each;
        [exact same_item_counts_refl|exact same_item_counts_trans|].
      intros entry. by apply run_library_dry_spec. }
    rewrite Hloop in Hcounts. exact Hcounts.
  - intros config library_name library_id media_type s collection s0 Hbuild.
    rewrite (process_collection_dry _ _ _ _ _ _ Hdry).
    by rewrite (bind_Return _ _ _ _ _ Hbuild).
Qed.

Lemma dry_run_of_a_whole_run_witness :
  let self := Sim.runner Sim.scenario_E_configs true in
  let s := Sim.start Sim.scenario_E_server in
  let result := run self None None false s in
  fst result = Return (Stats.mk 3 0 0 0)
  /\ logged_only is_dry_call s (snd result).
Proof.
  intros self s result. split; [vm_compute; reflexivity|].
  exact (proj1 (dry_run_of_a_whole_run _ self None None false eq_refl) s).
Defined.

(** ** The Radarr client: cached identifiers *)

Lemma find_tag_spec {H} (tags : list Json) (name : string) :
  forall (s : Radarr.State H),
    match Radarr.find_tag tags name s with
    | (Return (Some id), s1) =>
        s1 = Radarr.mkState (Radarr.server s) (Radarr._quality_profile_id s) id
               (Radarr.sent s)
    | (_, s1) => s1 = s
    end.
Proof.
  induction tags as [|tag rest IH]; intros s; [done|].
  cbn [Radarr.find_tag]. unfold bind, lift_result.
  destruct (getitem tag "label") as [label|e]; [|done].
  destruct (lower_of label) as [lowered|e]; [|done].
  destruct (String.eqb lowered (lower name)); [|apply IH].
  by destruct (getitem tag "id") as [id|e].
Qed.

Lemma find_quality_profile_spec {H} (profiles : list Json) (name : string) :
  forall (s : Radarr.State H),
    match Radarr.find_quality_profile profiles name s with
    | (Return id, s1) =>
        (id = JNull /\ s1 = s)
        \/ s1 = Radarr.mkState (Radarr.server s) id (Radarr._tag_id s)
                  (Radarr.sent s)
    | (Raise _, s1) => s1 = s
    end.
Proof.
  induction profiles as [|profile rest IH]; intros s; [by left|].
  cbn [Radarr.find_quality_profile]. unfold bind, lift_result.
  destruct (getitem profile "name") as [profile_name|e]; [|done].
  destruct (lower_of profile_name) as [lowered|e]; [|done].
  destruct (String.eqb lowered (lower name)); [|apply IH].
  destruct (getitem profile "id") as [id|e]; [|done]. by right.
Qed.

Lemma get_or_create_tag_caches {H} (self : Radarr.t H) name s id s1 :
  Radarr.get_or_create_tag self name s = (Return id, s1) ->
  Radarr._tag_id s1 = id.
Proof.
  unfold Radarr.get_or_create_tag.
  destruct (truthy (Radarr._tag_id s)); [by intros [= <- <-]|].
  intros Hrun.
  apply bind_inv_Return in Hrun as (tags & s2 & _ & Hrun).
  apply bind_inv_Return in Hrun as (tag_list & s3 & _ & Hrun).
  apply bind_inv_Return in Hrun as (found & s4 & Hfind & Hrun).
  destruct found as [id'|].
  - injection Hrun as <- <-.
    pose proof (find_tag_spec tag_list name s3) as Hspec.
    rewrite Hfind in Hspec. by rewrite Hspec.
  - apply bind_inv_Return in Hrun as (response & s5 & _ & Hrun).
    apply bind_inv_Return in Hrun as ([] & s6 & _ & Hrun).
    apply bind_inv_Return in Hrun as (body & s7 & _ & Hrun).
    apply bind_inv_Return in Hrun as (tag_id & s8 & _ & Hrun).
    apply bind_inv_Return in Hrun as ([] & s9 & Hset & Hrun).
    injection Hrun as <- <-. by injection Hset as <-.
Qed.

Lemma get_or_create_tag_cached {H} (self : Radarr.t H) name s :
  truthy (Radarr._tag_id s) = true ->
  Radarr.get_or_create_tag self name s = (Return (Radarr._tag_id s), s).
Proof. intros Hc. unfold Radarr.get_or_create_tag. by rewrite Hc. Qed.

Lemma get_quality_profile_id_caches {H} (self : Radarr.t H) name s id s1 :
  Radarr.get_quality_profile_id self name s = (Return id, s1) ->
  truthy id = true ->
  Radarr._quality_profile_id s1 = id.
Proof.
  unfold Radarr.get_quality_profile_id.
  destruct (truthy (Radarr._quality_profile_id s)); [by intros [= <- <-]|].
  intros Hrun Hid.
  apply bind_inv_Return in Hrun as (profiles & s2 & _ & Hrun).
  apply bind_inv_Return in Hrun as (profile_list & s3 & _ & Hrun).
  pose proof (find_quality_profile_spec profile_list name s3) as Hspec.
  rewrite Hrun in Hspec. destruct Hspec as [[-> _] | ->]; [done|done].
Qed.

(** X13: the identifiers cached on the Radarr client do not remember the
    name they were looked up for. Once [get_or_create_tag] has returned an
    identifier that is not zero, every later call returns that identifier
    without a request, whatever tag name it is given: the tag names of one
    title all resolve to the first one's identifier, and so do the tags of
    every title after it. Likewise [get_quality_profile_id] answers every
    later profile name with the first identifier it found. *)
Theorem cached_identifiers_ignore_the_name :
  forall H (self : Radarr.t H) name (s s1 : Radarr.State H) id,
    truthy id = true ->
    (Radarr.get_or_create_tag self name s = (Return id, s1) ->
     forall names,
       map_M (Radarr.get_or_create_tag self) names s1
       = (Return (replicate (length names) id), s1))
    /\ (Radarr.get_quality_profile_id self name s = (Return id, s1) ->
        forall other,
          Radarr.get_quality_profile_id self other s1 = (Return id, s1)).
Proof.
  intros H self name s s1 id Hid. split.
  - intros Hrun names. apply get_or_create_tag_caches in Hrun.
    induction names as [|other rest IH]; [done|].
    cbn [map_M length replicate].
    assert (Radarr.get_or_create_tag self other s1 = (Return id, s1)) as Hc.
    { pose proof (get_or_create_tag_cached self other s1) as Hc.
      rewrite Hrun in Hc. by apply Hc. }
    rewrite (bind_Return _ _ _ _ _ Hc), (bind_Return _ _ _ _ _ IH). done.
  - intros Hrun other.
    apply get_quality_profile_id_caches in Hrun; [|done].
    unfold Radarr.get_quality_profile_id. by rewrite Hrun, Hid.
Qed.

Lemma cached_identifiers_ignore_the_name_witness :
  let s := Radarr.connect Arr.fresh in
  let first := Radarr.get_or_create_tag Arr.radarr "jfc" s in
  fst first = Return (JInt 7)
  /\ map_M (Radarr.get_or_create_tag Arr.radarr) ["trending"; "oscars"]
       (snd first)
     = (Return [JInt 7; JInt 7], snd first).
Proof.
  intros s first.
  assert (Radarr.get_or_create_tag Arr.radarr "jfc" s
          = (Return (JInt 7), snd first)) as Hrun by (vm_compute; reflexivity).
  split; [exact (f_equal fst Hrun)|].
  exact (proj1 (cached_identifiers_ignore_the_name _ Arr.radarr "jfc" s
                  (snd first) (JInt 7) eq_refl) Hrun ["trending"; "oscars"]).
Defined.

(** ** The Radarr client: what it sends *)

Lemma sent_only_refl {H} allowed (s : Radarr.State H) : sent_only allowed s s.
Proof. exists []. split; [by rewrite app_nil_r|constructor]. Qed.

Lemma sent_only_trans {H} allowed (s1 s2 s3 : Radarr.State H) :
  sent_only allowed s1 s2 -> sent_only allowed s2 s3 -> sent_only allowed s1 s3.
Proof.
  intros (new & Htr & Hall) (new' & Htr' & Hall'). exists (new ++ new').
  split; [by rewrite Htr', Htr, app_assoc|by apply Forall_app].
Qed.

Lemma sends_request {H} allowed (self : Radarr.t H) method endpoint json :
  allowed (method, endpoint) = true ->
  preserves (sent_only allowed) (Radarr._request self method endpoint json).
Proof.
  intros Hok s. unfold Radarr._request.
  destruct (Radarr.request self method endpoint json (Radarr.server s))
    as [r h']. simpl.
  eexists. split; [reflexivity|]. by repeat constructor.
Qed.

Lemma sends_raise_for_status {H} allowed response :
  preserves (sent_only (H:=H) allowed) (Radarr.raise_for_status response).
Proof.
  intros s. unfold Radarr.raise_for_status. cbv zeta.
  destruct (_ && _); apply sent_only_refl.
Qed.

Lemma sends_json {H} allowed response :
  preserves (sent_only (H:=H) allowed) (Radarr.json response).
Proof.
  intros s. unfold Radarr.json.
  destruct (Response.json response); apply sent_only_refl.
Qed.

Lemma sends_set_tag_id {H} allowed v :
  preserves (sent_only (H:=H) allowed) (Radarr.set_tag_id v).
Proof. intros s. exists []. split; [simpl; by rewrite app_nil_r|constructor]. Qed.

Lemma sends_set_quality_profile_id {H} allowed v :
  preserves (sent_only (H:=H) allowed) (Radarr.set_quality_profile_id v).
Proof. intros s. exists []. split; [simpl; by rewrite app_nil_r|constructor]. Qed.

Ltac sends_with side :=
  repeat first
    [ apply preserves_ret; exact (sent_only_refl _)
    | apply preserves_raise; exact (sent_only_refl _)
    | apply preserves_lift_result; exact (sent_only_refl _)
    | apply sends_raise_for_status
    | apply sends_json
    | apply sends_set_tag_id
    | apply sends_set_quality_profile_id
    | apply sends_request; side
    | apply preserves_map_M;
        [exact (sent_only_refl _)|exact (sent_only_trans _)|intros ?]
    | apply preserves_bind; [exact (sent_only_trans _)| |intros ?]
    | apply preserves_try_except; [exact (sent_only_trans _)| |intros ?]
    | assumption
    | match goal with Hyp : forall _, _ |- _ => apply Hyp end
    | match goal with
      | |- preserves _ (if ?c then _ else _) => destruct c
      | |- preserves _ (match ?x with _ => _ end) => destruct x
      | |- preserves _ (let _ := _ in _) => cbv zeta
      end ].

Ltac sends := sends_with ltac:(reflexivity).

Lemma sends_find_tag {H} allowed tags name :
  preserves (sent_only (H:=H) allowed) (Radarr.find_tag tags name).
Proof.
  induction tags as [|tag rest IH]; cbn [Radarr.find_tag]; sends.
Qed.

Lemma sends_find_quality_profile {H} allowed profiles name :
  preserves (sent_only (H:=H) allowed)
    (Radarr.find_quality_profile profiles name).
Proof.
  induction profiles as [|profile rest IH];
    cbn [Radarr.find_quality_profile]; sends.
Qed.

Lemma sends_find_root_folder {H} allowed folders path :
  preserves (sent_only (H:=H) allowed) (Radarr.find_root_folder folders path).
Proof.
  induction folders as [|folder rest IH]; cbn [Radarr.find_root_folder]; sends.
Qed.

Lemma sends_get_or_create_tag {H} (self : Radarr.t H) name :
  preserves (sent_only is_read_or_tag) (Radarr.get_or_create_tag self name).
Proof.
  intros s. unfold Radarr.get_or_create_tag.
  destruct (truthy (Radarr._tag_id s)); [apply sent_only_refl|].
  revert s. unfold Radarr.get_tags, Radarr.get, Radarr.post.
  pose proof (@sends_find_tag H is_read_or_tag). sends.
Qed.

Lemma sends_get_quality_profile_id {H} (self : Radarr.t H) name :
  preserves (sent_only is_read_or_tag) (Radarr.get_quality_profile_id self name).
Proof.
  intros s. unfold Radarr.get_quality_profile_id.
  destruct (truthy (Radarr._quality_profile_id s)); [apply sent_only_refl|].
  revert s. unfold Radarr.get_quality_profiles, Radarr.get.
  pose proof (@sends_find_quality_profile H is_read_or_tag). sends.
Qed.

Lemma sends_get_root_folder_path {H} (self : Radarr.t H) path :
  preserves (sent_only is_read_or_tag) (Radarr.get_root_folder_path self path).
Proof.
  unfold Radarr.get_root_folder_path, Radarr.get_root_folders, Radarr.get.
  pose proof (@sends_find_root_folder H is_read_or_tag). sends.
Qed.

Lemma sends_get_movie_by_tmdb_id {H} (self : Radarr.t H) tmdb_id :
  preserves (sent_only is_read_or_tag) (Radarr.get_movie_by_tmdb_id self tmdb_id).
Proof. unfold Radarr.get_movie_by_tmdb_id, Radarr.get. sends. Qed.

Lemma sends_lookup_movie {H} (self : Radarr.t H) tmdb_id :
  preserves (sent_only is_read_or_tag) (Radarr.lookup_movie self tmdb_id).
Proof. unfold Radarr.lookup_movie, Radarr.get. sends. Qed.

Ltac unchanged :=
  repeat first
    [ apply preserves_ret; done
    | apply preserves_raise; done
    | apply preserves_lift_result; done
    | apply preserves_bind; [by intros ? ? ? -> ->| |intros ?]
    | match goal with
      | |- preserves _ (Radarr.json _) => unfold Radarr.json
      | |- preserves _ (Radarr.raise_for_status _) =>
          unfold Radarr.raise_for_status; cbv zeta
      | |- preserves _ (if ?c then _ else _) => destruct c
      | |- preserves _ (match ?x with _ => _ end) => destruct x
      end ].

Lemma registered_at_most_once_weaken {H} (s s' : Radarr.State H) :
  sent_only is_read_or_tag s s' -> registered_at_most_once s s'.
Proof. intros (new & Htr & Hall). exists new. split; [done|by left]. Qed.

Lemma registered_at_most_once_after {H} (s1 s2 s3 : Radarr.State H) :
  sent_only is_read_or_tag s1 s2 -> registered_at_most_once s2 s3 ->
  registered_at_most_once s1 s3.
Proof.
  intros (new & Htr & Hall) (new' & Htr' & Hcases). exists (new ++ new').
  split; [by rewrite Htr', Htr, app_assoc|].
  destruct Hcases as [Hall'|(before & -> & Hall')].
  - left. by apply Forall_app.
  - right. exists (new ++ before). split; [by rewrite app_assoc|].
    by apply Forall_app.
Qed.

Lemma registers_after_reads {H A B} (m : M (Radarr.State H) A)
    (k : A -> M (Radarr.State H) B) :
  preserves (sent_only is_read_or_tag) m ->
  (forall a, preserves registered_at_most_once (k a)) ->
  preserves registered_at_most_once (bind m k).
Proof.
  intros Hm Hk s. unfold bind. specialize (Hm s).
  destruct (m s) as [[a|e] s1]; simpl in *.
  - eapply registered_at_most_once_after; [exact Hm|apply Hk].
  - by apply registered_at_most_once_weaken.
Qed.

Lemma registers_nothing {H A} (m : M (Radarr.State H) A) :
  preserves (sent_only is_read_or_tag) m ->
  preserves registered_at_most_once m.
Proof. intros Hm s. apply registered_at_most_once_weaken, Hm. Qed.

(** X14: what [add_movie] sends to Radarr. Whatever the server answers and
    whether the call returns or raises, the requests of one call are reads
    and tag creations, followed by at most one registration of the title
    ([POST /api/v3/movie]); the registration, when there is one, is the last
    request of the call. *)
Theorem add_movie_registers_at_most_once :
  forall H (self : Radarr.t H) tmdb_id root_folder quality_profile tags
    monitored search_for_movie minimum_availability,
    preserves registered_at_most_once
      (Radarr.add_movie self tmdb_id root_folder quality_profile tags monitored
         search_for_movie minimum_availability).
Proof.
  intros. unfold Radarr.add_movie, Radarr.movie_exists.
  pose proof (sends_get_movie_by_tmdb_id self tmdb_id) as Hget.
  apply registers_after_reads; [sends|]. intros already.
  destruct already; [by apply registers_nothing|].
  apply registers_after_reads; [apply sends_lookup_movie|]. intros movie_data.
  destruct (negb (truthy movie_data)); [apply registers_nothing; sends|].
  cbv zeta.
  apply registers_after_reads; [apply sends_get_quality_profile_id|].
  intros profile_id.
  destruct (negb (truthy profile_id)); [apply registers_nothing; sends|].
  apply registers_after_reads; [apply sends_get_root_folder_path|].
  intros folder.
  destruct (negb (truthy folder)); [apply registers_nothing; sends|].
  apply registers_after_reads.
  { apply preserves_map_M;
      [exact (sent_only_refl _)|exact (sent_only_trans _)|].
    intros name. apply sends_get_or_create_tag. }
  intros tag_ids.
  apply registers_after_reads; [sends|]. intros body s.
  unfold bind at 1. unfold Radarr.post, Radarr._request.
  destruct (Radarr.request self POST "/api/v3/movie" (Some body)
              (Radarr.server s)) as [[response|e] h'].
  - match goal with
    | |- registered_at_most_once s (snd (?m ?s1)) =>
        assert (preserves (fun s s' : Radarr.State H => s' = s) m) as Hrest;
          [|rewrite (Hrest s1)]
    end.
    { unchanged. }
    exists [(POST, "/api/v3/movie")]. split; [done|]. right. by exists [].
  - exists [(POST, "/api/v3/movie")]. split; [done|]. right. by exists [].
Qed.

Lemma status_ok (code : Z) :
  200 <= code <= 299 -> (200 <=? code) && (code <=? 299) = true.
Proof. intros Hcode. apply andb_true_iff. split; apply Z.leb_le; lia. Qed.

Lemma get_movie_by_tmdb_id_none {H} (self : Radarr.t H) tmdb_id
    (s : Radarr.State H) response h1 movies :
  let endpoint := String.append "/api/v3/movie?tmdbId=" (pretty tmdb_id) in
  Radarr.request self GET endpoint None (Radarr.server s)
  = (Return response, h1) ->
  200 <= Response.status_code response <= 299 ->
  Response.json response = Some movies ->
  truthy movies = false ->
  Radarr.get_movie_by_tmdb_id self tmdb_id s
  = (Return JNull,
     Radarr.mkState h1 (Radarr._quality_profile_id s) (Radarr._tag_id s)
       (Radarr.sent s ++ [(GET, endpoint)])).
Proof.
  intros endpoint Hreq Hcode Hjson Hfalsy.
  unfold Radarr.get_movie_by_tmdb_id, Radarr.get, Radarr._request, bind.
  fold endpoint. rewrite Hreq.
  unfold Radarr.raise_for_status, Radarr.json. rewrite Hjson.
  rewrite (status_ok _ Hcode). unfold ret. by rewrite Hfalsy.
Qed.

(** X15: a title Radarr does not hold and its metadata lookup does not know
    is not registered. When the list of held titles comes back empty and the
    lookup answers 404, or answers with an empty body, [add_movie] returns
    [None] after these two reads: no profile, folder or tag is asked for,
    nothing is posted, and no exception is raised for the 404. *)
Theorem add_movie_unknown_title_is_not_registered :
  forall H (self : Radarr.t H) tmdb_id root_folder quality_profile tags
    monitored search_for_movie minimum_availability (s : Radarr.State H)
    held h1 movies found h2,
    let held_endpoint := String.append "/api/v3/movie?tmdbId=" (pretty tmdb_id) in
    let lookup_endpoint :=
      String.append "/api/v3/movie/lookup/tmdb?tmdbId=" (pretty tmdb_id) in
    Radarr.request self GET held_endpoint None (Radarr.server s)
    = (Return held, h1) ->
    200 <= Response.status_code held <= 299 ->
    Response.json held = Some movies ->
    truthy movies = false ->
    Radarr.request self GET lookup_endpoint None h1 = (Return found, h2) ->
    (Response.status_code found = 404
     \/ (200 <= Response.status_code found <= 299
         /\ exists data, Response.json found = Some data
                         /\ truthy data = false)) ->
    Radarr.add_movie self tmdb_id root_folder quality_profile tags monitored
      search_for_movie minimum_availability s
    = (Return JNull,
       Radarr.mkState h2 (Radarr._quality_profile_id s) (Radarr._tag_id s)
         (Radarr.sent s ++ [(GET, held_endpoint); (GET, lookup_endpoint)])).
Proof.
  intros H self tmdb_id root_folder quality_profile tags monitored search
    minimum_availability s held h1 movies found h2 held_endpoint
    lookup_endpoint Hheld Hcode Hjson Hfalsy Hlookup Hfound.
  unfold Radarr.add_movie, Radarr.movie_exists. rewrite bind_assoc.
  rewrite (bind_Return _ _ _ _ _
             (get_movie_by_tmdb_id_none self tmdb_id s held h1 movies Hheld
                Hcode Hjson Hfalsy)).
  unfold bind at 1. unfold ret at 1. cbn [is_JNull negb].
  assert (Radarr.lookup_movie self tmdb_id
            (Radarr.mkState h1 (Radarr._quality_profile_id s) (Radarr._tag_id s)
               (Radarr.sent s ++ [(GET, held_endpoint)]))
          = (match Response.json found with
             | Some data => if Response.status_code found =? 404 then Return JNull
                            else Return data
             | None => Return JNull
             end,
             Radarr.mkState h2 (Radarr._quality_profile_id s) (Radarr._tag_id s)
               (Radarr.sent s ++ [(GET, held_endpoint); (GET, lookup_endpoint)])))
    as Hlook.
  { unfold Radarr.lookup_movie, Radarr.get, Radarr._request, bind.
    cbn [Radarr.server Radarr._quality_profile_id Radarr._tag_id Radarr.sent].
    fold lookup_endpoint. rewrite Hlookup. rewrite <- app_assoc. cbn [app].
    destruct Hfound as [H404|(Hok & data & Hdata & _)].
    - rewrite H404. cbn. by destruct (Response.json found).
    - assert ((Response.status_code found =? 404) = false) as ->
          by (apply Z.eqb_neq; lia).
      unfold Radarr.raise_for_status, Radarr.json. rewrite (status_ok _ Hok).
      by rewrite Hdata. }
  destruct Hfound as [H404|(Hok & data & Hdata & Hempty)].
  - rewrite H404 in Hlook.
    assert (Radarr.lookup_movie self tmdb_id
              (Radarr.mkState h1 (Radarr._quality_profile_id s)
                 (Radarr._tag_id s) (Radarr.sent s ++ [(GET, held_endpoint)]))
            = (Return JNull,
               Radarr.mkState h2 (Radarr._quality_profile_id s)
                 (Radarr._tag_id s)
                 (Radarr.sent s ++ [(GET, held_endpoint); (GET, lookup_endpoint)])))
      as Hlook' by (rewrite Hlook; by destruct (Response.json found)).
    by rewrite (bind_Return _ _ _ _ _ Hlook').
  - rewrite Hdata in Hlook.
    assert ((Response.status_code found =? 404) = false) as Hne
        by (apply Z.eqb_neq; lia).
    rewrite Hne in Hlook. rewrite (bind_Return _ _ _ _ _ Hlook).
    by rewrite Hempty.
Qed.

Lemma add_movie_unknown_title_is_not_registered_witness :
  let s := Radarr.connect Arr.fresh in
  fst (Radarr.add_movie Arr.radarr 11 None None None true true "announced" s)
  = Return JNull
  /\ Radarr.sent
       (snd (Radarr.add_movie Arr.radarr 11 None None None true true
               "announced" s))
     = [(GET, "/api/v3/movie?tmdbId=11");
        (GET, "/api/v3/movie/lookup/tmdb?tmdbId=11")].
Proof.
  intros s.
  assert (200 <= 200 <= 299) as Hcode by lia.
  assert (Radarr.request Arr.radarr GET
            (String.append "/api/v3/movie?tmdbId=" (pretty 11)) None
            (Radarr.server s)
          = (Return (Arr.answer 200 (JList [])), Arr.fresh)) as Hheld
    by (vm_compute; reflexivity).
  assert (Radarr.request Arr.radarr GET
            (String.append "/api/v3/movie/lookup/tmdb?tmdbId=" (pretty 11))
            None Arr.fresh
          = (Return (Arr.refuse 404), Arr.fresh)) as Hlookup
    by (vm_compute; reflexivity).
  pose proof (add_movie_unknown_title_is_not_registered _ Arr.radarr 11 None
                None None true true "announced" s _ _ (JList []) _ _ Hheld
                Hcode eq_refl eq_refl Hlookup (or_introl eq_refl)) as Hrun.
  rewrite Hrun. split; [reflexivity|]. vm_compute. reflexivity.
Defined.

Lemma find_root_folder_well_formed {S} (folders : list Json)
    (paths : list string) (path : string) (s : S) :
  Forall2 (fun folder p => getitem folder "path" = Return (JStr p)) folders
    paths ->
  Radarr.find_root_folder folders path s
  = (Return (JStr <$> List.find
                        (fun p => String.eqb p path || String.prefix p path)
                        paths), s).
Proof.
  induction 1 as [|folder p folders paths Hp _ IH]; [done|].
  cbn [Radarr.find_root_folder List.find]. unfold bind at 1, lift_result.
  rewrite Hp. by destruct (String.eqb p path || String.prefix p path).
Qed.

(** X16: the root folder [get_root_folder_path] answers with is always one
    the server lists, never the configured path as such: it is the first
    folder of the list that is the path or a leading part of it (so an
    earlier folder that is a prefix wins over a later exact match), the
    first folder of the list when none matches, and [None] only when the
    server lists no folder. *)
Theorem root_folder_is_one_the_server_lists :
  forall H (self : Radarr.t H) path (s : Radarr.State H) response h1 folders
    paths,
    Radarr.request self GET "/api/v3/rootfolder" None (Radarr.server s)
    = (Return response, h1) ->
    200 <= Response.status_code response <= 299 ->
    Response.json response = Some (JList folders) ->
    Forall2 (fun folder p => getitem folder "path" = Return (JStr p)) folders
      paths ->
    Radarr.get_root_folder_path self path s
    = (Return (chosen_root_folder paths path),
       Radarr.mkState h1 (Radarr._quality_profile_id s) (Radarr._tag_id s)
         (Radarr.sent s ++ [(GET, "/api/v3/rootfolder")]))
    /\ (chosen_root_folder paths path = JNull <-> paths = [])
    /\ (forall p, chosen_root_folder paths path = JStr p -> p ∈ paths).
Proof.
  intros H self path s response h1 folders paths Hreq Hcode Hjson Hwf.
  split_and!.
  - assert (Radarr.get_root_folders self s
            = (Return (JList folders),
               Radarr.mkState h1 (Radarr._quality_profile_id s)
                 (Radarr._tag_id s)
                 (Radarr.sent s ++ [(GET, "/api/v3/rootfolder")]))) as Hget.
    { unfold Radarr.get_root_folders, Radarr.get, Radarr._request, bind.
      rewrite Hreq. unfold Radarr.raise_for_status.
      rewrite (status_ok _ Hcode). unfold ret, Radarr.json. by rewrite Hjson. }
    unfold Radarr.get_root_folder_path.
    rewrite (bind_Return _ _ _ _ _ Hget).
    unfold bind at 1. unfold lift_result at 1. cbn [iterate].
    rewrite (bind_Return _ _ _ _ _
               (find_root_folder_well_formed folders paths path _ Hwf)).
    unfold chosen_root_folder.
    destruct (List.find _ paths) as [p|]; [done|].
    cbn [fmap option_fmap option_map].
    destruct Hwf as [|folder p folders paths Hp _]; [done|].
    cbn [truthy truthy_Json truthy_list]. unfold bind, lift_result.
    cbn [getitem0]. by rewrite Hp.
  - unfold chosen_root_folder. destruct paths as [|first rest]; [done|].
    destruct (List.find _ (first :: rest)); split; discriminate.
  - intros p. unfold chosen_root_folder.
    destruct (List.find _ paths) as [p'|] eqn:Hfind.
    + intros [= <-]. apply find_some in Hfind as [Hin _].
      by apply list_elem_of_In.
    + destruct paths as [|first rest]; [done|]. intros [= <-]. left.
Qed.

Lemma root_folder_is_one_the_server_lists_witness :
  let s := Radarr.connect Arr.fresh in
  Radarr.get_root_folder_path Arr.radarr "/data/media/movies" s
  = (Return (JStr "/data/media"),
     Radarr.mkState Arr.fresh JNull JNull [(GET, "/api/v3/rootfolder")])
  /\ chosen_root_folder ["/"; "/movies"] "/movies" = JStr "/".
Proof.
  intros s.
  assert (200 <= 200 <= 299) as Hcode by lia.
  assert (Radarr.request Arr.radarr GET "/api/v3/rootfolder" None
            (Radarr.server s)
          = (Return (Arr.answer 200
                       (JList (List.map Arr.folder_record
                                 ["/data/media"; "/movies"]))), Arr.fresh))
    as Hreq by (vm_compute; reflexivity).
  assert (Forall2 (fun folder p => getitem folder "path" = Return (JStr p))
            (List.map Arr.folder_record ["/data/media"; "/movies"])
            ["/data/media"; "/movies"]) as Hwf
    by (repeat constructor).
  split; [|reflexivity].
  exact (proj1 (root_folder_is_one_the_server_lists _ Arr.radarr
                  "/data/media/movies" s _ _ _ _ Hreq Hcode eq_refl Hwf)).
Defined.

(** X17: [health_check] never raises. It sends one status request and
    answers [True] when [get_status] returns, [False] when it raises, be it
    for a transport error, an HTTP error status or a body that is not
    JSON; this holds for the Radarr and for the Sonarr client. *)
Theorem health_check_never_raises :
  forall H (radarr : Radarr.t H) (sonarr : Sonarr.t H),
    (forall s, exists b s',
        Radarr.health_check radarr s = (Return b, s')
        /\ Radarr.sent s' = Radarr.sent s ++ [(GET, "/api/v3/system/status")]
        /\ (b = true <-> exists j, fst (Radarr.get_status radarr s) = Return j))
    /\ (forall s, exists b s',
           Sonarr.health_check sonarr s = (Return b, s')
           /\ Sonarr.sent s' = Sonarr.sent s ++ [(GET, "/api/v3/system/status")]
           /\ (b = true
               <-> exists j, fst (Sonarr.get_status sonarr s) = Return j)).
Proof.
  intros H radarr sonarr. split; intros s.
  - unfold Radarr.health_check, try_except, bind.
    assert (Radarr.sent (snd (Radarr.get_status radarr s))
            = Radarr.sent s ++ [(GET, "/api/v3/system/status")]) as Hsent.
    { unfold Radarr.get_status, Radarr.get, Radarr._request, bind.
      destruct (Radarr.request radarr GET _ None (Radarr.server s))
        as [[response|e] h']; [|done].
      unfold Radarr.raise_for_status. cbv zeta.
      destruct (_ && _); [|done]. unfold ret, Radarr.json.
      by destruct (Response.json response). }
    destruct (Radarr.get_status radarr s) as [[j|e] s1]; cbn [fst snd] in *.
    + exists true, s1. split_and!; [done|done|]. split; [eauto|done].
    + exists false, s1. split_and!; [done|done|].
      split; [done|intros (j & Hj); discriminate].
  - unfold Sonarr.health_check, try_except, bind.
    assert (Sonarr.sent (snd (Sonarr.get_status sonarr s))
            = Sonarr.sent s ++ [(GET, "/api/v3/system/status")]) as Hsent.
    { unfold Sonarr.get_status, Sonarr.get, Sonarr._request, bind.
      destruct (Sonarr.request sonarr GET _ None (Sonarr.server s))
        as [[response|e] h']; [|done].
      unfold Radarr.raise_for_status. cbv zeta.
      destruct (_ && _); [|done]. unfold ret, Radarr.json.
      by destruct (Response.json response). }
    destruct (Sonarr.get_status sonarr s) as [[j|e] s1]; cbn [fst snd] in *.
    + exists true, s1. split_and!; [done|done|]. split; [eauto|done].
    + exists false, s1. split_and!; [done|done|].
      split; [done|intros (j & Hj); discriminate].
Qed.

(** ** The Sonarr client *)

Lemma get_series_by_tvdb_id_none {H} (self : Sonarr.t H) tvdb_id
    (s : Sonarr.State H) response h1 series_list :
  let endpoint := String.append "/api/v3/series?tvdbId=" (pretty tvdb_id) in
  Sonarr.request self GET endpoint None (Sonarr.server s)
  = (Return response, h1) ->
  200 <= Response.status_code response <= 299 ->
  Response.json response = Some series_list ->
  truthy series_list = false ->
  Sonarr.get_series_by_tvdb_id self tvdb_id s
  = (Return JNull,
     Sonarr.mkState h1 (Sonarr._quality_profile_id s) (Sonarr._tag_id s)
       (Sonarr.sent s ++ [(GET, endpoint)])).
Proof.
  intros endpoint Hreq Hcode Hjson Hfalsy.
  unfold Sonarr.get_series_by_tvdb_id, Sonarr.get, Sonarr._request, bind.
  fold endpoint. rewrite Hreq.
  unfold Radarr.raise_for_status, Radarr.json. rewrite Hjson.
  rewrite (status_ok _ Hcode). unfold ret. by rewrite Hfalsy.
Qed.

(** X18: a series Sonarr does not hold and its lookup does not find is not
    registered. When the list of held series comes back empty and the lookup
    answers 404, or an empty result list, or a first result that is empty,
    [add_series] returns [None] after these two reads: nothing is posted and
    no exception is raised. *)
Theorem add_series_unknown_series_is_not_registered :
  forall H (self : Sonarr.t H) tvdb_id root_folder quality_profile tags
    monitored season_folder series_type search_for_missing monitor
    (s : Sonarr.State H) held h1 series_list found h2,
    let held_endpoint :=
      String.append "/api/v3/series?tvdbId=" (pretty tvdb_id) in
    let lookup_endpoint :=
      String.append "/api/v3/series/lookup?term=tvdb:" (pretty tvdb_id) in
    Sonarr.request self GET held_endpoint None (Sonarr.server s)
    = (Return held, h1) ->
    200 <= Response.status_code held <= 299 ->
    Response.json held = Some series_list ->
    truthy series_list = false ->
    Sonarr.request self GET lookup_endpoint None h1 = (Return found, h2) ->
    (Response.status_code found = 404
     \/ (200 <= Response.status_code found <= 299
         /\ exists results,
             Response.json found = Some results
             /\ (truthy results = false
                 \/ exists first, getitem0 results = Return first
                                  /\ truthy first = false))) ->
    Sonarr.add_series self tvdb_id root_folder quality_profile tags monitored
      season_folder series_type search_for_missing monitor s
    = (Return JNull,
       Sonarr.mkState h2 (Sonarr._quality_profile_id s) (Sonarr._tag_id s)
         (Sonarr.sent s ++ [(GET, held_endpoint); (GET, lookup_endpoint)])).
Proof.
  intros H self tvdb_id root_folder quality_profile tags monitored
    season_folder series_type search_for_missing monitor s held h1
    series_list found h2 held_endpoint lookup_endpoint Hheld Hcode Hjson
    Hfalsy Hlookup Hfound.
  unfold Sonarr.add_series, Sonarr.series_exists. rewrite bind_assoc.
  rewrite (bind_Return _ _ _ _ _
             (get_series_by_tvdb_id_none self tvdb_id s held h1 series_list
                Hheld Hcode Hjson Hfalsy)).
  unfold bind at 1. unfold ret at 1. cbn [is_JNull negb].
  assert (exists series_data,
             Sonarr.lookup_series self tvdb_id
               (Sonarr.mkState h1 (Sonarr._quality_profile_id s)
                  (Sonarr._tag_id s) (Sonarr.sent s ++ [(GET, held_endpoint)]))
             = (Return series_data,
                Sonarr.mkState h2 (Sonarr._quality_profile_id s)
                  (Sonarr._tag_id s)
                  (Sonarr.sent s
                   ++ [(GET, held_endpoint); (GET, lookup_endpoint)]))
             /\ truthy series_data = false) as (series_data & Hlook & Hempty).
  { unfold Sonarr.lookup_series, Sonarr.get, Sonarr._request, bind.
    cbn [Sonarr.server Sonarr._quality_profile_id Sonarr._tag_id Sonarr.sent].
    fold lookup_endpoint. rewrite Hlookup. rewrite <- app_assoc. cbn [app].
    destruct Hfound as [H404|(Hok & results & Hresults & Hcases)].
    - rewrite H404. by exists JNull.
    - assert ((Response.status_code found =? 404) = false) as ->
          by (apply Z.eqb_neq; lia).
      unfold Radarr.raise_for_status, Radarr.json. rewrite (status_ok _ Hok).
      rewrite Hresults. unfold ret.
      destruct Hcases as [Hnone|(first & Hfirst & Hnone)].
      + rewrite Hnone. by exists JNull.
      + destruct (truthy results); [|by exists JNull].
        unfold lift_result. rewrite Hfirst. by exists first. }
  rewrite (bind_Return _ _ _ _ _ Hlook). by rewrite Hempty.
Qed.

Lemma add_series_unknown_series_is_not_registered_witness :
  let s := Sonarr.connect Arr.fresh in
  let result :=
    Sonarr.add_series Arr.sonarr 11 None None None true true "standard" true
      "all" s in
  fst result = Return JNull
  /\ Sonarr.sent (snd result)
     = [(GET, "/api/v3/series?tvdbId=11");
        (GET, "/api/v3/series/lookup?term=tvdb:11")].
Proof.
  intros s result.
  assert (200 <= 200 <= 299) as Hcode by lia.
  assert (Sonarr.request Arr.sonarr GET
            (String.append "/api/v3/series?tvdbId=" (pretty 11)) None
            (Sonarr.server s)
          = (Return (Arr.answer 200 (JList [])), Arr.fresh)) as Hheld
    by (vm_compute; reflexivity).
  assert (Sonarr.request Arr.sonarr GET
            (String.append "/api/v3/series/lookup?term=tvdb:" (pretty 11))
            None Arr.fresh
          = (Return (Arr.answer 200 (JList [])), Arr.fresh)) as Hlookup
    by (vm_compute; reflexivity).
  assert (Response.status_code (Arr.answer 200 (JList [])) = 404
          \/ (200 <= Response.status_code (Arr.answer 200 (JList [])) <= 299
              /\ exists results,
                  Response.json (Arr.answer 200 (JList [])) = Some results
                  /\ (truthy results = false
                      \/ exists first, getitem0 results = Return first
                                       /\ truthy first = false))) as Hfound.
  { right. split; [exact Hcode|]. exists (JList []). split; [reflexivity|].
    left. reflexivity. }
  pose proof (add_series_unknown_series_is_not_registered _ Arr.sonarr 11 None
                None None true true "standard" true "all" s _ _ (JList []) _ _
                Hheld Hcode eq_refl eq_refl Hlookup Hfound) as Hrun.
  subst result. rewrite Hrun. split; [reflexivity|]. vm_compute. reflexivity.
Defined.

(** ** The Jellyfin client *)

(** X19: how the collection writes of the Jellyfin client report a refusal.
    [add_to_collection] and [remove_from_collection] send nothing for an
    empty list and answer [True]; for a list that is not empty they send one
    request with the identifiers joined by commas and answer whether the
    status was 204, so that an error status gives [False] and no exception.
    [create_collection] raises on an error status instead. *)
Theorem membership_writes_report_by_result :
  forall H (self : Jellyfin.t H) collection_id (s : Jellyfin.State H),
    Jellyfin.add_to_collection self collection_id [] s = (Return true, s)
    /\ Jellyfin.remove_from_collection self collection_id [] s
       = (Return true, s)
    /\ (forall item_ids response h',
           item_ids <> [] ->
           let endpoint :=
             String.append "/Collections/"
               (String.append collection_id "/Items") in
           let params := [("Ids", JStr (String.concat "," item_ids))] in
           (Jellyfin.request self POST endpoint params None (Jellyfin.server s)
            = (Return response, h') ->
            Jellyfin.add_to_collection self collection_id item_ids s
            = (Return (Response.status_code response =? 204),
               Jellyfin.mkState h'
                 (Jellyfin.sent s
                  ++ [Jellyfin.mkSent POST endpoint params None])))
           /\ (Jellyfin.request self DELETE endpoint params None
                 (Jellyfin.server s) = (Return response, h') ->
               Jellyfin.remove_from_collection self collection_id item_ids s
               = (Return (Response.status_code response =? 204),
                  Jellyfin.mkState h'
                    (Jellyfin.sent s
                     ++ [Jellyfin.mkSent DELETE endpoint params None]))))
    /\ (forall name response h',
           Jellyfin.request self POST "/Collections" [("Name", JStr name)] None
             (Jellyfin.server s) = (Return response, h') ->
           ~ 200 <= Response.status_code response <= 299 ->
           exists e,
             fst (Jellyfin.create_collection self name None s) = Raise e).
Proof.
  intros H self collection_id s. split_and!; [done|done| |].
  - intros item_ids response h' Hne endpoint params.
    assert (truthy item_ids = true) as Htruthy by (by destruct item_ids).
    split; intros Hreq.
    + unfold Jellyfin.add_to_collection. rewrite Htruthy. cbn [negb].
      unfold bind, Jellyfin._request. fold endpoint params. rewrite Hreq.
      by destruct (_ =? 204).
    + unfold Jellyfin.remove_from_collection. rewrite Htruthy. cbn [negb].
      unfold bind, Jellyfin._request. fold endpoint params. rewrite Hreq.
      by destruct (_ =? 204).
  - intros name response h' Hreq Hcode.
    unfold Jellyfin.create_collection. cbn [truthy truthy_option].
    unfold bind, Jellyfin._request. rewrite Hreq.
    unfold Radarr.raise_for_status. cbv zeta.
    destruct (_ && _) eqn:Hok; [|by eexists].
    apply andb_true_iff in Hok as [Hlo Hhi].
    apply Z.leb_le in Hlo, Hhi. lia.
Qed.

Lemma membership_writes_report_by_result_witness :
  let s := Jellyfin.connect top_record in
  Jellyfin.add_to_collection jellyfin_record_client "top-id" ["a"; "b"] s
  = (Return true,
     Jellyfin.mkState top_record
       [Jellyfin.mkSent POST "/Collections/top-id/Items" [("Ids", JStr "a,b")]
          None])
  /\ fst (Jellyfin.add_to_collection jellyfin_record_client "gone" ["a"] s)
     = Return false.
Proof.
  intros s.
  assert (["a"; "b"] <> @nil string) as Hne by discriminate.
  assert (Jellyfin.request jellyfin_record_client POST
            (String.append "/Collections/" (String.append "top-id" "/Items"))
            [("Ids", JStr (String.concat "," ["a"; "b"]))] None
            (Jellyfin.server s)
          = (Return (Arr.refuse 204), top_record)) as Hreq
    by (vm_compute; reflexivity).
  split; [|vm_compute; reflexivity].
  exact (proj1 (proj1 (proj2 (proj2 (membership_writes_report_by_result _
                  jellyfin_record_client "top-id" s)))
                  ["a"; "b"] (Arr.refuse 204) top_record Hne) Hreq).
Defined.

Lemma assoc_get_set (kv : list (string * Json)) (k : string) (v : Json)
    (k' : string) :
  assoc_get (assoc_set kv k v) k'
  = if String.eqb k' k then Some v else assoc_get kv k'.
Proof.
  induction kv as [|[k0 v0] kv IH]; cbn [assoc_set assoc_get]; [done|].
  destruct (String.eqb_spec k k0) as [->|Hne]; cbn [assoc_get].
  - by destruct (String.eqb k' k0).
  - rewrite IH. destruct (String.eqb_spec k' k0) as [->|Hne'];
      [|done].
    destruct (String.eqb_spec k0 k) as [->|_]; [done|done].
Qed.

Lemma set_if_spec {S} (value : option string) (key : string)
    (fields : list (string * Json)) (s : S) :
  exists body,
    Jellyfin.set_if value key (JDict fields) s = (Return (JDict body), s)
    /\ forall k, assoc_get body k
                 = if String.eqb k key && truthy value then JStr <$> value
                   else assoc_get fields k.
Proof.
  unfold Jellyfin.set_if. destruct (truthy value) eqn:Hv.
  - exists (assoc_set fields key (JStr (default "" value))).
    split; [done|]. intros k. rewrite assoc_get_set, andb_true_r.
    destruct (String.eqb k key); [|done]. by destruct value.
  - exists fields. split; [done|]. intros k. by rewrite andb_false_r.
Qed.

(** X20: a metadata update writes back the record it read, changed only
    where a new value is given. When the collection cannot be read (any
    status but 200) the update answers [False] and nothing is posted.
    Otherwise the body posted has every field of the record that was read,
    with "Name", "Overview" and "SortName" replaced by the new value only
    when that value is set and not empty; the answer is whether the post
    got status 204. *)
Theorem metadata_update_keeps_the_other_fields :
  forall H (self : Jellyfin.t H) collection_id name overview sort_name
    (s : Jellyfin.State H) response h1,
    let endpoint := String.append "/Items/" collection_id in
    Jellyfin.request self GET endpoint [] None (Jellyfin.server s)
    = (Return response, h1) ->
    (Response.status_code response <> 200 ->
     Jellyfin.update_collection_metadata self collection_id name overview
       sort_name s
     = (Return false,
        Jellyfin.mkState h1
          (Jellyfin.sent s ++ [Jellyfin.mkSent GET endpoint [] None])))
    /\ (forall fields,
           Response.status_code response = 200 ->
           Response.json response = Some (JDict fields) ->
           fields <> [] ->
           exists body,
             (forall key,
                 assoc_get body key
                 = if String.eqb key "SortName" && truthy sort_name
                   then JStr <$> sort_name
                   else if String.eqb key "Overview" && truthy overview
                   then JStr <$> overview
                   else if String.eqb key "Name" && truthy name
                   then JStr <$> name
                   else assoc_get fields key)
             /\ forall answer h2,
                 Jellyfin.request self POST endpoint [] (Some (JDict body)) h1
                 = (Return answer, h2) ->
                 Jellyfin.update_collection_metadata self collection_id name
                   overview sort_name s
                 = (Return (Response.status_code answer =? 204),
                    Jellyfin.mkState h2
                      (Jellyfin.sent s
                       ++ [Jellyfin.mkSent GET endpoint [] None;
                           Jellyfin.mkSent POST endpoint []
                             (Some (JDict body))]))).
Proof.
  intros H self collection_id name overview sort_name s response h1 endpoint
    Hreq. split.
  - intros Hcode. unfold Jellyfin.update_collection_metadata,
      Jellyfin.get_collection, Jellyfin._request.
    rewrite bind_assoc. unfold bind at 1. fold endpoint. rewrite Hreq.
    assert ((Response.status_code response =? 200) = false) as ->
        by (by apply Z.eqb_neq).
    done.
  - intros fields Hcode Hjson Hne.
    assert (Jellyfin.get_collection self collection_id s
            = (Return (JDict fields),
               Jellyfin.mkState h1
                 (Jellyfin.sent s ++ [Jellyfin.mkSent GET endpoint [] None])))
      as Hget.
    { unfold Jellyfin.get_collection, Jellyfin._request, bind.
      fold endpoint. rewrite Hreq, Hcode. cbn [Z.eqb Pos.eqb].
      unfold Radarr.json. by rewrite Hjson. }
    set (s1 := Jellyfin.mkState h1 _) in Hget.
    destruct (set_if_spec name "Name" fields s1) as (b1 & Hb1 & Hk1).
    destruct (set_if_spec overview "Overview" b1 s1) as (b2 & Hb2 & Hk2).
    destruct (set_if_spec sort_name "SortName" b2 s1) as (b3 & Hb3 & Hk3).
    exists b3. split.
    + intros key. rewrite Hk3.
      destruct (String.eqb key "SortName" && truthy sort_name); [done|].
      rewrite Hk2.
      destruct (String.eqb key "Overview" && truthy overview); [done|].
      apply Hk1.
    + intros answer h2 Hpost.
      unfold Jellyfin.update_collection_metadata.
      rewrite (bind_Return _ _ _ _ _ Hget).
      assert (truthy (JDict fields) = true) as -> by (by destruct fields).
      cbn [negb].
      rewrite (bind_Return _ _ _ _ _ Hb1), (bind_Return _ _ _ _ _ Hb2),
        (bind_Return _ _ _ _ _ Hb3).
      unfold bind, Jellyfin._request. fold endpoint. subst s1.
      cbn [Jellyfin.server Jellyfin.sent]. rewrite Hpost.
      rewrite <- app_assoc. by destruct (_ =? 204).
Qed.

Lemma metadata_update_keeps_the_other_fields_witness :
  let s := Jellyfin.connect top_record in
  let result :=
    Jellyfin.update_collection_metadata jellyfin_record_client "top-id" None
      (Some "Seen by many") (Some "") s in
  fst result = Return true
  /\ Jellyfin.server (snd result)
     = JDict [("Id", JStr "top-id"); ("Name", JStr "Top");
              ("Overview", JStr "Seen by many"); ("Type", JStr "BoxSet")]
  /\ Jellyfin.update_collection_metadata jellyfin_record_client "gone" None
       (Some "Seen by many") None s
     = (Return false,
        Jellyfin.mkState top_record
          [Jellyfin.mkSent GET (String.append "/Items/" "gone") [] None]).
Proof.
  intros s result. split; [vm_compute; reflexivity|].
  split; [vm_compute; reflexivity|].
  assert (Jellyfin.request jellyfin_record_client GET
            (String.append "/Items/" "gone") [] None (Jellyfin.server s)
          = (Return (Arr.refuse 404), top_record)) as Hreq
    by (vm_compute; reflexivity).
  assert (Response.status_code (Arr.refuse 404) <> 200) as Hcode
    by discriminate.
  exact (proj1 (metadata_update_keeps_the_other_fields _ jellyfin_record_client
                  "gone" None (Some "Seen by many") None s _ _ Hreq) Hcode).
Defined.

Lemma map_M_lift_result_returns {S A B} (f : A -> Result B) (l : list A)
    (l' : list B) (s : S) :
  Forall2 (fun x y => f x = Return y) l l' ->
  map_M (fun x => lift_result (f x)) l s = (Return l', s).
Proof.
  induction 1 as [|x y l l' Hxy _ IH]; [done|].
  cbn [map_M]. unfold bind at 1, lift_result at 1. rewrite Hxy.
  by rewrite (bind_Return _ _ _ _ _ IH).
Qed.

Lemma map_M_lift_result_raises {S A B} (f : A -> Result B)
    (before : list A) (x : A) (after : list A) (e : exn) (s : S) :
  Forall (fun x => exists y, f x = Return y) before ->
  f x = Raise e ->
  map_M (fun x => lift_result (f x)) (before ++ x :: after) s = (Raise e, s).
Proof.
  intros Hbefore Hx. induction Hbefore as [|x0 before (y & Hy) _ IH].
  - cbn [app map_M]. unfold bind, lift_result. by rewrite Hx.
  - cbn [app map_M]. unfold bind at 1, lift_result at 1. rewrite Hy.
    by rewrite (bind_Raise _ _ _ _ _ IH).
Qed.

(** X21: what [get_collection_items] makes of the answer of the server. A
    listing without an "Items" key is read as an empty collection; the items
    are returned by their "Id", in the order of the server; but a single
    item without an "Id" makes the whole read raise. *)
Theorem collection_reads_default_missing_keys :
  forall H (self : Jellyfin.t H) collection_id (s : Jellyfin.State H) response
    h1 body,
    let params := [("ParentId", JStr collection_id);
                   ("Fields", JStr "ProviderIds")] in
    let s1 :=
      Jellyfin.mkState h1
        (Jellyfin.sent s ++ [Jellyfin.mkSent GET "/Items" params None]) in
    Jellyfin.request self GET "/Items" params None (Jellyfin.server s)
    = (Return response, h1) ->
    200 <= Response.status_code response <= 299 ->
    Response.json response = Some (JDict body) ->
    (assoc_get body "Items" = None ->
     Jellyfin.get_collection_items self collection_id s = (Return [], s1))
    /\ (forall items ids,
           assoc_get body "Items" = Some (JList items) ->
           Forall2 (fun item id => getitem item "Id" = Return id) items ids ->
           Jellyfin.get_collection_items self collection_id s = (Return ids, s1))
    /\ (forall before item after e,
           assoc_get body "Items" = Some (JList (before ++ item :: after)) ->
           Forall (fun item => exists id, getitem item "Id" = Return id)
             before ->
           getitem item "Id" = Raise e ->
           Jellyfin.get_collection_items self collection_id s = (Raise e, s1)).
Proof.
  intros H self collection_id s response h1 body params s1 Hreq Hcode Hjson.
  assert (forall items,
             get_of (JDict body) "Items" (JList []) = Return (JList items) ->
             Jellyfin.get_collection_items self collection_id s
             = map_M (fun item => lift_result (getitem item "Id")) items s1)
    as Hrun.
  { intros items Hitems. unfold Jellyfin.get_collection_items.
    cbv zeta. fold params. unfold Jellyfin._request.
    unfold bind at 1. rewrite Hreq. fold s1.
    unfold bind at 1. unfold Radarr.raise_for_status.
    rewrite (status_ok _ Hcode). unfold ret at 1.
    unfold bind at 1. unfold Radarr.json. rewrite Hjson. unfold ret at 1.
    unfold bind at 1. unfold lift_result at 1. rewrite Hitems.
    unfold bind at 1. unfold lift_result at 1. done. }
  split_and!.
  - intros Hnone. rewrite (Hrun []); [done|]. cbn [get_of]. by rewrite Hnone.
  - intros items ids Hsome Hids. rewrite (Hrun items).
    + by apply map_M_lift_result_returns.
    + cbn [get_of]. by rewrite Hsome.
  - intros before item after e Hsome Hbefore Hitem.
    rewrite (Hrun (before ++ item :: after)).
    + by apply map_M_lift_result_raises.
    + cbn [get_of]. by rewrite Hsome.
Qed.

Lemma collection_reads_default_missing_keys_witness :
  let self :=
    Jellyfin.mk (H:=unit) (fun _ _ _ _ h =>
      (Return (Arr.answer 200
                 (JDict [("Items",
                          JList [JDict [("Id", JStr "a")];
                                 JDict [("Name", JStr "no id")]])])), h)) in
  fst (Jellyfin.get_collection_items self "top-id" (Jellyfin.connect tt))
  = Raise (KeyError "Id").
Proof.
  intros self.
  assert (200 <= 200 <= 299) as Hcode by lia.
  assert (Forall (fun item => exists id, getitem item "Id" = Return id)
            [JDict [("Id", JStr "a")]]) as Hbefore
    by (repeat constructor; by eexists).
  rewrite (proj2 (proj2 (collection_reads_default_missing_keys _ self "top-id"
                           (Jellyfin.connect tt) _ tt _ eq_refl Hcode
                           eq_refl))
             [JDict [("Id", JStr "a")]] (JDict [("Name", JStr "no id")]) []
             (KeyError "Id") eq_refl Hbefore eq_refl).
  reflexivity.
Defined.

(** ** The notifier *)



(** ** Results the engine does not look at *)

Lemma perform_result_unused {W A B} c (op : M W A) (f : A -> A)
    (k : M (State W) B) s :
  (perform c quiet (a <- op ;; ret (f a)) ;;; k) s
  = (perform c quiet op ;;; k) s.
Proof.
  unfold bind, perform, ret, quiet.
  by destruct (op (world s)) as [[a|e] w'].
Qed.

Lemma optional_write_result_unused {W B} (cond : bool) c (op : M W bool)
    (f : bool -> bool) (k : unit -> M (State W) B) s :
  bind (if cond then perform c quiet (ok <- op ;; ret (f ok)) ;;; ret tt
        else ret tt) k s
  = bind (if cond then perform c quiet op ;;; ret tt else ret tt) k s.
Proof.
  destruct cond; [|done]. rewrite !bind_assoc. apply perform_result_unused.
Qed.

(** X23: the reconciliation engine does not look at what the writes
    answer. Whatever [add_to_collection], [remove_from_collection] and
    [update_collection_metadata] return ([True] or [False]), a
    synchronisation makes the same calls, ends in the same state and
    reports the same numbers of additions and removals: a write that the
    server refused with an error status, which the client reports as
    [False], is counted like one that was made. *)
Theorem sync_does_not_look_at_write_results :
  forall W (self : CollectionBuilder.t W) (f g h : bool -> bool) collection
    add_missing_to_arr (s : State W),
    sync_collection (with_write_results f g h self) collection
      add_missing_to_arr s
    = sync_collection self collection add_missing_to_arr s.
Proof.
  intros W self f g h collection flag s.
  unfold sync_collection, with_write_results.
  cbn [CollectionBuilder.dry_run CollectionBuilder.jellyfin
       JellyfinClient.get_collections JellyfinClient.create_collection
       JellyfinClient.get_collection_items JellyfinClient.add_to_collection
       JellyfinClient.remove_from_collection
       JellyfinClient.update_collection_metadata].
  destruct (CollectionBuilder.dry_run self); [done|]. cbv zeta.
  apply bind_ext. intros colls s1.
  apply bind_ext. intros jellyfin_id s2.
  apply bind_ext. intros current s3.
  rewrite optional_write_result_unused. apply bind_ext. intros [] s4.
  rewrite optional_write_result_unused. apply bind_ext. intros [] s5.
  rewrite perform_result_unused. apply bind_ext. intros ok s6. done.
Qed.

(** ** The Trakt client: lists *)

Lemma collect_spec {H} (self : Trakt.t H) media_type (entries : list Json) :
  forall items0 items (h h' : H),
    Trakt.collect self media_type entries items0 h = (Return items, h') ->
    h' = h
    /\ exists new,
        items = items0 ++ new
        /\ Forall2 (parsed_from self)
             (List.filter (listed_as media_type) entries) new.
Proof.
  induction entries as [|entry rest IH]; intros items0 items h h' Hrun.
  - injection Hrun as <- <-. split; [done|]. exists [].
    split; [by rewrite app_nil_r|constructor].
  - cbn [Trakt.collect] in Hrun. cbn [List.filter]. unfold listed_as at 1.
    unfold bind at 1, lift_result at 1 in Hrun.
    destruct (get_of entry "type" JNull) as [item_type|e] eqn:Htype;
      [|discriminate].
    destruct (Trakt.is_str item_type "movie") eqn:Hmovie.
    + cbn [negb andb orb]. rewrite orb_false_r.
      destruct (Trakt.asks_for media_type MOVIE); [|by apply IH].
      unfold bind at 1, lift_result at 1 in Hrun.
      destruct (getitem entry "movie") as [data|e] eqn:Hdata; [|discriminate].
      unfold bind at 1, lift_result at 1 in Hrun.
      destruct (Trakt._parse_movie self data) as [parsed|e] eqn:Hparsed;
        [|discriminate].
      apply IH in Hrun as (-> & new & -> & Hall). split; [done|].
      exists (parsed :: new). split; [by rewrite <- app_assoc|].
      constructor; [|done]. exists item_type, data. by rewrite Htype, Hmovie.
    + cbn [negb andb orb].
      destruct (Trakt.is_str item_type "show") eqn:Hshow; [|by apply IH].
      cbn [andb]. destruct (Trakt.asks_for media_type SERIES); [|by apply IH].
      unfold bind at 1, lift_result at 1 in Hrun.
      destruct (getitem entry "show") as [data|e] eqn:Hdata; [|discriminate].
      unfold bind at 1, lift_result at 1 in Hrun.
      destruct (Trakt._parse_series self data) as [parsed|e] eqn:Hparsed;
        [|discriminate].
      apply IH in Hrun as (-> & new & -> & Hall). split; [done|].
      exists (parsed :: new). split; [by rewrite <- app_assoc|].
      constructor; [|done]. exists item_type, data. by rewrite Htype, Hmovie.
Qed.

Lemma listed_as_other_kinds media_type entry :
  media_type = Some SEASON \/ media_type = Some EPISODE ->
  listed_as media_type entry = false.
Proof.
  intros [-> | ->]; unfold listed_as;
    destruct (get_of entry "type" JNull) as [item_type|e]; try done;
    cbn [Trakt.asks_for]; by rewrite !andb_false_r.
Qed.

(** X24: what [get_list] returns. The items are the parses of the entries
    of the list whose type is "movie" or "show" and is the type asked for
    (both when no type is asked for), in the order of the list; entries of
    any other type are passed over without an error. Asked for seasons or
    episodes, it always returns the empty list. *)
Theorem get_list_keeps_what_was_asked_for :
  forall H (self : Trakt.t H) user list_id media_type (h h' : H) items,
    Trakt.get_list self user list_id media_type h = (Return items, h') ->
    exists response body entries,
      Trakt.request self GET
        (String.append "/users/"
           (String.append user
              (String.append "/lists/" (String.append list_id "/items"))))
        [("extended", JStr "full")] None h = (Return response, h')
      /\ Response.json response = Some body
      /\ iterate body = Return entries
      /\ Forall2 (parsed_from self)
           (List.filter (listed_as media_type) entries) items
      /\ (length items <= length entries)%nat
      /\ (media_type = Some SEASON \/ media_type = Some EPISODE -> items = []).
Proof.
  intros H self user list_id media_type h h' items Hrun.
  unfold Trakt.get_list in Hrun.
  apply bind_inv_Return in Hrun as (response & h1 & Hreq & Hrun).
  apply bind_inv_Return in Hrun as ([] & h2 & Hstatus & Hrun).
  apply bind_inv_Return in Hrun as (body & h3 & Hjson & Hrun).
  apply bind_inv_Return in Hrun as (entries & h4 & Hiter & Hrun).
  unfold Radarr.raise_for_status in Hstatus. cbv zeta in Hstatus.
  destruct (_ && _); [|discriminate]. injection Hstatus as <-.
  unfold Radarr.json in Hjson.
  destruct (Response.json response) as [j|] eqn:Hbody; [|discriminate].
  injection Hjson as <- <-.
  unfold lift_result in Hiter. injection Hiter as Hiter <-.
  apply collect_spec in Hrun as (-> & new & -> & Hall). cbn [app] in *.
  exists response, j, entries. split_and!; try done.
  - rewrite <- (Forall2_length _ _ _ Hall).
    apply sublist_length, filter_sublist_of.
  - intros Hkind.
    assert (List.filter (listed_as media_type) entries = []) as Hnone.
    { clear -Hkind. induction entries as [|entry rest IH]; [done|].
      cbn [List.filter]. by rewrite (listed_as_other_kinds _ _ Hkind). }
    rewrite Hnone in Hall. by inversion Hall.
Qed.

Lemma get_list_keeps_what_was_asked_for_witness :
  let parse (data : Json) : Result MediaItem.t :=
    match getitem data "title", getitem data "tmdb" with
    | Return (JStr title), Return (JInt id) => Return (movie title (Some id))
    | _, _ => Raise TypeError
    end in
  let entry (kind title : string) (id : Z) : Json :=
    JDict [("type", JStr kind);
           (kind, JDict [("title", JStr title); ("tmdb", JInt id)])] in
  let self :=
    Trakt.mk (H:=unit) (fun _ _ _ _ h =>
      (Return (Arr.answer 200
                 (JList [entry "movie" "Heat" 949; entry "person" "Mann" 1;
                         entry "show" "Dark" 70523])), h))
      parse parse in
  Trakt.get_list self "me" "favourites" (Some MOVIE) tt
  = (Return [movie "Heat" (Some 949)], tt)
  /\ Trakt.get_list self "me" "favourites" (Some SEASON) tt = (Return [], tt).
Proof.
  intros parse entry self. split; [vm_compute; reflexivity|].
  assert (Trakt.get_list self "me" "favourites" (Some SEASON) tt
          = (Return
               (value_of []
                  (fst (Trakt.get_list self "me" "favourites" (Some SEASON) tt))),
             tt)) as Hrun by (vm_compute; reflexivity).
  destruct (get_list_keeps_what_was_asked_for _ self "me" "favourites"
              (Some SEASON) tt tt _ Hrun)
    as (response & body & entries & _ & _ & _ & _ & _ & Hnone).
  rewrite Hrun. rewrite (Hnone (or_introl eq_refl)). reflexivity.
Defined.

(** ** The scheduler *)







(** ** The kind of a library *)





Lemma trakt_chart_makes_at_most_one_call_witness :
  let trakt : TraktClient.t Sim.World :=
    TraktClient.mk (fun _ => ret []) (fun _ => ret []) (fun _ => ret [])
      (fun _ => ret []) (fun _ _ => ret [Sim.matrix]) (fun _ _ => ret []) in
  let self :=
    CollectionBuilder.mk Sim.jellyfin Sim.tmdb (Some trakt) None None false
      Sim.matcher in
  let s := Sim.start Sim.radarr_up_server in
  _fetch_trakt_chart self [("limit", AInt 5)] MOVIE s
  = (Return [Sim.matrix],
     mkState (world s)
       [(CallFetch "trakt" "get_watched_movies" [AStr "weekly"; AInt 5],
         Returned)]
       (stats s))
  /\ _fetch_trakt_chart self [("chart", AStr "anticipated")] MOVIE s
     = (Return [], s).
Proof.
  intros trakt self s.
  assert (forall v, ("chart", v) ∉ [("limit", AInt 5)]) as Hnochart.
  { intros v Hin. apply list_elem_of_singleton in Hin. discriminate. }
  assert (dict_get [("chart", AStr "anticipated")] "chart" (AStr "watched")
          <> AStr "watched"
          /\ dict_get [("chart", AStr "anticipated")] "chart" (AStr "watched")
             <> AStr "trending"
          /\ dict_get [("chart", AStr "anticipated")] "chart" (AStr "watched")
             <> AStr "popular") as Hunknown
    by (split_and!; discriminate).
  split.
  - rewrite (proj2 (proj2 (trakt_chart_makes_at_most_one_call _ self
                             [("limit", AInt 5)] MOVIE s))
               trakt _ _ eq_refl Hnochart eq_refl eq_refl).
    reflexivity.
  - exact (proj1 (proj2 (trakt_chart_makes_at_most_one_call _ self
                           [("chart", AStr "anticipated")] MOVIE s))
             Hunknown).
Defined.

(** ** Selections *)

Lemma for_each_ext {S A} (l : list A) (body body' : A -> M S unit) :
  (forall x s, body x s = body' x s) ->
  forall s, for_each l body s = for_each l body' s.
Proof.
  intros Hext. induction l as [|x l IH]; intros s; [done|].
  cbn [for_each]. unfold bind. rewrite Hext.
  destruct (body' x s) as [[[]|e] s1]; [apply IH|done].
Qed.

Lemma run_config_empty_selection {W} (self : Runner.t W) scheduled
    library_name library_id media_type config s :
  run_config self (Some []) scheduled library_name library_id media_type
    config s
  = run_config self None scheduled library_name library_id media_type config s.
Proof. reflexivity. Qed.

(** X28: an empty selection selects everything. A run that is given an
    empty list of libraries, or an empty list of collections, does what a
    run without that selection does; a selection that is not empty skips
    every collection it does not name, without a call and without a change
    to the statistics. *)
Theorem empty_selection_selects_everything :
  forall W (self : Runner.t W) libraries collections scheduled (s : State W),
    run self (Some []) collections scheduled s
    = run self None collections scheduled s
    /\ run self libraries (Some []) scheduled s
       = run self libraries None scheduled s
    /\ (forall names library_name library_id media_type config,
           names <> [] ->
           (CollectionConfig.name config ∉ names) ->
           run_config self (Some names) scheduled library_name library_id
             media_type config s = (Return tt, s)).
Proof.
  intros W self libraries collections scheduled s. split_and!.
  - reflexivity.
  - unfold run. apply bind_ext. intros [] s0.
    apply bind_ext. intros all_collections s1. cbv zeta.
    apply bind_ext. intros ok s2.
    apply bind_ext. intros jellyfin_libraries s3.
    unfold bind at 1 3.
    rewrite (for_each_ext _
               (run_library self (Some []) scheduled
                  (library_id_map_of jellyfin_libraries))
               (run_library self None scheduled
                  (library_id_map_of jellyfin_libraries))); [done|].
    intros entry s4. unfold run_library. cbv zeta.
    destruct (negb _); [done|].
    apply for_each_ext. intros config s5. apply run_config_empty_selection.
  - intros names library_name library_id media_type config Hne Hnotin.
    unfold run_config, selected.
    assert (truthy (Some names) = true) as -> by (by destruct names).
    cbn [default andb].
    by rewrite bool_decide_eq_false_2.
Qed.

Lemma empty_selection_selects_everything_witness :
  let self := Sim.runner Sim.scenario_E_configs false in
  let s := Sim.start Sim.scenario_E_server in
  ["A"; "C"] <> []
  /\ ("B" ∉ ["A"; "C"])
  /\ run_config self (Some ["A"; "C"]) false "Movies" "lib-1" MOVIE
       (Sim.popular "B" 1) s = (Return tt, s).
Proof.
  intros self s.
  assert (["A"; "C"] <> @nil string) as Hne by discriminate.
  assert ("B" ∉ ["A"; "C"]) as Hnotin.
  { intros Hin. apply list_elem_of_In in Hin.
    destruct Hin as [Heq|[Heq|[]]]; discriminate. }
  split; [exact Hne|]. split; [exact Hnotin|].
  exact (proj2 (proj2 (empty_selection_selects_everything _ self None None
                         false s))
           ["A"; "C"] "Movies" "lib-1" MOVIE (Sim.popular "B" 1) Hne Hnotin).
Defined.
